(** * Reconciliation handlers for load balancers, listeners and listener rules

    A shallow embedding of the three Lambda handlers

      - [src/listener/lambda_function.py]
      - [src/rule/lambda_function.py]
      - [src/load_balancer/lambda_function.py]

    The handlers are Python programs that mutate one global
    [ExtensionHandler] object ([eh]) and talk to the provider through a
    boto3 client.  Both are modelled by explicit state passing: a [world]
    holds the handler object and the list of remote calls made so far, and
    every operation is a computation in a small state-and-exception monad.
    JSON-like Python values are modelled by [pyval]; Python dictionaries
    keep their insertion order and compare without regard to it. *)

From Stdlib Require Import String Ascii ZArith List Bool Lia DecimalString.
Import ListNotations.
Open Scope string_scope.
Open Scope Z_scope.
Set Warnings "-register-all".

(* ================================================================== *)
(** ** Python values *)
(* ================================================================== *)

(** The values that travel through the handlers: what [json] decoding of
    the event produces and what boto3 returns.  Floating point numbers do
    not occur in the fields the handlers read and are left out. *)
Inductive pyval : Type :=
| PNone
| PBool (b : bool)
| PInt (z : Z)
| PStr (s : string)
| PList (xs : list pyval)
| PDict (kvs : list (pyval * pyval)).

(** A dictionary is the list of its items in insertion order. *)
Definition pydict : Type := list (pyval * pyval).

(** Python's [==].  [bool] is a subclass of [int], so [True == 1];
    lists compare element-wise; dictionaries compare as maps. *)
Fixpoint py_eqb (a b : pyval) {struct a} : bool :=
  match a, b with
  | PNone, PNone => true
  | PBool x, PBool y => Bool.eqb x y
  | PBool x, PInt y => Z.eqb (Z.b2z x) y
  | PInt x, PBool y => Z.eqb x (Z.b2z y)
  | PInt x, PInt y => Z.eqb x y
  | PStr x, PStr y => String.eqb x y
  | PList xs, PList ys =>
      (fix go (l1 l2 : list pyval) {struct l1} : bool :=
         match l1, l2 with
         | [], [] => true
         | x :: l1', y :: l2' => py_eqb x y && go l1' l2'
         | _, _ => false
         end) xs ys
  | PDict d1, PDict d2 =>
      Nat.eqb (length d1) (length d2) &&
      (fix all (d : list (pyval * pyval)) {struct d} : bool :=
         match d with
         | [] => true
         | (k, v) :: d' =>
             (fix find (e : list (pyval * pyval)) {struct e} : bool :=
                match e with
                | [] => false
                | (k', v') :: e' => if py_eqb k k' then py_eqb v v' else find e'
                end) d2 && all d'
         end) d1
  | _, _ => false
  end.

Definition py_neqb (a b : pyval) : bool := negb (py_eqb a b).

(** Truth value testing ([if x:], [x or y], [x and y]). *)
Definition py_truthy (v : pyval) : bool :=
  match v with
  | PNone => false
  | PBool b => b
  | PInt z => negb (Z.eqb z 0)
  | PStr s => negb (String.eqb s EmptyString)
  | PList xs => match xs with [] => false | _ => true end
  | PDict kvs => match kvs with [] => false | _ => true end
  end.

(** [x or y] *)
Definition py_or (x y : pyval) : pyval := if py_truthy x then x else y.

(* ------------------------------------------------------------------ *)
(** *** Dictionaries *)

(** [k in d], [d.get(k)] as an option. *)
Fixpoint dict_find (d : pydict) (k : pyval) : option pyval :=
  match d with
  | [] => None
  | (k', v) :: d' => if py_eqb k' k then Some v else dict_find d' k
  end.

Definition dict_mem (d : pydict) (k : pyval) : bool :=
  match dict_find d k with Some _ => true | None => false end.

(** [d.get(k, default)] *)
Definition dict_get_default (d : pydict) (k : pyval) (default : pyval) : pyval :=
  match dict_find d k with Some v => v | None => default end.

(** [d.get(k)] *)
Definition dict_get (d : pydict) (k : pyval) : pyval := dict_get_default d k PNone.

(** [d[k] = v]: an existing key keeps its position, a new one goes last. *)
Fixpoint dict_set (d : pydict) (k v : pyval) : pydict :=
  match d with
  | [] => [(k, v)]
  | (k', v') :: d' =>
      if py_eqb k' k then (k', v) :: d' else (k', v') :: dict_set d' k v
  end.

(** [d.update(e)] *)
Definition dict_update (d e : pydict) : pydict :=
  fold_left (fun acc kv => dict_set acc (fst kv) (snd kv)) e d.

(** [d.pop(k, None)], result dropped. *)
Fixpoint dict_pop (d : pydict) (k : pyval) : pydict :=
  match d with
  | [] => []
  | (k', v') :: d' => if py_eqb k' k then d' else (k', v') :: dict_pop d' k
  end.

(** [d.keys()] and [d.items()] in insertion order. *)
Definition dict_keys (d : pydict) : list pyval := map fst d.
Definition dict_items (d : pydict) : list (pyval * pyval) := d.

(** A dictionary display [{k1: v1, k2: v2, ...}]: later items overwrite. *)
Definition dict_lit (items : list (pyval * pyval)) : pydict := dict_update [] items.

(** String keys are by far the common case. *)
Definition sget (d : pydict) (k : string) : pyval := dict_get d (PStr k).
Definition sset (d : pydict) (k : string) (v : pyval) : pydict := dict_set d (PStr k) v.


(** Keyword arguments and dictionary displays whose keys are string
    literals. *)
Definition kw (items : list (string * pyval)) : pydict :=
  dict_lit (map (fun kv => (PStr (fst kv), snd kv)) items).

(* ------------------------------------------------------------------ *)
(** *** Exceptions and results *)

(** The exceptions the handlers can meet.  A provider error is a
    [ClientError]; [cls] is the name of its class under
    [client.exceptions] (every such class derives from [ClientError]) and
    [msg] is [str(e)]. *)
Inductive exn : Type :=
| ClientError (cls : string) (msg : string)
| KeyError (k : pyval)
| UnboundLocalError (var : string)
| TypeError (what : string)
| AttributeError (what : string)
| IndexError
| ValueError (what : string).

Inductive res (A : Type) : Type :=
| Ok (a : A)
| Raise (e : exn).
Arguments Ok {A} a.
Arguments Raise {A} e.

Definition rbind {A B} (r : res A) (k : A -> res B) : res B :=
  match r with Ok a => k a | Raise e => Raise e end.

Notation "x <~ c ;; k" := (rbind c (fun x => k))
  (at level 61, c at next level, right associativity).

(** [v.get(k, default)] on an arbitrary value: only dictionaries have it. *)
Definition py_get_default (v : pyval) (k : string) (default : pyval) : res pyval :=
  match v with
  | PDict d => Ok (dict_get_default d (PStr k) default)
  | _ => Raise (AttributeError "get")
  end.

(** [v.get(k)] *)
Definition py_get (v : pyval) (k : string) : res pyval := py_get_default v k PNone.

(** [v[k]] for a string key. *)
Definition py_item (v : pyval) (k : string) : res pyval :=
  match v with
  | PDict d => match dict_find d (PStr k) with
               | Some x => Ok x
               | None => Raise (KeyError (PStr k))
               end
  | _ => Raise (TypeError "subscript")
  end.

(** [v[0]] *)
Definition py_first (v : pyval) : res pyval :=
  match v with
  | PList (x :: _) => Ok x
  | PList [] => Raise IndexError
  | PStr s => match s with
              | EmptyString => Raise IndexError
              | String c _ => Ok (PStr (String c EmptyString))
              end
  | PDict d => match dict_find d (PInt 0) with
               | Some x => Ok x
               | None => Raise (KeyError (PInt 0))
               end
  | _ => Raise (TypeError "subscript")
  end.

(** [len(v)] *)
Definition py_len (v : pyval) : res Z :=
  match v with
  | PList xs => Ok (Z.of_nat (length xs))
  | PDict d => Ok (Z.of_nat (length d))
  | PStr s => Ok (Z.of_nat (String.length s))
  | _ => Raise (TypeError "len")
  end.

(** [for x in v]: the elements of a list, the keys of a dictionary, the
    characters of a string. *)
Definition py_iter (v : pyval) : res (list pyval) :=
  match v with
  | PList xs => Ok xs
  | PDict d => Ok (dict_keys d)
  | PStr s => Ok (map (fun c => PStr (String c EmptyString)) (list_ascii_of_string s))
  | _ => Raise (TypeError "iter")
  end.

(** [v.items()] *)
Definition py_items (v : pyval) : res (list (pyval * pyval)) :=
  match v with
  | PDict d => Ok d
  | _ => Raise (AttributeError "items")
  end.

(** Sequencing over a list, left to right, stopping at the first exception. *)
Fixpoint rmap {A B} (f : A -> res B) (l : list A) : res (list B) :=
  match l with
  | [] => Ok []
  | x :: l' => y <~ f x ;; ys <~ rmap f l' ;; Ok (y :: ys)
  end.

Fixpoint rfold {A B} (f : B -> A -> res B) (l : list A) (acc : B) : res B :=
  match l with
  | [] => Ok acc
  | x :: l' => acc' <~ f acc x ;; rfold f l' acc'
  end.

(** [x is None] *)
Definition is_none (v : pyval) : bool :=
  match v with PNone => true | _ => false end.

(** Lists and dictionaries cannot be dictionary keys. *)
Definition hashable (v : pyval) : bool :=
  match v with PList _ | PDict _ => false | _ => true end.

(** [str.lower()] on the ASCII letters. *)
Definition lower_ascii (c : ascii) : ascii :=
  let n := nat_of_ascii c in
  if (Nat.leb 65 n && Nat.leb n 90)%bool then ascii_of_nat (n + 32) else c.

Fixpoint lower (s : string) : string :=
  match s with
  | EmptyString => EmptyString
  | String c s' => String (lower_ascii c) (lower s')
  end.

(* ================================================================== *)
(** ** The execution environment *)
(* ================================================================== *)

(** One line of the log trail ([eh.add_log(title, details, is_error)]). *)
Record log_entry : Type := mk_log
  { log_title : string; log_details : pyval; log_is_error : bool }.

(** What [declare_return] records: the handler has decided how the
    invocation ends.  [callback] tells a retry from a permanent end. *)
Record declared : Type := mk_declared
  { status_code : Z;
    progress : Z;
    error_code : pyval;
    callback : bool;
    callback_sec : Z }.

(** The fields of [ExtensionHandler] the handlers read and write. *)
Record ExtensionHandler : Type := mk_eh
  { ops : pydict;
    props : pydict;
    links : pydict;
    state : pydict;
    retries : pydict;
    logs : list log_entry;
    ret : option declared }.

(** A remote call: the client method and its keyword arguments. *)
Definition call : Type := (string * pydict)%type.

(** The handler object and the remote calls made so far. *)
Record world : Type := mk_world
  { eh : ExtensionHandler;
    calls : list call }.

(** What the handlers use and this repository does not define: the
    provider behind the boto3 client (its answer may depend on the calls
    made before), the helpers imported from [extutil] that are opaque
    here ([resume] decodes the [pass_back_data] of a retry), and the
    text conversions of the Python runtime. *)
Record Env : Type := mk_env
  { client : list call -> string -> pydict -> res pyval;
    handle_common_errors : exn -> string -> Z -> ExtensionHandler -> ExtensionHandler;
    resume : pyval -> ExtensionHandler;
    account_context : pyval -> pyval;
    component_safe_name : pyval -> pyval -> pyval -> pyval;
    current_epoch_time_usec_num : Z;
    py_repr : pyval -> string;
    int_of_str : string -> option Z;
    str_of_int : Z -> string;
    exn_str : exn -> string;
    format_exc : exn -> string }.

(** [str(v)] and [f"{v}"]. *)
Definition py_str (E : Env) (v : pyval) : string :=
  match v with
  | PStr s => s
  | PInt z => str_of_int E z
  | PBool true => "True"
  | PBool false => "False"
  | PNone => "None"
  | PList _ | PDict _ => py_repr E v
  end.

(** [int(v)] *)
Definition py_int (E : Env) (v : pyval) : res Z :=
  match v with
  | PInt z => Ok z
  | PBool b => Ok (Z.b2z b)
  | PStr s => match int_of_str E s with
              | Some z => Ok z
              | None => Raise (ValueError "int")
              end
  | _ => Raise (TypeError "int")
  end.

(** [str(e)] for an exception: the provider's message for a
    [ClientError], the runtime's text otherwise. *)
Definition str_exn (E : Env) (e : exn) : string :=
  match e with
  | ClientError _ msg => msg
  | _ => exn_str E e
  end.

(** [except client.exceptions.<cls>] *)
Definition exn_is (cls : string) (e : exn) : bool :=
  match e with
  | ClientError c _ => String.eqb c cls
  | _ => false
  end.

(** [except ClientError] *)
Definition is_client_error (e : exn) : bool :=
  match e with
  | ClientError _ _ => true
  | _ => false
  end.

(* ------------------------------------------------------------------ *)
(** *** The state-and-exception monad *)

(** A raised exception leaves the mutations made so far in place, as
    with Python's global [eh]. *)
Definition M (A : Type) : Type := world -> res A * world.

Definition mret {A} (a : A) : M A := fun w => (Ok a, w).

Definition mbind {A B} (c : M A) (k : A -> M B) : M B :=
  fun w => match c w with
           | (Ok a, w') => k a w'
           | (Raise e, w') => (Raise e, w')
           end.

Notation "x <- c ;; k" := (mbind c (fun x => k))
  (at level 61, c at next level, right associativity).
Notation "c ;;; k" := (mbind c (fun _ => k))
  (at level 61, right associativity).

Definition lift {A} (r : res A) : M A := fun w => (r, w).

Definition raise {A} (e : exn) : M A := fun w => (Raise e, w).

Definition get_eh : M ExtensionHandler := fun w => (Ok (eh w), w).

Definition modify_eh (f : ExtensionHandler -> ExtensionHandler) : M unit :=
  fun w => (Ok tt, mk_world (f (eh w)) (calls w)).

(** [try: body  except ...: handler].  [handler e = None] when no clause
    matches [e], which then propagates. *)
Definition try_except {A} (body : M A) (handler : exn -> option (M A)) : M A :=
  fun w => match body w with
           | (Ok a, w') => (Ok a, w')
           | (Raise e, w') => match handler e with
                              | Some h => h w'
                              | None => (Raise e, w')
                              end
           end.

Definition when (b : bool) (c : M unit) : M unit := if b then c else mret tt.

(** A call through the boto3 client: recorded, then answered by the
    provider. *)
Definition boto (E : Env) (method : string) (kwargs : pydict) : M pyval :=
  fun w => (client E (calls w) method kwargs,
            mk_world (eh w) (calls w ++ [(method, kwargs)])).

(* ================================================================== *)
(** ** The handler object of [extutil] *)
(* ================================================================== *)

(** [extutil] is imported by the three handlers and is not part of
    [src/].  The definitions of this section follow the handlers' own
    documentation of the [eh] calls (the module docstring of each
    [lambda_function.py]) and sections 3, 4.3 and 6 of the
    specification. *)

(** Modelled from the spec: [ExtensionHandler()], a handler with an empty
    ledger, an empty queue and no declared return. *)
Definition eh_empty : ExtensionHandler := mk_eh [] [] [] [] [] [] None.

(** Modelled from the spec: [eh.add_op(op, value=True)] marks [op] as
    due, with its payload; enqueueing a name twice keeps one entry. *)
Definition add_op (op : string) (payload : pyval) (h : ExtensionHandler)
  : ExtensionHandler :=
  mk_eh (sset (ops h) op payload) (props h) (links h) (state h)
        (retries h) (logs h) (ret h).

(** Modelled from the spec: [eh.complete_op(op)] takes a dispatched
    operation off the queue. *)
Definition complete_op (op : string) (h : ExtensionHandler) : ExtensionHandler :=
  mk_eh (dict_pop (ops h) (PStr op)) (props h) (links h) (state h)
        (retries h) (logs h) (ret h).

(** Modelled from the spec: [eh.add_props(d)], merge-on-write. *)
Definition add_props (d : pydict) (h : ExtensionHandler) : ExtensionHandler :=
  mk_eh (ops h) (dict_update (props h) d) (links h) (state h)
        (retries h) (logs h) (ret h).

(** Modelled from the spec: [eh.add_links(d)], merge-on-write. *)
Definition add_links (d : pydict) (h : ExtensionHandler) : ExtensionHandler :=
  mk_eh (ops h) (props h) (dict_update (links h) d) (state h)
        (retries h) (logs h) (ret h).

(** Modelled from the spec: [eh.add_state(d)] "takes a dictionary, merges
    existing with new". *)
Definition add_state (d : pydict) (h : ExtensionHandler) : ExtensionHandler :=
  mk_eh (ops h) (props h) (links h) (dict_update (state h) d)
        (retries h) (logs h) (ret h).

(** Modelled from the spec: [eh.add_log(title, details, is_error)]. *)
Definition add_log (title : string) (details : pyval) (is_error : bool)
           (h : ExtensionHandler) : ExtensionHandler :=
  mk_eh (ops h) (props h) (links h) (state h) (retries h)
        (logs h ++ [mk_log title details is_error]) (ret h).

(** Modelled from the spec: [eh.declare_return(status, progress,
    error_code=..., callback=..., callback_sec=...)] fixes how the
    invocation ends. *)
Definition declare_return (status prog : Z) (error : pyval) (cb : bool)
           (cb_sec : Z) (h : ExtensionHandler) : ExtensionHandler :=
  mk_eh (ops h) (props h) (links h) (state h) (retries h) (logs h)
        (Some (mk_declared status prog error cb cb_sec)).

(** Modelled from the spec: [eh.perm_error(message, progress)]
    "permanently fail[s] the component deployment": a declared return
    with an error and no callback. *)
Definition perm_error (error : pyval) (prog : Z) (h : ExtensionHandler)
  : ExtensionHandler :=
  declare_return 200 prog error false 0 h.

(** The handlers' docstring: a retry under the same id "fail[s] out
    after 6 tries". *)
Definition retry_limit : Z := 6.

Definition retry_count (h : ExtensionHandler) (id : pyval) : Z :=
  match dict_find (retries h) id with
  | Some (PInt n) => n
  | _ => 0
  end.

(** Modelled from the spec: [eh.retry_error(id, progress, callback_sec)]
    "is how to wait and try again": it counts the tries made under [id]
    and declares a return with a callback, or a permanent error once the
    bound of tries is passed. *)
Definition retry_error (id : pyval) (prog cb_sec : Z) (h : ExtensionHandler)
  : ExtensionHandler :=
  let n := retry_count h id + 1 in
  let h' := mk_eh (ops h) (props h) (links h) (state h)
                  (dict_set (retries h) id (PInt n)) (logs h) (ret h) in
  if retry_limit <? n
  then perm_error id prog h'
  else declare_return 200 prog id true cb_sec h'.

(** A declared return that is a permanent error / a request to be
    called again. *)
Definition is_perm_error (h : ExtensionHandler) : bool :=
  match ret h with
  | Some d => negb (callback d)
  | None => false
  end.

Definition is_retry (h : ExtensionHandler) : bool :=
  match ret h with
  | Some d => callback d
  | None => false
  end.

Definition has_returned (h : ExtensionHandler) : bool :=
  match ret h with Some _ => true | None => false end.

(** Modelled from the spec: [eh.capture_event(event)] "copies the
    operations, props, links, retry data, and remaining operations that
    are sent from CloudKommand": the handler is resumed from
    [pass_back_data] when the event carries one, and starts empty
    otherwise.  The layout of the resume payload is opaque; [resume]
    decodes it. *)
Definition capture_event (resume : pyval -> ExtensionHandler) (event : pyval)
  : res ExtensionHandler :=
  pbd <~ py_get_default event "pass_back_data" (PDict []) ;;
  Ok (if py_truthy pbd then resume pbd else eh_empty).

(** Modelled from the spec: [remove_none_attributes(d)] drops the items
    whose value is [None]. *)
Definition remove_none_attributes (d : pydict) : pydict :=
  filter (fun kv => negb (is_none (snd kv))) d.

(** The monadic faces of the [eh] calls. *)
Definition eh_add_op (op : string) (payload : pyval) : M unit :=
  modify_eh (add_op op payload).
Definition eh_add_props (d : pydict) : M unit := modify_eh (add_props d).
Definition eh_add_links (d : pydict) : M unit := modify_eh (add_links d).
Definition eh_add_state (d : pydict) : M unit := modify_eh (add_state d).
Definition eh_add_log (title : string) (details : pyval) (is_error : bool) : M unit :=
  modify_eh (add_log title details is_error).
Definition eh_perm_error (error : pyval) (prog : Z) : M unit :=
  modify_eh (perm_error error prog).
Definition eh_retry_error (id : pyval) (prog cb_sec : Z) : M unit :=
  modify_eh (retry_error id prog cb_sec).

(** [eh.state[k]] *)
Definition eh_state_item (k : string) : M pyval :=
  fun w => (py_item (PDict (state (eh w))) k, w).

(** [eh.ops.get(k)] *)
Definition eh_ops_get (k : string) : M pyval :=
  fun w => (Ok (sget (ops (eh w)) k), w).

(** Modelled from the spec: the decorator [@ext(handler=eh, op=...)]
    "runs the function if its operation is present and there isn't
    already a retry declared"; the pass ends at a declared return, so a
    decorated function does nothing after one.  An operation that ran
    without declaring a return is taken off the queue. *)
Definition ext (op : string) (f : M unit) : M unit :=
  fun w =>
    if has_returned (eh w) then (Ok tt, w)
    else if py_truthy (sget (ops (eh w)) op) then
      match f w with
      | (Ok _, w') =>
          (Ok tt, if has_returned (eh w') then w'
                  else mk_world (complete_op op (eh w')) (calls w'))
      | (Raise e, w') => (Raise e, w')
      end
    else (Ok tt, w).

(** What the invocation hands back to the platform. *)
Record response : Type := mk_response
  { r_status_code : Z;
    r_progress : Z;
    r_success : bool;
    r_error : pyval;
    r_callback_sec : option Z;
    r_props : pydict;
    r_links : pydict;
    r_logs : list log_entry;
    r_pass_back : option ExtensionHandler }.

(** Modelled from the spec: [eh.finish()] "just finishes the deployment
    and sends back message and progress"; "finishing auto-sets progress
    to 100" when no return was declared, a permanent error reports the
    progress of the failing operation, and a retry carries the delay and
    the ledger and queue to resume from. *)
Definition finish (h : ExtensionHandler) : response :=
  match ret h with
  | None =>
      mk_response 200 100 true PNone None (props h) (links h) (logs h) None
  | Some d =>
      if callback d
      then mk_response (status_code d) (progress d) false (error_code d)
                       (Some (callback_sec d)) (props h) (links h) (logs h) (Some h)
      else mk_response (status_code d) (progress d) false (error_code d)
                       None (props h) (links h) (logs h) None
  end.

(* ================================================================== *)
(** ** Code shared by the three handlers *)
(* ================================================================== *)

Fixpoint rfilter {A} (f : A -> res bool) (l : list A) : res (list A) :=
  match l with
  | [] => Ok []
  | x :: l' =>
      b <~ f x ;; ys <~ rfilter f l' ;; Ok (if b then x :: ys else ys)
  end.

(** [str(x) if x else x] *)
Definition str_if (E : Env) (x : pyval) : pyval :=
  if py_truthy x then PStr (py_str E x) else x.

(** [int(x) if x else x] *)
Definition int_if (E : Env) (x : pyval) : res pyval :=
  if py_truthy x then z <~ py_int E x ;; Ok (PInt z) else Ok x.

(** [{item.get("Key") : item.get("Value") for item in tags}], the
    comprehension of the listener and load balancer handlers. *)
Definition tags_to_dict (tags : pyval) : res pydict :=
  items <~ py_iter tags ;;
  rfold (fun acc item =>
           k <~ py_get item "Key" ;;
           v <~ py_get item "Value" ;;
           if hashable k then Ok (dict_set acc k v)
           else Raise (TypeError "unhashable"))
        items [].

(** [[{"Key": f"{key}", "Value": f"{value}"} for key, value in
    tags.items()]] *)
Definition expand_dict_to_key_value_list_obj (E : Env) (obj : pyval) : res pyval :=
  items <~ py_items obj ;;
  Ok (PList (map (fun kv => PDict (kw [("Key", PStr (py_str E (fst kv)));
                                       ("Value", PStr (py_str E (snd kv)))]))
                 items)).

(** [[k for k in current_tags.keys() if k not in formatted_tags]] *)
Definition stale_keys (current_tags formatted_tags : pydict) : list pyval :=
  filter (fun k => negb (dict_mem formatted_tags k)) (dict_keys current_tags).

(** [{k:v for k,v in formatted_tags.items() if v != current_tags.get(k)}] *)
Definition changed_items (current_tags formatted_tags : pydict) : pydict :=
  dict_lit (filter (fun kv => py_neqb (snd kv) (dict_get current_tags (fst kv)))
                   (dict_items formatted_tags)).

(** The operations the tag comparison enqueues, given the two
    dictionaries.  [desired] is [attributes.get("Tags")]. *)
Definition enqueue_tag_ops (desired : pyval) (to_dict : pyval -> res pydict)
           (current_tags : pydict) : M unit :=
  if py_truthy desired then
    formatted_tags <- lift (to_dict desired) ;;
    if py_neqb (PDict formatted_tags) (PDict current_tags) then
      let remove_tags := stale_keys current_tags formatted_tags in
      let add_tags := changed_items current_tags formatted_tags in
      when (py_truthy (PList remove_tags))
           (eh_add_op "remove_tags" (PList remove_tags)) ;;;
      when (py_truthy (PDict add_tags))
           (eh_add_op "set_tags" (PDict add_tags))
    else mret tt
  else
    when (py_truthy (PDict current_tags))
         (eh_add_op "remove_tags" (PList (dict_keys current_tags))).

(** The body of the [try] that fetches and compares the tags; it is
    repeated verbatim in the read and the create operation of every
    handler, up to the function [to_dict] that turns a tag list into a
    dictionary. *)
Definition diff_tags (E : Env) (to_dict : pyval -> res pydict)
           (arn : pyval) (attributes : pydict) : M unit :=
  response <- boto E "describe_tags" (kw [("ResourceArns", PList [arn])]) ;;
  eh_add_log "Got Tags" (PDict []) false ;;;
  relevant_items <- lift (tds <~ py_get response "TagDescriptions" ;;
                          items <~ py_iter tds ;;
                          rfilter (fun item => a <~ py_get item "ResourceArn" ;;
                                               Ok (py_eqb a arn)) items) ;;
  current_tags <- lift (match relevant_items with
                        | [] => Ok []
                        | relevant_item :: _ =>
                            t <~ py_get relevant_item "Tags" ;;
                            if py_truthy t then to_dict t else Ok []
                        end) ;;
  enqueue_tag_ops (sget attributes "Tags") to_dict current_tags.

(** A run of [except client.exceptions.<cls> as e] clauses that all log
    a title with [{"error": str(e)}] and declare a permanent error
    [str(e)] at one progress value.  The first clause that matches
    wins. *)
Definition perm_clauses (E : Env) (table : list (string * string)) (prog : Z)
           (e : exn) : option (M unit) :=
  match find (fun c => exn_is (fst c) e) table with
  | Some c =>
      Some (eh_add_log (snd c) (PDict (kw [("error", PStr (str_exn E e))])) true ;;;
            eh_perm_error (PStr (str_exn E e)) prog)
  | None => None
  end.

(** [except ClientError as e: handle_common_errors(e, eh, msg, progress)] *)
Definition common_clause (E : Env) (msg : string) (prog : Z) (e : exn)
  : option (M unit) :=
  if is_client_error e
  then Some (modify_eh (handle_common_errors E e msg prog))
  else None.

(** One [except client.exceptions.<cls>] clause. *)
Definition clause (cls : string) (h : exn -> M unit) (e : exn) : option (M unit) :=
  if exn_is cls e then Some (h e) else None.

(** The clauses of a [try] statement, tried in order. *)
Fixpoint clauses (cs : list (exn -> option (M unit))) (e : exn) : option (M unit) :=
  match cs with
  | [] => None
  | c :: cs' => match c e with
                | Some h => Some h
                | None => clauses cs' e
                end
  end.

(** The top of every [lambda_handler]: run the body; an exception that
    escapes it is logged and reported with progress 0. *)
Definition run_handler (E : Env) (body : M unit) : world -> response * world :=
  fun w0 =>
    match body w0 with
    | (Ok _, w) => (finish (eh w), w)
    | (Raise e, w) =>
        let h := add_log "Unexpected Error"
                         (PDict (kw [("error", PStr (format_exc E e))])) true (eh w) in
        let h := declare_return 200 0 (PStr (str_exn E e)) false 0 h in
        (finish h, mk_world h (calls w))
    end.

(** [eh.capture_event(event)] on the global handler object. *)
Definition eh_capture_event (E : Env) (event : pyval) : M unit :=
  h <- lift (capture_event (resume E) event) ;;
  modify_eh (fun _ => h).

(** [response and response.get(k) and len(response.get(k)) > 0] *)
Definition nonempty_field (response : pyval) (k : string) : res bool :=
  if py_truthy response then
    ls <~ py_get response k ;;
    if py_truthy ls then n <~ py_len ls ;; Ok (0 <? n) else Ok false
  else Ok false.

(** [{i: d[i] for i in d if i not in names}] *)
Definition without_keys (names : list string) (d : pydict) : pydict :=
  dict_lit (filter (fun kv => negb (existsb (fun n => py_eqb (fst kv) (PStr n)) names)) d).

(** [[{"Key": key, "Value": value} for key, value in tags.items()]] *)
Definition key_value_list (tags : pyval) : res pyval :=
  items <~ py_items tags ;;
  Ok (PList (map (fun kv => PDict (kw [("Key", fst kv); ("Value", snd kv)])) items)).

(** [prev_state["props"][k]] under a bare [try: ... except: pass]; the
    reads stop at the first one that fails, and the names not yet
    assigned keep their [None]. *)
Fixpoint read_old_props (prev_state : pyval) (names : list string) : list pyval :=
  match names with
  | [] => []
  | n :: names' =>
      match (p <~ py_item prev_state "props" ;; py_item p n) with
      | Ok v => v :: read_old_props prev_state names'
      | Raise _ => map (fun _ => PNone) names
      end
  end.

(* ================================================================== *)
(** ** [src/listener/lambda_function.py] *)
(* ================================================================== *)

Module Listener.
Section Handler.
Context (E : Env).

Definition default_ssl_policy : string := "ELBSecurityPolicy-TLS13-1-2-2021-06".

Definition non_editable_error_message : string :=
  "You may not edit the Load Balancer ARN or the port of an existing listener. Please create a new component to get the desired configuration.".

Definition gen_listener_link (region load_balancer_arn port : pyval) : pyval :=
  PStr ("https://" ++ py_str E region
        ++ ".console.aws.amazon.com/ec2/home?region=" ++ py_str E region
        ++ "#ELBListenerV2:loadBalancerArn=" ++ py_str E load_balancer_arn
        ++ ";listenerPort=" ++ py_str E port).

(** The props recorded for a listener the provider returned (the same
    dictionary display in [get_listener], [create_listener] and
    [update_listener]). *)
Definition listener_props (listener : pyval) : res pydict :=
  arn <~ py_get listener "ListenerArn" ;;
  lb <~ py_get listener "LoadBalancerArn" ;;
  port <~ py_get listener "Port" ;;
  protocol <~ py_get listener "Protocol" ;;
  action_type <~ (a <~ py_get_default listener "DefaultActions" (PList [PDict []]) ;;
                  a0 <~ py_first a ;; py_get a0 "Type") ;;
  target_group_arn <~ (a <~ py_get_default listener "DefaultActions" (PList [PDict []]) ;;
                       a0 <~ py_first a ;; py_get a0 "TargetGroupArn") ;;
  ssl_policy <~ py_get listener "SslPolicy" ;;
  certificate_arn <~ (c <~ py_get_default listener "Certificates" (PList [PDict []]) ;;
                      c0 <~ py_first c ;; py_get c0 "CertificateArn") ;;
  Ok (kw [("arn", arn);
          ("load_balancer_arn", lb);
          ("port", port);
          ("protocol", protocol);
          ("action_type", action_type);
          ("target_group_arn", target_group_arn);
          ("ssl_policy", ssl_policy);
          ("certificate_arn", certificate_arn)]).

(** The declared values [lambda_handler] reads from [component_def]. *)
Record declared_listener : Type := mk_declared_listener
  { load_balancer_arn : pyval;
    protocol : pyval;
    port : pyval;
    ssl_policy : pyval;
    certificate_arn : pyval;
    action_type : pyval;
    target_group_arn : pyval;
    tags : pyval }.

Definition read_cdef (cdef : pyval) : res declared_listener :=
  load_balancer_arn <~ py_get cdef "load_balancer_arn" ;;
  protocol <~ py_get cdef "protocol" ;;
  port <~ py_get cdef "port" ;;
  ssl_policy <~ py_get cdef "ssl_policy" ;;
  certificate_arn <~ py_get cdef "certificate_arn" ;;
  action_type <~ py_get cdef "action_type" ;;
  target_group_arn <~ py_get cdef "target_group_arn" ;;
  tags <~ py_get cdef "tags" ;;
  Ok (mk_declared_listener
        load_balancer_arn
        (py_or protocol (PStr "HTTPS"))
        (py_or port (PInt 443))
        (py_or ssl_policy (PStr default_ssl_policy))
        certificate_arn
        (py_or action_type (PStr "forward"))
        target_group_arn
        tags).

(** [attributes = remove_none_attributes({...})] *)
Definition make_attributes (d : declared_listener) : res pydict :=
  port_v <~ int_if E (port d) ;;
  tags_v <~ (if py_truthy (tags d)
             then expand_dict_to_key_value_list_obj E (tags d)
             else Ok PNone) ;;
  Ok (remove_none_attributes
        (kw [("LoadBalancerArn", str_if E (load_balancer_arn d));
             ("Protocol", str_if E (protocol d));
             ("Port", port_v);
             ("SslPolicy", str_if E (ssl_policy d));
             ("Certificates",
               if py_truthy (certificate_arn d)
               then PList [PDict (kw [("CertificateArn", certificate_arn d)])]
               else PNone);
             ("DefaultActions",
               PList [PDict (kw [("Type", str_if E (action_type d));
                                 ("TargetGroupArn", str_if E (target_group_arn d))])]);
             ("Tags", tags_v)])).

(** [current_attributes] of [get_listener]: the live listener put back
    into the shape of [attributes]. *)
Definition current_attributes_of (existing_props : pydict) : res pydict :=
  let p := remove_none_attributes existing_props in
  port_v <~ int_if E (sget p "port") ;;
  Ok (remove_none_attributes
        (kw [("LoadBalancerArn", str_if E (sget p "load_balancer_arn"));
             ("Protocol", PStr (py_str E (sget p "protocol")));
             ("Port", port_v);
             ("SslPolicy", PStr (py_str E (sget p "ssl_policy")));
             ("Certificates",
               if py_truthy (sget p "certificate_arn")
               then PList [PDict (kw [("CertificateArn", sget p "certificate_arn")])]
               else PNone);
             ("DefaultActions",
               PList [PDict (kw [("Type", str_if E (sget p "action_type"));
                                 ("TargetGroupArn", str_if E (sget p "target_group_arn"))])])])).

Definition record_listener (region listener : pyval) : M unit :=
  existing_props <- lift (listener_props listener) ;;
  eh_add_props existing_props ;;;
  eh_add_links (kw [("Listener",
                     gen_listener_link region (sget existing_props "load_balancer_arn")
                                       (sget existing_props "port"))]).

Definition tags_not_found (listener_arn : pyval) : exn -> option (M unit) :=
  clause "ListenerNotFoundException"
         (fun _ => eh_add_log "Listener Not Found" (PDict (kw [("arn", listener_arn)])) false).

Definition does_not_exist (existing_listener_arn : pyval) : M unit :=
  eh_add_log "Listener Does Not Exist"
             (PDict (kw [("listener_arn", existing_listener_arn)])) false ;;;
  eh_add_op "create_listener" (PBool true).

(** The body of [get_listener], without its decorator. *)
Definition get_listener_body (attributes : pydict) (region prev_state : pyval) : M unit :=
  existing_listener_arn <- lift (p <~ py_get_default prev_state "props" (PDict []) ;;
                                 py_get p "arn") ;;
  if py_truthy existing_listener_arn then
    try_except
      (response <- boto E "describe_listeners"
                        (kw [("ListenerArns", PList [existing_listener_arn])]) ;;
       found <- lift (nonempty_field response "Listeners") ;;
       if found then
         eh_add_log "Got Listener Attributes" response false ;;;
         listener_to_use <- lift (ls <~ py_get response "Listeners" ;; py_first ls) ;;
         listener_arn <- lift (py_get listener_to_use "ListenerArn") ;;
         eh_add_state (kw [("listener_arn", listener_arn); ("region", region)]) ;;;
         existing_props <- lift (listener_props listener_to_use) ;;
         eh_add_props existing_props ;;;
         eh_add_links (kw [("Listener",
                            gen_listener_link region
                              (sget existing_props "load_balancer_arn")
                              (sget existing_props "port"))]) ;;;
         current_attributes <- lift (current_attributes_of existing_props) ;;
         let comparable_attributes := without_keys ["Tags"] attributes in
         when (py_neqb (PDict comparable_attributes) (PDict current_attributes))
              (eh_add_op "update_listener" (PBool true)) ;;;
         try_except (diff_tags E tags_to_dict listener_arn attributes)
                    (tags_not_found listener_arn)
       else does_not_exist existing_listener_arn)
      (clauses
         [clause "ListenerNotFoundException"
                 (fun _ => does_not_exist existing_listener_arn);
          fun e =>
            if is_client_error e
            then Some (eh_add_log "Get Listener Error"
                                  (PDict (kw [("error", PStr (str_exn E e))])) true ;;;
                       eh_retry_error (PStr "Get Listener Error") 10 0)
            else None])
  else does_not_exist existing_listener_arn.

Definition get_listener (attributes : pydict) (region prev_state : pyval) : M unit :=
  ext "get_listener" (get_listener_body attributes region prev_state).

(** The [except] clauses [create_listener] and [update_listener] share,
    in source order. *)
Definition listener_error_table : list (string * string) :=
  [("DuplicateListenerException", "Listener already exists");
   ("TooManyListenersException",
     "AWS Quota for Listeners reached. Please increase your quota and try again.");
   ("TooManyCertificatesException",
     "AWS Quota for Certificates per Listener reached. Please increase your quota and try again.");
   ("LoadBalancerNotFoundException", "Load Balancer provided was not found.");
   ("TargetGroupNotFoundException", "Target Group provided was not found");
   ("TargetGroupAssociationLimitException",
     "Limit for maximum target groups associated with a listener has been reached. Please increase your quota and try again.");
   ("InvalidConfigurationRequestException", "Invalid Listener Parameters");
   ("IncompatibleProtocolsException",
     "Incompatible Listener Protocol provided. The target group and listener protocols must be compatible.");
   ("SSLPolicyNotFoundException",
     "SSL Policy provided was not found. Please try again with a different SSL Policy.");
   ("CertificateNotFoundException",
     "Certificate provided was not found. Please try again with a different certificate.");
   ("UnsupportedProtocolException",
     "Protocol provided is not supported. Please try again with a different protocol.");
   ("TooManyRegistrationsForTargetIdException",
     "You have hit the limit for registrations for a target group. Please create a different target group to target.");
   ("TooManyTargetsException",
     "Too many Target Groups have been provided. Please provide fewer target groups.");
   ("TooManyActionsException",
     "Too many Actions have been specified. Please specify fewer actions");
   ("InvalidLoadBalancerActionException",
     "The load balancer action specified is invalid. Please specify a valid load balancer action.");
   ("TooManyUniqueTargetGroupsPerLoadBalancerException",
     "AWS Quota for Target Groups per Load Balancer reached. Please increase your quota and try again.");
   ("TooManyTagsException",
     "Too Many Tags on Listener. You may have 50 tags per resource.")].

Definition create_listener_body (attributes : pydict) (region prev_state : pyval) : M unit :=
  try_except
    (response <- boto E "create_listener" attributes ;;
     listener <- lift (ls <~ py_get response "Listeners" ;; py_first ls) ;;
     listener_arn <- lift (py_get listener "ListenerArn") ;;
     eh_add_log "Created Listener" listener false ;;;
     eh_add_state (kw [("listener_arn", listener_arn); ("region", region)]) ;;;
     record_listener region listener ;;;
     try_except (diff_tags E tags_to_dict listener_arn attributes)
                (tags_not_found listener_arn))
    (clauses [perm_clauses E listener_error_table 20;
              common_clause E "Error Creating Listener" 20]).

Definition create_listener (attributes : pydict) (region prev_state : pyval) : M unit :=
  ext "create_listener" (create_listener_body attributes region prev_state).

Definition remove_tags_body : M unit :=
  remove_tags <- eh_ops_get "remove_tags" ;;
  listener_arn <- eh_state_item "listener_arn" ;;
  try_except
    (response <- boto E "remove_tags" (kw [("ResourceArns", PList [listener_arn]);
                                          ("TagKeys", remove_tags)]) ;;
     eh_add_log "Removed Tags" remove_tags false)
    (clauses [clause "ListenerNotFoundException"
                     (fun _ => eh_add_log "Listener Not Found"
                                          (PDict (kw [("arn", listener_arn)])) false);
              common_clause E "Error Removing Listener Tags" 90]).

Definition remove_tags : M unit := ext "remove_tags" remove_tags_body.

Definition set_tags_body : M unit :=
  tags <- eh_ops_get "set_tags" ;;
  listener_arn <- eh_state_item "listener_arn" ;;
  try_except
    (tag_list <- lift (key_value_list tags) ;;
     response <- boto E "add_tags" (kw [("ResourceArns", PList [listener_arn]);
                                       ("Tags", tag_list)]) ;;
     eh_add_log "Tags Added" response false)
    (clauses [perm_clauses E
                [("ListenerNotFoundException", "Listener Not Found");
                 ("DuplicateTagKeysException",
                   "Duplicate Tags Found. Please remove duplicates and try again.");
                 ("TooManyTagsException",
                   "Too Many Tags on Listener. You may have 50 tags per resource.")] 90;
              common_clause E "Error Adding Tags" 90]).

Definition set_tags : M unit := ext "set_tags" set_tags_body.

Definition update_listener_body (attributes : pydict) (region prev_state : pyval) : M unit :=
  listener_arn <- eh_state_item "listener_arn" ;;
  let modifiable_attributes :=
    sset (without_keys ["Tags"; "LoadBalancerArn"] attributes) "ListenerArn" listener_arn in
  try_except
    (response <- boto E "modify_listener" modifiable_attributes ;;
     listener <- lift (ls <~ py_get response "Listeners" ;; py_first ls) ;;
     listener_arn <- lift (py_get listener "ListenerArn") ;;
     eh_add_log "Updated Listener" listener false ;;;
     record_listener region listener)
    (clauses [perm_clauses E
                (("ListenerNotFoundException", "Listener Does Not Exist")
                   :: listener_error_table) 20;
              common_clause E "Error Creating Listener" 20]).

Definition update_listener (attributes : pydict) (region prev_state : pyval) : M unit :=
  ext "update_listener" (update_listener_body attributes region prev_state).

Definition delete_listener_body : M unit :=
  listener_arn <- eh_state_item "listener_arn" ;;
  try_except
    (response <- boto E "delete_listener" (kw [("ListenerArn", listener_arn)]) ;;
     eh_add_log "Listener Deleted" (PDict (kw [("listener_arn", listener_arn)])) false)
    (clauses [clause "ResourceInUseException"
                     (fun e => modify_eh (handle_common_errors E e
                                 "Error Deleting Listener. Resource in Use." 80));
              clause "ListenerNotFoundException"
                     (fun _ => eh_add_log "Old Listener Doesn't Exist"
                                 (PDict (kw [("listener_arn", listener_arn)])) false);
              common_clause E "Error Deleting Listener" 80]).

Definition delete_listener : M unit := ext "delete_listener" delete_listener_body.

(** The immutable-field test of [lambda_handler]. *)
Definition non_editable_changed (prev_state : pyval) (d : declared_listener) : bool :=
  match read_old_props prev_state ["load_balancer_arn"; "port"] with
  | [old_load_balancer_arn; old_port] =>
      (py_truthy old_load_balancer_arn
       && py_neqb old_load_balancer_arn (load_balancer_arn d))
      || (py_truthy old_port && py_neqb old_port (port d))
  | _ => false
  end.

(** The [try] block of [lambda_handler]. *)
Definition handler_body (event context : pyval) : M unit :=
  region <- lift (py_item (account_context E context) "region") ;;
  account_number <- lift (py_item (account_context E context) "number") ;;
  eh_capture_event E event ;;;
  ps <- lift (py_get event "prev_state") ;;
  let prev_state := py_or ps (PDict []) in
  cdef <- lift (py_get event "component_def") ;;
  d <- lift (read_cdef cdef) ;;
  attributes <- lift (make_attributes d) ;;
  pass_back_data <- lift (py_get_default event "pass_back_data" (PDict [])) ;;
  op <- lift (py_get event "op") ;;
  (if py_truthy pass_back_data then mret tt
   else if py_eqb op (PStr "upsert") then
     eh_add_op "get_listener" (PBool true) ;;;
     when (non_editable_changed prev_state d)
          (eh_add_log "Cannot edit non-editable field"
                      (PDict (kw [("error", PStr non_editable_error_message)])) true ;;;
           eh_perm_error (PStr non_editable_error_message) 10)
   else if py_eqb op (PStr "delete") then
     eh_add_op "delete_listener" (PBool true) ;;;
     arn <- lift (p <~ py_item prev_state "props" ;; py_item p "arn") ;;
     eh_add_state (kw [("listener_arn", arn)])
   else mret tt) ;;;
  get_listener attributes region prev_state ;;;
  delete_listener ;;;
  create_listener attributes region prev_state ;;;
  update_listener attributes region prev_state ;;;
  remove_tags ;;;
  set_tags.

Definition lambda_handler (event context : pyval) : world -> response * world :=
  run_handler E (handler_body event context).

End Handler.
End Listener.

(* ================================================================== *)
(** ** [src/rule/lambda_function.py] *)
(* ================================================================== *)

Module Rule.
Section Handler.
Context (E : Env).

(** [[{"Key": f"{key}", "Value": f"{item.get(key)}"} for item in list_obj
    for key in item]] *)
Definition expand_list_dict_to_key_value_list_obj (list_obj : pyval) : res pyval :=
  items <~ py_iter list_obj ;;
  rows <~ rmap (fun item =>
                  ks <~ py_iter item ;;
                  rmap (fun key =>
                          v <~ match item with
                               | PDict d => Ok (dict_get d key)
                               | _ => Raise (AttributeError "get")
                               end ;;
                          Ok (PDict (kw [("Key", PStr (py_str E key));
                                         ("Value", PStr (py_str E v))])))
                       ks)
               items ;;
  Ok (PList (concat rows)).

(** [[{f'{item.get("Key")}': f'{item.get("Value")}'} for item in list_obj]] *)
Definition key_value_list_obj_to_compressed_list_dict (list_obj : pyval) : res pyval :=
  items <~ py_iter list_obj ;;
  rows <~ rmap (fun item =>
                  k <~ py_get item "Key" ;;
                  v <~ py_get item "Value" ;;
                  Ok (PDict [(PStr (py_str E k), PStr (py_str E v))]))
               items ;;
  Ok (PList rows).

(** [{f'{item.get("Key")}': f'{item.get("Value")}' for item in list_obj}] *)
Definition key_value_list_obj_to_compressed_dict (list_obj : pyval) : res pydict :=
  items <~ py_iter list_obj ;;
  rfold (fun acc item =>
           k <~ py_get item "Key" ;;
           v <~ py_get item "Value" ;;
           Ok (dict_set acc (PStr (py_str E k)) (PStr (py_str E v))))
        items [].

(** The fields whose condition carries only a list of values, with the
    name of their configuration section. *)
Definition plain_condition_fields : list (string * string) :=
  [("http-request-method", "HttpRequestMethodConfig");
   ("host-header", "HostHeaderConfig");
   ("path-pattern", "PathPatternConfig")].

(** One turn of the loop of [conditions_to_formatted_conditions]: what is
    appended for [item], if anything. *)
Definition format_condition (item : pyval) : res (option pyval) :=
  field <~ py_get item "field" ;;
  if py_eqb field (PStr "http-header") then
    name <~ py_get item "http_header_name" ;;
    values <~ py_get item "values" ;;
    Ok (Some (PDict (kw [("Field", field);
                         ("HttpHeaderConfig",
                           PDict (kw [("HttpHeaderName", name); ("Values", values)]))])))
  else if py_eqb field (PStr "http-request-method") then
    values <~ py_get item "values" ;;
    Ok (Some (PDict (kw [("Field", field);
                         ("HttpRequestMethodConfig", PDict (kw [("Values", values)]))])))
  else if py_eqb field (PStr "host-header") then
    values <~ py_get item "values" ;;
    Ok (Some (PDict (kw [("Field", field);
                         ("HostHeaderConfig", PDict (kw [("Values", values)]))])))
  else if py_eqb field (PStr "path-pattern") then
    values <~ py_get item "values" ;;
    Ok (Some (PDict (kw [("Field", field);
                         ("PathPatternConfig", PDict (kw [("Values", values)]))])))
  else if py_eqb field (PStr "query-string") then
    values <~ py_get item "values" ;;
    expanded <~ expand_list_dict_to_key_value_list_obj values ;;
    Ok (Some (PDict (kw [("Field", field);
                         ("QueryStringConfig", PDict (kw [("Values", expanded)]))])))
  else if py_eqb field (PStr "source-ip") then
    values <~ py_get item "values" ;;
    Ok (Some (PDict (kw [("Field", field);
                         ("SourceIpConfig", PDict (kw [("Values", values)]))])))
  else Ok None.

Definition append_some (acc : list pyval) (o : option pyval) : list pyval :=
  match o with Some x => acc ++ [x] | None => acc end.

Definition conditions_to_formatted_conditions (conditions : pyval) : res pyval :=
  items <~ py_iter conditions ;;
  out <~ rfold (fun acc item => o <~ format_condition item ;; Ok (append_some acc o))
               items [] ;;
  Ok (PList out).

(** [item.get(section, {}).get(k)] *)
Definition section_get (item : pyval) (section k : string) : res pyval :=
  s <~ py_get_default item section (PDict []) ;; py_get s k.

(** One turn of the loop of [formatted_conditions_to_conditions]. *)
Definition unformat_condition (item : pyval) : res (option pyval) :=
  item_field <~ py_get item "Field" ;;
  if py_eqb item_field (PStr "http-header") then
    values <~ section_get item "HttpHeaderConfig" "Values" ;;
    name <~ section_get item "HttpHeaderConfig" "HttpHeaderName" ;;
    Ok (Some (PDict (kw [("field", item_field); ("values", values);
                         ("http_header_name", name)])))
  else if py_eqb item_field (PStr "http-request-method") then
    values <~ section_get item "HttpRequestMethodConfig" "Values" ;;
    Ok (Some (PDict (kw [("field", item_field); ("values", values)])))
  else if py_eqb item_field (PStr "host-header") then
    values <~ section_get item "HostHeaderConfig" "Values" ;;
    Ok (Some (PDict (kw [("field", item_field); ("values", values)])))
  else if py_eqb item_field (PStr "path-pattern") then
    values <~ section_get item "PathPatternConfig" "Values" ;;
    Ok (Some (PDict (kw [("field", item_field); ("values", values)])))
  else if py_eqb item_field (PStr "query-string") then
    raw <~ section_get item "QueryStringConfig" "Values" ;;
    values <~ key_value_list_obj_to_compressed_list_dict raw ;;
    Ok (Some (PDict (kw [("field", item_field); ("values", values)])))
  else if py_eqb item_field (PStr "source-ip") then
    values <~ section_get item "SourceIpConfig" "Values" ;;
    Ok (Some (PDict (kw [("field", item_field); ("values", values)])))
  else Ok None.

Definition formatted_conditions_to_conditions (formatted_conditions : pyval) : res pyval :=
  items <~ py_iter formatted_conditions ;;
  out <~ rfold (fun acc item => o <~ unformat_condition item ;; Ok (append_some acc o))
               items [] ;;
  Ok (PList out).

Definition non_editable_error_message : string :=
  "You may not edit the Listener ARN of an existing Listener Rule. Please create a new component to get the desired configuration.".

Definition gen_rule_link (region rule_arn : pyval) : pyval :=
  PStr ("https://" ++ py_str E region
        ++ ".console.aws.amazon.com/ec2/home?region=" ++ py_str E region
        ++ "#ListenerRuleDetails:ruleArn=" ++ py_str E rule_arn).

(** [x.get("Actions", [{}])[0].get(k)] *)
Definition first_action (rule : pyval) (k : string) : res pyval :=
  a <~ py_get_default rule "Actions" (PList [PDict []]) ;;
  a0 <~ py_first a ;;
  py_get a0 k.

(** The declared values [lambda_handler] reads from [component_def]. *)
Record declared_rule : Type := mk_declared_rule
  { listener_arn : pyval;
    target_group_arn : pyval;
    conditions : pyval;
    priority : pyval;
    action_type : pyval;
    tags : pyval }.

Definition read_cdef (cdef : pyval) : res declared_rule :=
  listener_arn <~ py_get cdef "listener_arn" ;;
  target_group_arn <~ py_get cdef "target_group_arn" ;;
  conditions <~ py_get cdef "conditions" ;;
  priority <~ py_get cdef "priority" ;;
  action_type <~ py_get cdef "action_type" ;;
  tags <~ py_get cdef "tags" ;;
  Ok (mk_declared_rule listener_arn target_group_arn conditions priority
                       (py_or action_type (PStr "forward")) tags).

(** [formatted_conditions] and [attributes] of [lambda_handler]. *)
Definition make_attributes (d : declared_rule) : res pydict :=
  formatted_conditions <~ conditions_to_formatted_conditions (conditions d) ;;
  priority_v <~ int_if E (priority d) ;;
  tags_v <~ (if py_truthy (tags d)
             then expand_dict_to_key_value_list_obj E (tags d)
             else Ok PNone) ;;
  Ok (remove_none_attributes
        (kw [("ListenerArn", str_if E (listener_arn d));
             ("Conditions",
               if py_truthy formatted_conditions then formatted_conditions else PNone);
             ("Priority", priority_v);
             ("Actions",
               PList [PDict (kw [("Type", str_if E (action_type d));
                                 ("TargetGroupArn", str_if E (target_group_arn d))])]);
             ("Tags", tags_v)])).

(** [current_attributes] of [get_rule]. *)
Definition current_attributes_of (existing_props : pydict) (reformatted_conditions : pyval)
  : res pydict :=
  let p := remove_none_attributes existing_props in
  priority_v <~ (if py_truthy (sget p "priority")
                 then z <~ py_int E (sget p "priority") ;; Ok (PInt z)
                 else Ok (PStr (py_str E (sget p "priority")))) ;;
  conditions_v <~ (if py_truthy reformatted_conditions
                   then conditions_to_formatted_conditions reformatted_conditions
                   else Ok PNone) ;;
  Ok (remove_none_attributes
        (kw [("ListenerArn", str_if E (sget p "listener_arn"));
             ("Priority", priority_v);
             ("Conditions", conditions_v);
             ("Actions",
               PList [PDict (kw [("Type", str_if E (sget p "action_type"));
                                 ("TargetGroupArn", str_if E (sget p "target_group_arn"))])])])).

Definition tags_not_found (title : string) (rule_arn : pyval) : exn -> option (M unit) :=
  clause "RuleNotFoundException"
         (fun _ => eh_add_log title (PDict (kw [("arn", rule_arn)])) false).

Definition does_not_exist (key : string) (existing_rule_arn : pyval) : M unit :=
  eh_add_log "Listener Rule Does Not Exist"
             (PDict (kw [(key, existing_rule_arn)])) false ;;;
  eh_add_op "create_rule" (PBool true).

(** The body of [get_rule], without its decorator. *)
Definition get_rule_body (attributes : pydict) (region prev_state : pyval) : M unit :=
  existing_rule_arn <- lift (p <~ py_get_default prev_state "props" (PDict []) ;;
                             py_get p "arn") ;;
  existing_listener_arn <- lift (p <~ py_get_default prev_state "props" (PDict []) ;;
                                 py_get p "listener_arn") ;;
  if py_truthy existing_rule_arn then
    try_except
      (response <- boto E "describe_rules" (kw [("RuleArns", PList [existing_rule_arn])]) ;;
       found <- lift (nonempty_field response "Rules") ;;
       if found then
         eh_add_log "Got Rule Attributes" response false ;;;
         rule_to_use <- lift (rs <~ py_get response "Rules" ;; py_first rs) ;;
         rule_arn <- lift (py_get rule_to_use "RuleArn") ;;
         eh_add_state (kw [("rule_arn", rule_arn); ("region", region)]) ;;;
         reformatted_conditions <-
           lift (c <~ py_get rule_to_use "Conditions" ;;
                 formatted_conditions_to_conditions c) ;;
         existing_props <-
           lift (live_priority <~ py_get rule_to_use "Priority" ;;
                 action_type <~ first_action rule_to_use "Type" ;;
                 target_group_arn <~ first_action rule_to_use "TargetGroupArn" ;;
                 Ok (kw [("arn", rule_arn);
                         ("listener_arn", existing_listener_arn);
                         ("priority", live_priority);
                         ("conditions", reformatted_conditions);
                         ("action_type", action_type);
                         ("target_group_arn", target_group_arn)])) ;;
         eh_add_props existing_props ;;;
         eh_add_links (kw [("Rule", gen_rule_link region rule_arn)]) ;;;
         current_attributes <-
           lift (current_attributes_of existing_props reformatted_conditions) ;;
         let comparable_attributes := without_keys ["Tags"; "Priority"] attributes in
         let comparable_current_attributes :=
           without_keys ["Tags"; "Priority"] current_attributes in
         when (py_neqb (PDict comparable_attributes) (PDict comparable_current_attributes))
              (eh_add_op "update_rule" (PBool true)) ;;;
         when (py_neqb (sget attributes "Priority") (sget current_attributes "Priority"))
              (eh_add_op "update_rule_priority" (PBool true)) ;;;
         try_except (diff_tags E key_value_list_obj_to_compressed_dict rule_arn attributes)
                    (tags_not_found "Listener Rule Not Found" rule_arn)
       else does_not_exist "listener_arn" existing_rule_arn)
      (clauses
         [clause "RuleNotFoundException"
                 (fun _ => does_not_exist "rule_arn" existing_rule_arn);
          fun e =>
            if is_client_error e
            then Some (eh_add_log "Get Listener Rule Error"
                                  (PDict (kw [("error", PStr (str_exn E e))])) true ;;;
                       eh_retry_error (PStr "Get Listener Rule Error") 10 0)
            else None])
  else does_not_exist "rule_arn" existing_rule_arn.

Definition get_rule (attributes : pydict) (region prev_state : pyval) : M unit :=
  ext "get_rule" (get_rule_body attributes region prev_state).

(** The props recorded after [create_rule] and [update_rule]. *)
Definition record_rule (attributes : pydict) (region rule rule_arn : pyval) : M unit :=
  props_to_add <-
    lift (conditions <~ (c <~ py_get rule "Conditions" ;;
                         formatted_conditions_to_conditions c) ;;
          live_priority <~ py_get rule "Priority" ;;
          action_type <~ first_action rule "Type" ;;
          target_group_arn <~ first_action rule "TargetGroupArn" ;;
          Ok (kw [("arn", rule_arn);
                  ("listener_arn", sget attributes "ListenerArn");
                  ("conditions", conditions);
                  ("priority", live_priority);
                  ("action_type", action_type);
                  ("target_group_arn", target_group_arn)])) ;;
  eh_add_props props_to_add ;;;
  eh_add_links (kw [("Rule", gen_rule_link region rule_arn)]).

Definition create_rule_table (attributes : pydict) : list (string * string) :=
  [("PriorityInUseException",
     "Priority " ++ py_str E (sget attributes "Priority")
       ++ " assigned to this listener rule already exists");
   ("TooManyTargetGroupsException",
     "AWS Quota for Target Groups reached. Please increase your quota and try again.");
   ("TooManyRulesException",
     "AWS Quota for Rules per Listener reached. Please increase your quota and try again.");
   ("TargetGroupAssociationLimitException",
     "Too many Target Groups associated with the Rule. Please decrease the number of Target Groups associated to this Listener Rule and try again.");
   ("ListenerNotFoundException",
     "Listener provided for this Listener Rule was not found.");
   ("TargetGroupNotFoundException",
     "Target Group provided for this Listener Rule was not found.");
   ("InvalidConfigurationRequestException",
     "The configuration provided for this Listener Rule is invalid. Please enter valid configuration and try again.");
   ("TooManyRegistrationsForTargetIdException",
     "Too many registrations for the Target provided. Please decrease the number of registrations for the Target and try again.");
   ("TooManyTargetsException",
     "Too many Targets provided for this Listener Rule. Please decrease the number of Targets for the Listener Rule and try again.");
   ("TooManyActionsException",
     "Too many Actions provided for this Listener Rule. Please decrease the number of Actions for the Listener Rule and try again.");
   ("InvalidLoadBalancerActionException",
     "Load Balancer action specified is invalid. Please change the Load Balancer action specified and try again.");
   ("TooManyUniqueTargetGroupsPerLoadBalancerException",
     "AWS Quota for Unique Target Groups per Load Balancer reached. Please increase your quota and try again.");
   ("TooManyTagsException",
     "Too Many Tags on Listener Rule. You may have 50 tags per resource.")].

Definition create_rule_body (attributes : pydict) (region prev_state : pyval) : M unit :=
  try_except
    (response <- boto E "create_rule" attributes ;;
     rule <- lift (rs <~ py_get response "Rules" ;; py_first rs) ;;
     rule_arn <- lift (py_get rule "RuleArn") ;;
     eh_add_log "Created Listener Rule" rule false ;;;
     eh_add_state (kw [("rule_arn", rule_arn); ("region", region)]) ;;;
     record_rule attributes region rule rule_arn ;;;
     try_except (diff_tags E key_value_list_obj_to_compressed_dict rule_arn attributes)
                (tags_not_found "Rule Not Found" rule_arn))
    (clauses [perm_clauses E (create_rule_table attributes) 20;
              common_clause E "Error Creating Listener Rule" 20]).

Definition create_rule (attributes : pydict) (region prev_state : pyval) : M unit :=
  ext "create_rule" (create_rule_body attributes region prev_state).

Definition remove_tags_body : M unit :=
  remove_tags <- eh_ops_get "remove_tags" ;;
  rule_arn <- eh_state_item "rule_arn" ;;
  try_except
    (response <- boto E "remove_tags" (kw [("ResourceArns", PList [rule_arn]);
                                          ("TagKeys", remove_tags)]) ;;
     eh_add_log "Removed Tags" remove_tags false)
    (clauses [clause "ListenerNotFoundException"
                     (fun _ => eh_add_log "Listener Rule Not Found"
                                          (PDict (kw [("arn", rule_arn)])) false);
              common_clause E "Error Removing Listener Rule Tags" 90]).

Definition remove_tags : M unit := ext "remove_tags" remove_tags_body.

Definition set_tags_body : M unit :=
  tags <- eh_ops_get "set_tags" ;;
  rule_arn <- eh_state_item "rule_arn" ;;
  try_except
    (tag_list <- lift (key_value_list tags) ;;
     response <- boto E "add_tags" (kw [("ResourceArns", PList [rule_arn]);
                                       ("Tags", tag_list)]) ;;
     eh_add_log "Tags Added" response false)
    (clauses [perm_clauses E
                [("RuleNotFoundException", "Listener Rule Not Found");
                 ("DuplicateTagKeysException",
                   "Duplicate Tags Found. Please remove duplicates and try again.");
                 ("TooManyTagsException",
                   "Too Many Tags on Listener Rule. You may have 50 tags per resource.")] 90;
              common_clause E "Error Adding Tags" 90]).

Definition set_tags : M unit := ext "set_tags" set_tags_body.

Definition update_rule_table : list (string * string) :=
  [("TargetGroupAssociationLimitException",
     "Too many Target Groups associated with the Rule. Please decrease the number of Target Groups associated to this Listener Rule and try again.");
   ("RuleNotFoundException", "Listener Rule Not Found");
   ("RuleNotFoundException", "The Operation specified is not permitted");
   ("TooManyRegistrationsForTargetIdException",
     "Too many registrations for the Target provided. Please decrease the number of registrations for the Target and try again.");
   ("TooManyTargetsException",
     "Too many Targets provided for this Listener Rule. Please decrease the number of Targets for the Listener Rule and try again.");
   ("TargetGroupNotFoundException",
     "Target Group provided for this Listener Rule was not found.");
   ("TooManyActionsException",
     "Too many Actions provided for this Listener Rule. Please decrease the number of Actions for the Listener Rule and try again.");
   ("InvalidLoadBalancerActionException",
     "Load Balancer action specified is invalid. Please change the Load Balancer action specified and try again.");
   ("TooManyUniqueTargetGroupsPerLoadBalancerException",
     "AWS Quota for Unique Target Groups per Load Balancer reached. Please increase your quota and try again.")].

Definition update_rule_body (attributes : pydict) (region prev_state : pyval) : M unit :=
  rule_arn <- eh_state_item "rule_arn" ;;
  let modifiable_attributes :=
    sset (without_keys ["Tags"; "ListenerArn"; "Priority"] attributes) "RuleArn" rule_arn in
  try_except
    (response <- boto E "modify_rule" modifiable_attributes ;;
     rule <- lift (rs <~ py_get response "Rules" ;; py_first rs) ;;
     rule_arn <- lift (py_get rule "RuleArn") ;;
     eh_add_log "Updated Listener Rule" rule false ;;;
     record_rule attributes region rule rule_arn)
    (clauses [perm_clauses E update_rule_table 20;
              common_clause E "Error Creating Listener Rule" 20]).

Definition update_rule (attributes : pydict) (region prev_state : pyval) : M unit :=
  ext "update_rule" (update_rule_body attributes region prev_state).

Definition update_rule_priority_body (priority : pyval) : M unit :=
  rule_arn <- eh_state_item "rule_arn" ;;
  try_except
    (priority_v <- lift (int_if E priority) ;;
     response <- boto E "set_rule_priorities"
                      (kw [("RulePriorities",
                            PList [PDict (kw [("RuleArn", rule_arn);
                                              ("Priority", priority_v)])])]) ;;
     eh_add_props (kw [("Priority", priority)]) ;;;
     eh_add_log "Updated Listener Rule Priority" (PDict []) false)
    (clauses
       [clause "RuleNotFoundException"
               (fun _ =>
                  eh_add_log "Listener Rule Not Found"
                             (PDict (kw [("rule_arn", rule_arn)])) false ;;;
                  (* [eh.perm_error(str(e), 30)]: the clause has no
                     [as e], the name is local to the function and not
                     bound here *)
                  raise (UnboundLocalError "e"));
        perm_clauses E
          [("PriorityInUseException",
             "Priority " ++ py_str E priority
               ++ " assigned to this listener rule already exists");
           ("OperationNotPermittedException",
             "The operation of updating the priority on this listener rule is not permitted.")]
          30;
        common_clause E "Error Updating the Listener Rule Priority" 80]).

Definition update_rule_priority (priority : pyval) : M unit :=
  ext "update_rule_priority" (update_rule_priority_body priority).

Definition delete_rule_body : M unit :=
  rule_arn <- eh_state_item "rule_arn" ;;
  try_except
    (response <- boto E "delete_rule" (kw [("RuleArn", rule_arn)]) ;;
     eh_add_log "Listener Rule Deleted" (PDict (kw [("rule_arn", rule_arn)])) false)
    (clauses [clause "RuleNotFoundException"
                     (fun e => eh_add_log "Listener Rule Not Found"
                                 (PDict (kw [("error", PStr (str_exn E e))])) true);
              common_clause E "Error Deleting Listener Rule" 80]).

Definition delete_rule : M unit := ext "delete_rule" delete_rule_body.

(** The immutable-field test of [lambda_handler].  It reads
    [prev_state["props"]["old_listener_arn"]] and compares the value
    with itself. *)
Definition non_editable_changed (prev_state : pyval) (d : declared_rule) : bool :=
  match read_old_props prev_state ["old_listener_arn"] with
  | [old_listener_arn] =>
      py_truthy old_listener_arn && py_neqb old_listener_arn old_listener_arn
  | _ => false
  end.

(** The [try] block of [lambda_handler]. *)
Definition handler_body (event context : pyval) : M unit :=
  region <- lift (py_item (account_context E context) "region") ;;
  account_number <- lift (py_item (account_context E context) "number") ;;
  eh_capture_event E event ;;;
  ps <- lift (py_get event "prev_state") ;;
  let prev_state := py_or ps (PDict []) in
  cdef <- lift (py_get event "component_def") ;;
  d <- lift (read_cdef cdef) ;;
  attributes <- lift (make_attributes d) ;;
  pass_back_data <- lift (py_get_default event "pass_back_data" (PDict [])) ;;
  op <- lift (py_get event "op") ;;
  (if py_truthy pass_back_data then mret tt
   else if py_eqb op (PStr "upsert") then
     eh_add_op "get_rule" (PBool true) ;;;
     when (non_editable_changed prev_state d)
          (eh_add_log "Cannot edit non-editable field"
                      (PDict (kw [("error", PStr non_editable_error_message)])) true ;;;
           eh_perm_error (PStr non_editable_error_message) 10)
   else if py_eqb op (PStr "delete") then
     eh_add_op "delete_rule" (PBool true) ;;;
     arn <- lift (p <~ py_item prev_state "props" ;; py_item p "arn") ;;
     eh_add_state (kw [("rule_arn", arn)])
   else mret tt) ;;;
  get_rule attributes region prev_state ;;;
  delete_rule ;;;
  create_rule attributes region prev_state ;;;
  update_rule attributes region prev_state ;;;
  update_rule_priority (priority d) ;;;
  remove_tags ;;;
  set_tags.

Definition lambda_handler (event context : pyval) : world -> response * world :=
  run_handler E (handler_body event context).

End Handler.
End Rule.

(* ================================================================== *)
(** ** [src/load_balancer/lambda_function.py] *)
(* ================================================================== *)

Module LoadBalancer.
Section Handler.
Context (E : Env).

(** The special attributes: the key of [component_def], the key of the
    provider, and whether the declared value is lowercased
    ([str(x).lower() if x else x]) or not ([str(x) if x else x]). *)
Definition special_attribute_table : list (string * string * bool) :=
  [("deletion_protection_enabled", "deletion_protection.enabled", true);
   ("load_balancing_cross_zone_enabled", "load_balancing.cross_zone.enabled", true);
   ("access_logs_s3_enabled", "access_logs.s3.enabled", true);
   ("access_logs_s3_bucket", "access_logs.s3.bucket", false);
   ("access_logs_s3_prefix", "access_logs.s3.prefix", false);
   ("ipv6_deny_all_igw_traffic", "ipv6.deny_all_igw_traffic", false);
   ("idle_timeout_timeout_seconds", "idle_timeout.timeout_seconds", false);
   ("routing_http_desync_mitigation_mode", "routing.http.desync_mitigation_mode", false);
   ("routing_http_drop_invalid_header_fields_enabled",
     "routing.http.drop_invalid_header_fields.enabled", true);
   ("routing_http_preserve_host_header_enabled",
     "routing.http.preserve_host_header.enabled", true);
   ("routing_http_x_amzn_tls_version_and_cipher_suite_enabled",
     "routing.http.x_amzn_tls_version_and_cipher_suite.enabled", true);
   ("routing_http_xff_client_port_enabled", "routing.http.xff_client_port.enabled", true);
   ("routing_http_xff_header_processing_mode",
     "routing.http.xff_header_processing.mode", false);
   ("routing_http2_enabled", "routing.http2.enabled", true);
   ("waf_fail_open_enabled", "waf.fail_open.enabled", true)].

(** [str(x).lower() if x else x] *)
Definition lower_if (x : pyval) : pyval :=
  if py_truthy x then PStr (lower (py_str E x)) else x.

(** [special_attributes = remove_none_attributes({...})] *)
Definition make_special_attributes (cdef : pyval) : res pydict :=
  items <~ rmap (fun row =>
                   let '(cdef_key, key, lowered) := row in
                   x <~ py_get cdef cdef_key ;;
                   Ok (PStr key, if lowered : bool then lower_if x else str_if E x))
                special_attribute_table ;;
  Ok (remove_none_attributes (dict_lit items)).

(** [default_special_attributes = remove_none_attributes({...})] *)
Definition default_special_attributes : pydict :=
  remove_none_attributes
    (kw [("deletion_protection.enabled", PStr "false");
         ("load_balancing.cross_zone.enabled", PStr "true");
         ("access_logs.s3.enabled", PStr "false");
         ("access_logs.s3.bucket", PNone);
         ("access_logs.s3.prefix", PNone);
         ("ipv6.deny_all_igw_traffic", PStr "false");
         ("idle_timeout.timeout_seconds", PStr "60");
         ("routing.http.desync_mitigation_mode", PStr "defensive");
         ("routing.http.drop_invalid_header_fields.enabled", PStr "false");
         ("routing.http.preserve_host_header.enabled", PStr "false");
         ("routing.http.x_amzn_tls_version_and_cipher_suite.enabled", PStr "false");
         ("routing.http.xff_client_port.enabled", PStr "false");
         ("routing.http.xff_header_processing.mode", PStr "append");
         ("routing.http2.enabled", PStr "true");
         ("waf.fail_open.enabled", PStr "false")]).

Definition non_editable_error_message : string :=
  "You may not edit the name, scheme, or load balancer type of an existing load balancer. Please create a new component to get the desired configuration.".

Definition gen_load_balancer_link (region load_balancer_arn : pyval) : pyval :=
  PStr ("https://" ++ py_str E region
        ++ ".console.aws.amazon.com/ec2/home?region=" ++ py_str E region
        ++ "#LoadBalancer:loadBalancerArn=" ++ py_str E load_balancer_arn).

(** The declared values [lambda_handler] reads from [component_def]. *)
Record declared_lb : Type := mk_declared_lb
  { name : pyval;
    subnets : pyval;
    security_groups : pyval;
    scheme : pyval;
    tags : pyval;
    load_balancer_type : pyval;
    ip_address_type : pyval }.

(** [name = eh.props.get("name") or cdef.get("name") or
    component_safe_name(project_code, repo_id, cname, ...)] and the
    attributes that can be set on creation. *)
Definition read_cdef (event cdef : pyval) (h : ExtensionHandler) : res declared_lb :=
  project_code <~ py_get event "project_code" ;;
  repo_id <~ py_get event "repo_id" ;;
  cname <~ py_get event "component_name" ;;
  declared_name <~ (if py_truthy (sget (props h) "name") then Ok (sget (props h) "name")
                    else py_get cdef "name") ;;
  let name := py_or declared_name (component_safe_name E project_code repo_id cname) in
  subnets <~ py_get cdef "subnets" ;;
  security_groups <~ py_get cdef "security_groups" ;;
  scheme <~ py_get cdef "scheme" ;;
  tags <~ py_get cdef "tags" ;;
  load_balancer_type <~ py_get cdef "load_balancer_type" ;;
  ip_address_type <~ py_get cdef "ip_address_type" ;;
  Ok (mk_declared_lb name subnets security_groups
                     (py_or scheme (PStr "internal"))
                     tags
                     (py_or load_balancer_type (PStr "application"))
                     (py_or ip_address_type (PStr "ipv4"))).

(** [attributes = remove_none_attributes({...})] *)
Definition make_attributes (d : declared_lb) : res pydict :=
  tags_v <~ (if py_truthy (tags d)
             then expand_dict_to_key_value_list_obj E (tags d)
             else Ok PNone) ;;
  Ok (remove_none_attributes
        (kw [("Name", name d);
             ("Subnets", subnets d);
             ("SecurityGroups", security_groups d);
             ("Scheme", scheme d);
             ("Tags", tags_v);
             ("Type", load_balancer_type d);
             ("IpAddressType", ip_address_type d)])).

(** [[item.get("SubnetId") for item in x.get("AvailabilityZones", [])]] *)
Definition subnet_ids (x : pyval) : res pyval :=
  zones <~ py_get_default x "AvailabilityZones" (PList []) ;;
  items <~ py_iter zones ;;
  ids <~ rmap (fun item => py_get item "SubnetId") items ;;
  Ok (PList ids).

(** The props recorded for a load balancer the provider returned. *)
Definition load_balancer_props (name load_balancer : pyval) : res pydict :=
  arn <~ py_get load_balancer "LoadBalancerArn" ;;
  dns_name <~ py_get load_balancer "DNSName" ;;
  zone <~ py_get load_balancer "CanonicalHostedZoneId" ;;
  vpc_id <~ py_get load_balancer "VpcId" ;;
  type <~ py_get load_balancer "Type" ;;
  groups <~ py_get load_balancer "SecurityGroups" ;;
  subnets <~ subnet_ids load_balancer ;;
  scheme <~ py_get load_balancer "Scheme" ;;
  ip_address_type <~ py_get load_balancer "IpAddressType" ;;
  Ok (kw [("name", name);
          ("arn", arn);
          ("dns_name", dns_name);
          ("canonical_hosted_zone_id", zone);
          ("vpc_id", vpc_id);
          ("load_balancer_type", type);
          ("security_groups", groups);
          ("subnets", subnets);
          ("scheme", scheme);
          ("ip_address_type", ip_address_type)]).

(** [prev_state.get("props", {}).get(k)] *)
Definition prev_prop (prev_state : pyval) (k : string) : res pyval :=
  p <~ py_get_default prev_state "props" (PDict []) ;; py_get p k.

(** The three tests that follow "Set the load balancer ip address type
    and subnets" in [get_load_balancer] and [create_load_balancer].
    They read [attributes] under the keys ["ip_address_type"],
    ["subnets"], ["security_groups"] and ["load_balancer_type"]. *)
Definition placement_ops (attributes : pydict) (prev_state : pyval) : M unit :=
  prev_ip <- lift (prev_prop prev_state "ip_address_type") ;;
  when (py_neqb (sget attributes "ip_address_type") prev_ip)
       (eh_add_op "set_ip_address_type" (PBool true)) ;;;
  prev_subnets <- lift (prev_prop prev_state "subnets") ;;
  subnets_differ <-
    (if py_neqb (sget attributes "subnets") prev_subnets then mret true
     else
       prev_ip <- lift (prev_prop prev_state "ip_address_type") ;;
       if py_neqb (sget attributes "ip_address_type") prev_ip then
         type <- lift (py_item (PDict attributes) "load_balancer_type") ;;
         mret (py_eqb type (PStr "network"))
       else mret false) ;;
  when subnets_differ (eh_add_op "set_subnets" (PBool true)) ;;;
  prev_groups <- lift (prev_prop prev_state "security_groups") ;;
  when (py_neqb (sget attributes "security_groups") prev_groups)
       (eh_add_op "set_security_groups" (PBool true)).

(** [current_special_attributes]: the attribute map the provider
    returned, less ["ipv6.deny_all_igw_traffic"] on an ipv4 load
    balancer. *)
Definition current_special_attributes_of (response load_balancer : pyval) : res pydict :=
  attrs <~ py_item response "Attributes" ;;
  current <~ tags_to_dict attrs ;;
  ip <~ py_get load_balancer "IpAddressType" ;;
  Ok (if py_eqb ip (PStr "ipv4")
      then dict_pop current (PStr "ipv6.deny_all_igw_traffic")
      else current).

(** [remove_none_attributes({key: (special_attributes.get(key) or
    default_special_attributes.get(key)) for key, current_value in
    current_special_attributes.items()})] *)
Definition merged_special_attributes (special_attributes defaults current : pydict)
  : pydict :=
  remove_none_attributes
    (dict_lit (map (fun kv => (fst kv, py_or (dict_get special_attributes (fst kv))
                                             (dict_get defaults (fst kv))))
                   (dict_items current))).

(** [remove_none_attributes({key: default_special_attributes.get(key) for
    key in current_special_attributes})] *)
Definition reset_special_attributes (defaults current : pydict) : pydict :=
  remove_none_attributes
    (dict_lit (map (fun key => (key, dict_get defaults key)) (dict_keys current))).

Definition lb_not_found (load_balancer_arn : pyval) : exn -> option (M unit) :=
  clause "LoadBalancerNotFoundException"
         (fun _ => eh_add_log "Load Balancer Not Found"
                              (PDict (kw [("arn", load_balancer_arn)])) false).

(** The special-attribute block of [get_load_balancer]. *)
Definition get_special_attributes (special_attributes defaults : pydict)
           (load_balancer_arn load_balancer : pyval) : M unit :=
  try_except
    (response <- boto E "describe_load_balancer_attributes"
                      (kw [("LoadBalancerArn", load_balancer_arn)]) ;;
     eh_add_log "Got Load Balancer Special Attributes" response false ;;;
     current <- lift (current_special_attributes_of response load_balancer) ;;
     if py_truthy (PDict special_attributes) then
       let update_special_attributes :=
         merged_special_attributes special_attributes defaults current in
       eh_add_state (kw [("update_special_attributes", PDict update_special_attributes)]) ;;;
       eh_add_op "update_load_balancer_special_attributes" (PDict update_special_attributes)
     else
       eh_add_state (kw [("current_special_attributes", PDict current)]) ;;;
       eh_add_op "reset_load_balancer_special_attributes" (PBool true))
    (lb_not_found load_balancer_arn).

(** The special-attribute block of [create_load_balancer]. *)
Definition create_special_attributes (special_attributes defaults : pydict)
           (load_balancer_arn load_balancer : pyval) : M unit :=
  try_except
    (response <- boto E "describe_load_balancer_attributes"
                      (kw [("LoadBalancerArn", load_balancer_arn)]) ;;
     current <- lift (current_special_attributes_of response load_balancer) ;;
     if py_truthy (PDict special_attributes) then
       let update_special_attributes :=
         merged_special_attributes special_attributes defaults current in
       eh_add_state (kw [("update_special_attributes", PDict update_special_attributes)]) ;;;
       eh_add_op "update_load_balancer_special_attributes" (PDict update_special_attributes)
     else
       eh_add_state (kw [("current_special_attributes", PDict current)]) ;;;
       eh_add_op "reset_load_balancer_special_attributes" (PDict current))
    (lb_not_found load_balancer_arn).

(** [if prev_state and prev_state.get("props") and
    prev_state.get("props").get("name")] and the comparison under it:
    whether the declared name differs from the recorded one. *)
Definition name_changed (name prev_state : pyval) : res bool :=
  if py_truthy prev_state then
    p <~ py_get prev_state "props" ;;
    if py_truthy p then
      prev_name <~ py_get p "name" ;;
      Ok (py_truthy prev_name && py_neqb name prev_name)
    else Ok false
  else Ok false.

(** The part of [get_load_balancer] that runs on a load balancer the
    lookup returned. *)
Definition found_load_balancer (name : pyval) (attributes special_attributes defaults : pydict)
           (region prev_state response : pyval) : M unit :=
  eh_add_log "Got Load Balancer Attributes" response false ;;;
  load_balancer_to_use <- lift (ls <~ py_get response "LoadBalancers" ;; py_first ls) ;;
  load_balancer_arn <- lift (py_get load_balancer_to_use "LoadBalancerArn") ;;
  eh_add_state (kw [("load_balancer_arn", load_balancer_arn); ("region", region)]) ;;;
  new_props <- lift (load_balancer_props name load_balancer_to_use) ;;
  eh_add_props new_props ;;;
  eh_add_links (kw [("Load Balancer", gen_load_balancer_link region load_balancer_arn)]) ;;;
  placement_ops attributes prev_state ;;;
  get_special_attributes special_attributes defaults load_balancer_arn load_balancer_to_use ;;;
  try_except (diff_tags E tags_to_dict load_balancer_arn attributes)
             (lb_not_found load_balancer_arn).

(** The body of [get_load_balancer], without its decorator. *)
Definition get_load_balancer_body (name : pyval)
           (attributes special_attributes defaults : pydict)
           (region prev_state : pyval) : M unit :=
  changed <- lift (name_changed name prev_state) ;;
  if changed then eh_perm_error (PStr "Cannot Change Load Balancer Name") 0
  else
    try_except
      (response <- boto E "describe_load_balancers" (kw [("Names", PList [name])]) ;;
       found <- lift (nonempty_field response "LoadBalancers") ;;
       if found then
         found_load_balancer name attributes special_attributes defaults
                             region prev_state response
       else eh_add_log "Did not find load balancer" (PDict []) false)
      (clauses
         [clause "LoadBalancerNotFoundException"
                 (fun _ => eh_add_log "Load Balancer Does Not Exist"
                                      (PDict (kw [("name", name)])) false ;;;
                           eh_add_op "create_load_balancer" (PBool true));
          fun e =>
            if is_client_error e
            then Some (eh_add_log "Get Load Balancer Error"
                                  (PDict (kw [("error", PStr (str_exn E e))])) true ;;;
                       eh_retry_error (PStr "Get Load Balancer Error") 10 0)
            else None]).

Definition get_load_balancer (name : pyval) (attributes special_attributes defaults : pydict)
           (region prev_state : pyval) : M unit :=
  ext "get_load_balancer"
      (get_load_balancer_body name attributes special_attributes defaults region prev_state).

Definition create_load_balancer_table (attributes : pydict) : list (string * string) :=
  [("DuplicateLoadBalancerNameException",
     "Load Balancer name " ++ py_str E (sget attributes "Name") ++ " already exists");
   ("TooManyLoadBalancersException",
     "AWS Quota for Load Balancers reached. Please increase your quota and try again.");
   ("InvalidConfigurationRequestException", "Invalid Load Balancer Parameters");
   ("TooManyTagsException",
     "Too Many Tags on Load Balancer. You may have 50 tags per resource.");
   ("SubnetNotFoundException", "Subnet provided was not found.");
   ("InvalidSubnetException", "Invalid Subnet Provided");
   ("InvalidSecurityGroupException", "Invalid Security Group Provided");
   ("InvalidSchemeException", "Invalid Scheme Provided");
   ("DuplicateTagKeysException", "Tag already exists. Please check for duplicate tags.");
   ("AvailabilityZoneNotSupportedException",
     "Availbility Zone not supported for Load Balancer. Please change your configuration to point to subnets within supported availbility zones.");
   ("OperationNotPermittedException",
     "The operation you are taking is not permitted. Please change your configuration and try again.")].

Definition create_load_balancer_body (attributes special_attributes defaults : pydict)
           (region prev_state : pyval) : M unit :=
  try_except
    (response <- boto E "create_load_balancer" attributes ;;
     load_balancer <- lift (ls <~ py_get response "LoadBalancers" ;; py_first ls) ;;
     load_balancer_arn <- lift (py_get load_balancer "LoadBalancerArn") ;;
     eh_add_log "Created Load Balancer" load_balancer false ;;;
     lb_name <- lift (py_get load_balancer "LoadBalancerName") ;;
     eh_add_state (kw [("load_balancer_arn", load_balancer_arn);
                       ("region", region);
                       ("name", lb_name)]) ;;;
     new_props <- lift (load_balancer_props lb_name load_balancer) ;;
     eh_add_props new_props ;;;
     eh_add_links (kw [("Load Balancer", gen_load_balancer_link region load_balancer_arn)]) ;;;
     eh_add_op "check_load_balancer_create_complete" (PBool true) ;;;
     placement_ops attributes prev_state ;;;
     create_special_attributes special_attributes defaults load_balancer_arn load_balancer ;;;
     try_except (diff_tags E tags_to_dict load_balancer_arn attributes)
                (lb_not_found load_balancer_arn))
    (clauses [perm_clauses E (create_load_balancer_table attributes) 20;
              common_clause E "Error Creating Load Balancer" 20]).

Definition create_load_balancer (attributes special_attributes defaults : pydict)
           (region prev_state : pyval) : M unit :=
  ext "create_load_balancer"
      (create_load_balancer_body attributes special_attributes defaults region prev_state).

(** [f"{prefix} {reason if reason else ''}"] *)
Definition with_reason (prefix : string) (reason : pyval) : string :=
  prefix ++ " " ++ (if py_truthy reason then py_str E reason else EmptyString).

Definition check_load_balancer_create_complete_body : M unit :=
  name <- eh_state_item "name" ;;
  try_except
    (response <- boto E "describe_load_balancers" (kw [("Names", PList [name])]) ;;
     found <- lift (nonempty_field response "LoadBalancers") ;;
     if found then
       load_balancer_to_use <- lift (ls <~ py_get response "LoadBalancers" ;; py_first ls) ;;
       load_balancer_status <-
         lift (s <~ py_get_default load_balancer_to_use "State" (PDict []) ;; py_get s "Code") ;;
       load_balancer_reason <-
         lift (s <~ py_get_default load_balancer_to_use "State" (PDict []) ;; py_get s "Reason") ;;
       if existsb (py_eqb load_balancer_status) [PStr "active"; PStr "active_impaired"] then
         eh_add_log (with_reason "Load Balancer Creation Succeeded" load_balancer_reason)
                    response false
       else if py_eqb load_balancer_status (PStr "failed") then
         eh_add_log "Load Balancer Creation Failed" response true ;;;
         eh_perm_error (PStr (with_reason "Load Balancer Creation Failed" load_balancer_reason))
                       20
       else
         eh_add_log "Provisioning Load Balancer" response false ;;;
         eh_retry_error (PInt (current_epoch_time_usec_num E)) 30 8
     else eh_add_log "Did not find load balancer" (PDict []) false)
    (clauses
       [clause "LoadBalancerNotFoundException"
               (fun _ => eh_add_log "Load Balancer Does Not Exist"
                                    (PDict (kw [("name", name)])) false);
        fun e =>
          if is_client_error e
          then Some (eh_add_log "Get Load Balancer Error"
                                (PDict (kw [("error", PStr (str_exn E e))])) true ;;;
                     eh_retry_error (PStr "Get Load Balancer Error") 10 0)
          else None]).

Definition check_load_balancer_create_complete : M unit :=
  ext "check_load_balancer_create_complete" check_load_balancer_create_complete_body.

Definition remove_tags_body : M unit :=
  remove_tags <- eh_ops_get "remove_tags" ;;
  load_balancer_arn <- eh_state_item "load_balancer_arn" ;;
  try_except
    (response <- boto E "remove_tags" (kw [("ResourceArns", PList [load_balancer_arn]);
                                          ("TagKeys", remove_tags)]) ;;
     eh_add_log "Removed Tags" remove_tags false)
    (clauses [lb_not_found load_balancer_arn;
              common_clause E "Error Removing Load Balancer Tags" 90]).

Definition remove_tags : M unit := ext "remove_tags" remove_tags_body.

Definition set_tags_body : M unit :=
  tags <- eh_ops_get "set_tags" ;;
  load_balancer_arn <- eh_state_item "load_balancer_arn" ;;
  try_except
    (tag_list <- lift (key_value_list tags) ;;
     response <- boto E "add_tags" (kw [("ResourceArns", PList [load_balancer_arn]);
                                       ("Tags", tag_list)]) ;;
     eh_add_log "Tags Added" response false)
    (clauses [perm_clauses E
                [("LoadBalancerNotFoundException", "Load Balancer Not Found");
                 ("DuplicateTagKeysException",
                   "Duplicate Tags Found. Please remove duplicates and try again.");
                 ("TooManyTagsException",
                   "Too Many Tags on Load Balancer. You may have 50 tags per resource.")] 90;
              common_clause E "Error Adding Tags" 90]).

Definition set_tags : M unit := ext "set_tags" set_tags_body.

Definition set_ip_address_type_body (ip_address_type : pyval) : M unit :=
  load_balancer_arn <- eh_state_item "load_balancer_arn" ;;
  region <- eh_state_item "region" ;;
  try_except
    (response <- boto E "set_ip_address_type"
                      (kw [("LoadBalancerArn", load_balancer_arn);
                           ("IpAddressType", ip_address_type)]) ;;
     eh_add_log "Modified Load Balancer IP Address Type" response false ;;;
     new_type <- lift (py_get response "IpAddressType") ;;
     eh_add_props (kw [("ip_address_type", new_type)]))
    (clauses [perm_clauses E
                [("LoadBalancerNotFoundException", "Load Balancer Not Found");
                 ("InvalidConfigurationRequestException",
                   "Invalid Load Balancer IP Address Type");
                 ("InvalidSubnetException",
                   "Subnet incompatible with provided Load Balancer IP Address Type")] 70;
              common_clause E "Error Updating Load Balancer" 70]).

Definition set_ip_address_type (ip_address_type : pyval) : M unit :=
  ext "set_ip_address_type" (set_ip_address_type_body ip_address_type).

Definition set_security_groups_body (security_groups : pyval) : M unit :=
  load_balancer_arn <- eh_state_item "load_balancer_arn" ;;
  region <- eh_state_item "region" ;;
  try_except
    (response <- boto E "set_security_groups"
                      (kw [("LoadBalancerArn", load_balancer_arn);
                           ("SecurityGroups", security_groups)]) ;;
     eh_add_log "Modified Load Balancer Security Groups" response false ;;;
     ids <- lift (py_get response "SecurityGroupIds") ;;
     eh_add_props (kw [("security_groups", ids)]))
    (clauses [perm_clauses E
                [("LoadBalancerNotFoundException", "Load Balancer Not Found");
                 ("InvalidConfigurationRequestException",
                   "Invalid Load Balancer Security Group Configuration provided");
                 ("InvalidSecurityGroupException", "Invalid Security Group Provided")] 70;
              common_clause E "Error Updating Load Balancer" 70]).

Definition set_security_groups (security_groups : pyval) : M unit :=
  ext "set_security_groups" (set_security_groups_body security_groups).

Definition set_subnets_body (subnets ip_address_type load_balancer_type : pyval) : M unit :=
  load_balancer_arn <- eh_state_item "load_balancer_arn" ;;
  let payload := kw [("LoadBalancerArn", load_balancer_arn); ("Subnets", subnets)] in
  let payload := if py_eqb load_balancer_type (PStr "network")
                 then sset payload "IpAddressType" ip_address_type
                 else payload in
  try_except
    (response <- boto E "set_subnets" payload ;;
     eh_add_log "Modified Load Balancer Subnets" response false ;;;
     ids <- lift (subnet_ids response) ;;
     new_type <- lift (py_get response "IpAddressType") ;;
     eh_add_props (kw [("subnets", ids); ("ip_address_type", new_type)]))
    (clauses [perm_clauses E
                [("LoadBalancerNotFoundException", "Load Balancer Not Found");
                 ("InvalidConfigurationRequestException",
                   "Invalid Load Balancer Subnets and IP Address Type combination provided");
                 ("InvalidSubnetException", "Invalid Subnet Provided");
                 ("SubnetNotFoundException", "Subnet does not exist");
                 ("AvailabilityZoneNotSupportedException",
                   "Availability Zone provided not supported. Please try a different availability zone.")]
                70;
              common_clause E "Error Updating Load Balancer" 70]).

Definition set_subnets (subnets ip_address_type load_balancer_type : pyval) : M unit :=
  ext "set_subnets" (set_subnets_body subnets ip_address_type load_balancer_type).

(** The [try] statement [update_load_balancer_special_attributes] and
    [reset_load_balancer_special_attributes] share. *)
Definition modify_special_attributes (load_balancer_arn : pyval) (update_attributes : pyval)
  : M unit :=
  formatted_update_attributes <- lift (key_value_list update_attributes) ;;
  try_except
    (response <- boto E "modify_load_balancer_attributes"
                      (kw [("LoadBalancerArn", load_balancer_arn);
                           ("Attributes", formatted_update_attributes)]) ;;
     eh_add_log "Modified Load Balancer Special Attributes" response false)
    (clauses [lb_not_found load_balancer_arn;
              perm_clauses E
                [("InvalidConfigurationRequestException",
                   "Invalid Load Balancer Parameters")] 80;
              common_clause E "Error Updating Load Balancer Special Attributes" 80]).

Definition update_load_balancer_special_attributes_body : M unit :=
  load_balancer_arn <- eh_state_item "load_balancer_arn" ;;
  update_special_attributes <- eh_state_item "update_special_attributes" ;;
  modify_special_attributes load_balancer_arn update_special_attributes.

Definition update_load_balancer_special_attributes : M unit :=
  ext "update_load_balancer_special_attributes"
      update_load_balancer_special_attributes_body.

Definition reset_load_balancer_special_attributes_body (defaults : pydict) : M unit :=
  load_balancer_arn <- eh_state_item "load_balancer_arn" ;;
  current_special_attributes <- eh_state_item "current_special_attributes" ;;
  keys <- lift (py_iter current_special_attributes) ;;
  let update_attributes :=
    remove_none_attributes (dict_lit (map (fun key => (key, dict_get defaults key)) keys)) in
  modify_special_attributes load_balancer_arn (PDict update_attributes).

Definition reset_load_balancer_special_attributes (defaults : pydict) : M unit :=
  ext "reset_load_balancer_special_attributes"
      (reset_load_balancer_special_attributes_body defaults).

Definition delete_load_balancer_body : M unit :=
  load_balancer_arn <- eh_state_item "load_balancer_arn" ;;
  try_except
    (response <- boto E "delete_load_balancer" (kw [("LoadBalancerArn", load_balancer_arn)]) ;;
     eh_add_log "Load Balancer Deleted"
                (PDict (kw [("load_balancer_arn", load_balancer_arn)])) false)
    (clauses
       [clause "ResourceInUseException"
               (fun e => modify_eh (handle_common_errors E e
                           "Error Deleting Load Balancer. Resource in Use." 80));
        clause "OperationNotPermittedException"
               (fun _ =>
                  (* [eh.add_log(..., {"error": str(e)}, is_error=True)]:
                     the clause has no [as e]; evaluating the argument
                     fails before [add_log] is called *)
                  raise (UnboundLocalError "e"));
        clause "LoadBalancerNotFoundException"
               (fun _ => eh_add_log "Old Load Balancer Doesn't Exist"
                           (PDict (kw [("load_balancer_arn", load_balancer_arn)])) false);
        common_clause E "Error Deleting Load Balancer" 80]).

Definition delete_load_balancer : M unit :=
  ext "delete_load_balancer" delete_load_balancer_body.

(** The immutable-field test of [lambda_handler]. *)
Definition non_editable_changed (prev_state : pyval) (d : declared_lb) : bool :=
  match read_old_props prev_state ["name"; "scheme"; "load_balancer_type"] with
  | [old_name; old_scheme; old_load_balancer_type] =>
      (py_truthy old_name && py_neqb old_name (name d))
      || (py_truthy old_scheme && py_neqb old_scheme (scheme d))
      || (py_truthy old_load_balancer_type
          && py_neqb old_load_balancer_type (load_balancer_type d))
  | _ => false
  end.

(** The [try] block of [lambda_handler]. *)
Definition handler_body (event context : pyval) : M unit :=
  region <- lift (py_item (account_context E context) "region") ;;
  account_number <- lift (py_item (account_context E context) "number") ;;
  eh_capture_event E event ;;;
  ps <- lift (py_get event "prev_state") ;;
  let prev_state := py_or ps (PDict []) in
  cdef <- lift (py_get event "component_def") ;;
  h <- get_eh ;;
  d <- lift (read_cdef event cdef h) ;;
  special_attributes <- lift (make_special_attributes cdef) ;;
  attributes <- lift (make_attributes d) ;;
  pass_back_data <- lift (py_get_default event "pass_back_data" (PDict [])) ;;
  op <- lift (py_get event "op") ;;
  (if py_truthy pass_back_data then mret tt
   else if py_eqb op (PStr "upsert") then
     eh_add_op "get_load_balancer" (PBool true) ;;;
     when (non_editable_changed prev_state d)
          (eh_add_log "Cannot edit non-editable field"
                      (PDict (kw [("error", PStr non_editable_error_message)])) true ;;;
           eh_perm_error (PStr non_editable_error_message) 10)
   else if py_eqb op (PStr "delete") then
     eh_add_op "delete_load_balancer" (PBool true) ;;;
     arn <- lift (p <~ py_item prev_state "props" ;; py_item p "arn") ;;
     eh_add_state (kw [("load_balancer_arn", arn)])
   else mret tt) ;;;
  get_load_balancer (name d) attributes special_attributes default_special_attributes
                    region prev_state ;;;
  delete_load_balancer ;;;
  create_load_balancer attributes special_attributes default_special_attributes
                       region prev_state ;;;
  check_load_balancer_create_complete ;;;
  remove_tags ;;;
  set_tags ;;;
  set_ip_address_type (ip_address_type d) ;;;
  set_security_groups (security_groups d) ;;;
  set_subnets (subnets d) (ip_address_type d) (load_balancer_type d) ;;;
  update_load_balancer_special_attributes ;;;
  reset_load_balancer_special_attributes default_special_attributes.

Definition lambda_handler (event context : pyval) : world -> response * world :=
  run_handler E (handler_body event context).

End Handler.
End LoadBalancer.

(* ================================================================== *)
(** ** Concrete environments *)
(* ================================================================== *)

(** Environments on which the handlers can be run: a provider that
    answers each client method from a script, and plain stand-ins for
    the helpers of [extutil] and the runtime. *)
Module Examples.

(** The provider's answer: the scripted one for the method, whatever
    the arguments and the calls made before. *)
Definition scripted (script : list (string * res pyval))
  : list call -> string -> pydict -> res pyval :=
  fun _ method _ =>
    match find (fun row => String.eqb (fst row) method) script with
    | Some row => snd row
    | None => Raise (ClientError "InternalFailure" "no answer scripted")
    end.

Definition region_of (_ : pyval) : pyval :=
  PDict (kw [("region", PStr "us-east-1"); ("number", PStr "123456789012")]).

(** A classifier that asks for a retry under the message it is given. *)
Definition retry_always (e : exn) (msg : string) (prog : Z) (h : ExtensionHandler)
  : ExtensionHandler :=
  retry_error (PStr msg) prog 0 h.

(** [int(s)] on a string of ASCII characters: white space around the
    numeral is dropped, a sign may come first, and the decimal digits
    may be separated by single underscores. *)
Definition is_space (c : ascii) : bool :=
  let n := nat_of_ascii c in
  (Nat.eqb n 32 || (Nat.leb 9 n && Nat.leb n 13) || (Nat.leb 28 n && Nat.leb n 31))%bool.

Definition digit_of (c : ascii) : option Z :=
  let n := nat_of_ascii c in
  if (Nat.leb 48 n && Nat.leb n 57)%bool then Some (Z.of_nat (n - 48)) else None.

Fixpoint lstrip (s : string) : string :=
  match s with
  | String c s' => if is_space c then lstrip s' else s
  | EmptyString => s
  end.

(** The text before the trailing white space, if the rest is only white
    space from some point on. *)
Fixpoint rstrip (s : string) : string :=
  match s with
  | String c s' =>
      match rstrip s' with
      | EmptyString => if is_space c then EmptyString else String c EmptyString
      | t => String c t
      end
  | EmptyString => s
  end.

(** The digits of a numeral; [after_digit] tells that the character
    before was a digit, which an underscore and the end require. *)
Fixpoint digits (s : string) (acc : Z) (after_digit : bool) : option Z :=
  match s with
  | EmptyString => if after_digit then Some acc else None
  | String c s' =>
      match digit_of c with
      | Some d => digits s' (10 * acc + d)%Z true
      | None =>
          if (Ascii.eqb c "_" && after_digit)%bool then digits s' acc false else None
      end
  end.

Definition parse_int (s : string) : option Z :=
  match rstrip (lstrip s) with
  | String "-" t => option_map Z.opp (digits t 0%Z false)
  | String "+" t => digits t 0%Z false
  | t => digits t 0%Z false
  end.

Definition show_int (z : Z) : string := NilZero.string_of_int (Z.to_int z).

(** [repr(k)] of a key: a string in single quotes. *)
Definition show_key (k : pyval) : string :=
  match k with
  | PStr s => "'" ++ s ++ "'"
  | PInt z => show_int z
  | PBool true => "True"
  | PBool false => "False"
  | PNone => "None"
  | PList _ | PDict _ => "<repr>"
  end.

(** [str(e)]: a [KeyError] shows the key it did not find.  The other
    exceptions of the runtime are kept here by the operation that
    failed, which is shown after the name of the class. *)
Definition show_exn (e : exn) : string :=
  match e with
  | ClientError _ msg => msg
  | KeyError k => show_key k
  | UnboundLocalError var => "local variable '" ++ var ++ "' referenced before assignment"
  | TypeError what => "TypeError: " ++ what
  | AttributeError what => "AttributeError: " ++ what
  | IndexError => "list index out of range"
  | ValueError what => "ValueError: " ++ what
  end.

Definition env (script : list (string * res pyval)) : Env :=
  mk_env (scripted script)
         retry_always
         (fun _ => eh_empty)
         region_of
         (fun _ _ cname => cname)
         1700000000000000
         (fun _ => "<repr>")
         parse_int
         show_int
         show_exn
         show_exn.

(** A world whose handler has the given queue and scratch state, and no
    remote call behind it. *)
Definition world_with (ops state : pydict) : world :=
  mk_world (mk_eh ops [] [] state [] [] None) [].

End Examples.

(** What the top of a handler reports for an exception [e] that escaped
    its body: an error, no progress, no retry. *)
Definition internal_failure (E : Env) (e : exn) (r : response) : Prop :=
  r_progress r = 0 /\ r_success r = false /\
  r_error r = PStr (str_exn E e) /\ r_callback_sec r = None.

(** The provider's answer to the status poll shows a load balancer in
    state [code], for the stated [reason]. *)
Definition reports (response code reason : pyval) : Prop :=
  exists resp lb rest st,
    response = PDict resp /\
    dict_find resp (PStr "LoadBalancers") = Some (PList (lb :: rest)) /\
    py_get_default lb "State" (PDict []) = Ok st /\
    py_get st "Code" = Ok code /\
    py_get st "Reason" = Ok reason.

(** Helpers for reasoning about dictionary displays. *)

(** String literals that are pairwise different. *)
Fixpoint distinct (l : list string) : bool :=
  match l with
  | [] => true
  | x :: l' => negb (existsb (String.eqb x) l') && distinct l'
  end.

Definition str_items (items : list (string * pyval)) : pydict :=
  map (fun kv => (PStr (fst kv), snd kv)) items.


(** Tags as the provider has them: string keys with string values.
    [tag_dict] is the dictionary of a tag map, [tag_list] its
    [[{"Key": k, "Value": v}, ...]] form. *)
Definition tag_map : Type := list (string * string).

Definition tag_dict (m : tag_map) : pydict :=
  str_items (map (fun kv => (fst kv, PStr (snd kv))) m).

Definition tag_list (m : tag_map) : pyval :=
  PList (map (fun kv => PDict (kw [("Key", PStr (fst kv)); ("Value", PStr (snd kv))])) m).

(** Whether [e] binds a key equal to [k] to a value equal to [v]: the
    inner loop of [==] on dictionaries. *)
Fixpoint dict_has (e : pydict) (k v : pyval) : bool :=
  match e with
  | [] => false
  | (k', v') :: e' => if py_eqb k k' then py_eqb v v' else dict_has e' k v
  end.



(** A dictionary as a lookup: [k] bound to [v k] when [k] is one of
    [keys] and [v k] is not [None], unbound otherwise. *)
Definition binds (d : pydict) (keys : list string) (v : string -> pyval) : Prop :=
  forall k, dict_find d (PStr k)
            = if existsb (String.eqb k) keys
              then (if is_none (v k) then None else Some (v k))
              else None.



(** Concrete invocations used to run the handlers. *)
Module Scenarios.

(** The handler object left over from an earlier invocation does not
    matter: [capture_event] resets it. *)
Definition fresh : world := mk_world eh_empty [].

(** [event["prev_state"]["props"][k]] and [event["component_def"][k]] *)
Definition recorded (event : pyval) (k : string) : res pyval :=
  s <~ py_item event "prev_state" ;; p <~ py_item s "props" ;; py_item p k.

Definition declared_value (event : pyval) (k : string) : res pyval :=
  c <~ py_item event "component_def" ;; py_item c k.

(** *** A rule whose declared listener changed *)

(** The previous deployment recorded the rule under listener
    [arn:listener/old]; the new declaration names [arn:listener/new]
    and changes nothing else. *)
Definition rule_cdef (listener_arn : string) : pyval :=
  PDict (kw [("listener_arn", PStr listener_arn);
             ("target_group_arn", PStr "arn:targetgroup/1");
             ("conditions",
               PList [PDict (kw [("field", PStr "path-pattern");
                                 ("values", PList [PStr "/api/*"])])]);
             ("priority", PInt 10)]).

Definition rule_prev_state : pyval :=
  PDict (kw [("props",
               PDict (kw [("arn", PStr "arn:rule/1");
                          ("listener_arn", PStr "arn:listener/old")]))]).

Definition rule_event : pyval :=
  PDict (kw [("op", PStr "upsert");
             ("component_def", rule_cdef "arn:listener/new");
             ("prev_state", rule_prev_state)]).

Definition live_rule : pyval :=
  PDict (kw [("RuleArn", PStr "arn:rule/1");
             ("Priority", PStr "10");
             ("Conditions",
               PList [PDict (kw [("Field", PStr "path-pattern");
                                 ("PathPatternConfig",
                                   PDict (kw [("Values", PList [PStr "/api/*"])]))])]);
             ("Actions",
               PList [PDict (kw [("Type", PStr "forward");
                                 ("TargetGroupArn", PStr "arn:targetgroup/1")])])]).

Definition rule_env : Env :=
  Examples.env
    [("describe_rules", Ok (PDict (kw [("Rules", PList [live_rule])])));
     ("describe_tags", Ok (PDict (kw [("TagDescriptions", PList [])])));
     ("modify_rule", Ok (PDict (kw [("Rules", PList [live_rule])])))].

(** *** A listener whose declaration is met by the live listener *)





(** *** A load balancer whose recorded props lack the subnets *)

Definition lb_props_without_subnets : pyval :=
  PDict (kw [("props",
               PDict (kw [("name", PStr "web");
                          ("arn", PStr "arn:loadbalancer/1");
                          ("scheme", PStr "internal");
                          ("load_balancer_type", PStr "application");
                          ("ip_address_type", PStr "ipv4");
                          ("security_groups", PList [PStr "sg-1"])]))]).

(** The props an earlier deployment of the same declaration recorded. *)
Definition lb_props_recorded : pyval :=
  PDict (kw [("props",
               PDict (kw [("name", PStr "web");
                          ("arn", PStr "arn:loadbalancer/1");
                          ("scheme", PStr "internal");
                          ("load_balancer_type", PStr "application");
                          ("ip_address_type", PStr "ipv4");
                          ("subnets", PList [PStr "subnet-1"; PStr "subnet-2"]);
                          ("security_groups", PList [PStr "sg-1"])]))]).

Definition lb_event (prev_state : pyval) : pyval :=
  PDict (kw [("op", PStr "upsert");
             ("component_name", PStr "web");
             ("component_def",
               PDict (kw [("name", PStr "web");
                          ("subnets", PList [PStr "subnet-1"; PStr "subnet-2"]);
                          ("security_groups", PList [PStr "sg-1"])]));
             ("prev_state", prev_state)]).

(** What [lambda_handler] reads of that declaration, and the attributes
    it makes of it. *)
Definition lb_declared : LoadBalancer.declared_lb :=
  LoadBalancer.mk_declared_lb
    (PStr "web") (PList [PStr "subnet-1"; PStr "subnet-2"]) (PList [PStr "sg-1"])
    (PStr "internal") PNone (PStr "application") (PStr "ipv4").

Definition lb_attributes : pydict :=
  kw [("Name", PStr "web");
      ("Subnets", PList [PStr "subnet-1"; PStr "subnet-2"]);
      ("SecurityGroups", PList [PStr "sg-1"]);
      ("Scheme", PStr "internal");
      ("Type", PStr "application");
      ("IpAddressType", PStr "ipv4")].

Definition live_load_balancer : pyval :=
  PDict (kw [("LoadBalancerArn", PStr "arn:loadbalancer/1");
             ("LoadBalancerName", PStr "web");
             ("DNSName", PStr "web.elb.amazonaws.com");
             ("CanonicalHostedZoneId", PStr "Z1");
             ("VpcId", PStr "vpc-1");
             ("Type", PStr "application");
             ("Scheme", PStr "internal");
             ("IpAddressType", PStr "ipv4");
             ("SecurityGroups", PList [PStr "sg-1"]);
             ("AvailabilityZones",
               PList [PDict (kw [("SubnetId", PStr "subnet-1")]);
                      PDict (kw [("SubnetId", PStr "subnet-2")])]);
             ("State", PDict (kw [("Code", PStr "active")]))]).

(** The attribute map of a load balancer left at its defaults. *)
Definition default_attribute_answer : pyval :=
  PDict (kw [("Attributes",
               PList [PDict (kw [("Key", PStr "deletion_protection.enabled");
                                 ("Value", PStr "false")]);
                      PDict (kw [("Key", PStr "idle_timeout.timeout_seconds");
                                 ("Value", PStr "60")]);
                      PDict (kw [("Key", PStr "access_logs.s3.bucket");
                                 ("Value", PStr EmptyString)])])]).

Definition lb_env : Env :=
  Examples.env
    [("describe_load_balancers",
       Ok (PDict (kw [("LoadBalancers", PList [live_load_balancer])])));
     ("describe_load_balancer_attributes", Ok default_attribute_answer);
     ("describe_tags", Ok (PDict (kw [("TagDescriptions", PList [])])));
     ("modify_load_balancer_attributes", Ok (PDict (kw [("Attributes", PList [])])))].

End Scenarios.

(* ================================================================== *)
(** ** Helpers the handlers define and the data they exchange *)
(* ================================================================== *)

(** The conditions of a rule, in the two shapes the rule handler
    converts between: the one of [component_def] (["field"], ["values"]
    and, for a header condition, ["http_header_name"]) and the one of
    the provider (["Field"] and one configuration section).  The pairs
    of a query-string condition are strings. *)
Inductive condition : Type :=
| HttpHeader (name values : pyval)
| HttpRequestMethod (values : pyval)
| HostHeader (values : pyval)
| PathPattern (values : pyval)
| QueryString (pairs : tag_map)
| SourceIp (values : pyval).

Definition declared_condition (c : condition) : pyval :=
  match c with
  | HttpHeader name values =>
      PDict (kw [("field", PStr "http-header"); ("values", values);
                 ("http_header_name", name)])
  | HttpRequestMethod values =>
      PDict (kw [("field", PStr "http-request-method"); ("values", values)])
  | HostHeader values =>
      PDict (kw [("field", PStr "host-header"); ("values", values)])
  | PathPattern values =>
      PDict (kw [("field", PStr "path-pattern"); ("values", values)])
  | QueryString pairs =>
      PDict (kw [("field", PStr "query-string");
                 ("values",
                   PList (map (fun kv => PDict [(PStr (fst kv), PStr (snd kv))]) pairs))])
  | SourceIp values =>
      PDict (kw [("field", PStr "source-ip"); ("values", values)])
  end.

Definition formatted_condition (c : condition) : pyval :=
  match c with
  | HttpHeader name values =>
      PDict (kw [("Field", PStr "http-header");
                 ("HttpHeaderConfig",
                   PDict (kw [("HttpHeaderName", name); ("Values", values)]))])
  | HttpRequestMethod values =>
      PDict (kw [("Field", PStr "http-request-method");
                 ("HttpRequestMethodConfig", PDict (kw [("Values", values)]))])
  | HostHeader values =>
      PDict (kw [("Field", PStr "host-header");
                 ("HostHeaderConfig", PDict (kw [("Values", values)]))])
  | PathPattern values =>
      PDict (kw [("Field", PStr "path-pattern");
                 ("PathPatternConfig", PDict (kw [("Values", values)]))])
  | QueryString pairs =>
      PDict (kw [("Field", PStr "query-string");
                 ("QueryStringConfig", PDict (kw [("Values", tag_list pairs)]))])
  | SourceIp values =>
      PDict (kw [("Field", PStr "source-ip");
                 ("SourceIpConfig", PDict (kw [("Values", values)]))])
  end.

(** What [conditions_to_formatted_conditions] reads of a declared
    condition whose field is one of the six: [item.get("values")] and,
    for a header condition, [item.get("http_header_name")], [None] for
    a key that is missing, and nothing of any other key; of a
    query-string condition the pairs of every dictionary under
    ["values"], in order, both sides as text. *)
Inductive reads_as (E : Env) : pyval -> condition -> Prop :=
| reads_http_header (d : pydict) :
    dict_find d (PStr "field") = Some (PStr "http-header") ->
    reads_as E (PDict d) (HttpHeader (sget d "http_header_name") (sget d "values"))
| reads_http_request_method (d : pydict) :
    dict_find d (PStr "field") = Some (PStr "http-request-method") ->
    reads_as E (PDict d) (HttpRequestMethod (sget d "values"))
| reads_host_header (d : pydict) :
    dict_find d (PStr "field") = Some (PStr "host-header") ->
    reads_as E (PDict d) (HostHeader (sget d "values"))
| reads_path_pattern (d : pydict) :
    dict_find d (PStr "field") = Some (PStr "path-pattern") ->
    reads_as E (PDict d) (PathPattern (sget d "values"))
| reads_query_string (d : pydict) (rows : list (list (string * pyval))) :
    dict_find d (PStr "field") = Some (PStr "query-string") ->
    dict_find d (PStr "values") = Some (PList (map (fun row => PDict (str_items row)) rows)) ->
    Forall (fun row => distinct (map fst row) = true) rows ->
    reads_as E (PDict d)
             (QueryString (map (fun kv => (fst kv, py_str E (snd kv))) (concat rows)))
| reads_source_ip (d : pydict) :
    dict_find d (PStr "field") = Some (PStr "source-ip") ->
    reads_as E (PDict d) (SourceIp (sget d "values")).

(** What [formatted_conditions_to_conditions] reads of a condition in
    the provider's shape: the entries ["Values"] and ["HttpHeaderName"]
    of the configuration section of its field ([None] when the section
    or the entry is missing), and nothing outside that section; of a
    query-string condition the ["Key"] and the ["Value"] of every item,
    as text. *)
Definition section (d : pydict) (name : string) : pyval :=
  dict_get_default d (PStr name) (PDict []).

Inductive answers_as (E : Env) : pyval -> condition -> Prop :=
| answers_http_header (d s : pydict) :
    dict_find d (PStr "Field") = Some (PStr "http-header") ->
    section d "HttpHeaderConfig" = PDict s ->
    answers_as E (PDict d) (HttpHeader (sget s "HttpHeaderName") (sget s "Values"))
| answers_http_request_method (d s : pydict) :
    dict_find d (PStr "Field") = Some (PStr "http-request-method") ->
    section d "HttpRequestMethodConfig" = PDict s ->
    answers_as E (PDict d) (HttpRequestMethod (sget s "Values"))
| answers_host_header (d s : pydict) :
    dict_find d (PStr "Field") = Some (PStr "host-header") ->
    section d "HostHeaderConfig" = PDict s ->
    answers_as E (PDict d) (HostHeader (sget s "Values"))
| answers_path_pattern (d s : pydict) :
    dict_find d (PStr "Field") = Some (PStr "path-pattern") ->
    section d "PathPatternConfig" = PDict s ->
    answers_as E (PDict d) (PathPattern (sget s "Values"))
| answers_query_string (d s : pydict) (items : list pydict) :
    dict_find d (PStr "Field") = Some (PStr "query-string") ->
    section d "QueryStringConfig" = PDict s ->
    dict_find s (PStr "Values") = Some (PList (map PDict items)) ->
    answers_as E (PDict d)
               (QueryString (map (fun item => (py_str E (sget item "Key"),
                                               py_str E (sget item "Value"))) items))
| answers_source_ip (d s : pydict) :
    dict_find d (PStr "Field") = Some (PStr "source-ip") ->
    section d "SourceIpConfig" = PDict s ->
    answers_as E (PDict d) (SourceIp (sget s "Values")).

(** The six fields the conversions know. *)
Definition known_fields : list string :=
  ["http-header"; "http-request-method"; "host-header"; "path-pattern";
   "query-string"; "source-ip"].

Definition known_field (field : pyval) : bool :=
  existsb (fun f => py_eqb field (PStr f)) known_fields.

(** [c] makes at most [n] remote calls: from any world, the calls after
    [c] are the calls before it followed by at most [n] more. *)
Definition calls_added {A} (n : nat) (c : M A) : Prop :=
  forall w, exists l, calls (snd (c w)) = (calls w ++ l)%list /\ (length l <= n)%nat.

(** The keyword arguments of an update: the identifier under [id_key],
    nothing under the keys of [left_out], the declared attribute under
    every other key. *)
Definition update_arguments (payload attributes : pydict) (id_key : string) (id : pyval)
           (left_out : list string) : Prop :=
  forall k, dict_find payload (PStr k)
            = if String.eqb k id_key then Some id
              else if existsb (String.eqb k) left_out then None
                   else dict_find attributes (PStr k).

(** How an operation of a handler ends when the provider answers that
    the resource is not there.  [logs_and_goes_on]: the operation ends
    normally, one entry is added to the log and no return is declared,
    so the operations after it run.  [logs_and_fails]: one entry is
    added to the log and a permanent error is declared with the given
    progress and text. *)
Definition logs_and_goes_on (op : M unit) (w : world) (entry : log_entry) : Prop :=
  exists w',
    op w = (Ok tt, w')
    /\ ret (eh w') = None
    /\ logs (eh w') = (logs (eh w) ++ [entry])%list.

Definition logs_and_fails (op : M unit) (w : world) (entry : log_entry)
           (prog : Z) (error : string) : Prop :=
  exists w',
    op w = (Ok tt, w')
    /\ ret (eh w') = Some (mk_declared 200 prog (PStr error) false 0)
    /\ is_perm_error (eh w') = true
    /\ logs (eh w') = (logs (eh w) ++ [entry])%list.

(** The provider's answer holds nothing under [k]: the key is missing
    or bound to an empty list. *)
Definition holds_none (response : pyval) (k : string) : Prop :=
  exists resp,
    response = PDict resp
    /\ (dict_find resp (PStr k) = None \/ dict_find resp (PStr k) = Some (PList [])).

(** What [lambda_handler] reads of [component_def] before it looks at
    [op]: the declared fields and the attributes made of them.  An
    exception raised here ends the invocation. *)
Definition listener_declaration (E : Env) (ev : pydict) : res pydict :=
  d <~ Listener.read_cdef (sget ev "component_def") ;;
  Listener.make_attributes E d.

Definition rule_declaration (E : Env) (ev : pydict) : res pydict :=
  d <~ Rule.read_cdef (sget ev "component_def") ;;
  Rule.make_attributes E d.

Definition load_balancer_declaration (E : Env) (ev : pydict) : res pydict :=
  d <~ LoadBalancer.read_cdef E (PDict ev) (sget ev "component_def") eh_empty ;;
  special_attributes <~ LoadBalancer.make_special_attributes E (sget ev "component_def") ;;
  LoadBalancer.make_attributes E d.
(* ================================================================== *)
(** ** Properties *)
(* ================================================================== *)

Open Scope list_scope.

Ltac eh_simpl :=
  unfold has_returned, is_perm_error, is_retry,
         eh_add_log, eh_add_op, eh_add_state, eh_add_props, eh_add_links,
         eh_perm_error, eh_retry_error, modify_eh,
         add_log, add_op, add_state, add_props, add_links, complete_op,
         perm_error, declare_return in *;
  cbn [ret ops state props links logs retries eh calls fst snd] in *.

(** *** The decorator *)

Lemma ext_run (op : string) (f : M unit) (w : world) :
  ret (eh w) = None ->
  py_truthy (sget (ops (eh w)) op) = true ->
  ext op f w =
    match f w with
    | (Ok _, w') => (Ok tt, if has_returned (eh w') then w'
                           else mk_world (complete_op op (eh w')) (calls w'))
    | (Raise e, w') => (Raise e, w')
    end.
Proof.
  intros Hret Hop. unfold ext, has_returned at 1. rewrite Hret, Hop. reflexivity.
Qed.

Lemma ext_skip_returned (op : string) (f : M unit) (w : world) :
  has_returned (eh w) = true -> ext op f w = (Ok tt, w).
Proof. intros H. unfold ext. rewrite H. reflexivity. Qed.

Lemma ext_skip_absent (op : string) (f : M unit) (w : world) :
  py_truthy (sget (ops (eh w)) op) = false -> ext op f w = (Ok tt, w).
Proof.
  intros H. unfold ext. rewrite H. destruct (has_returned (eh w)); reflexivity.
Qed.

(** An exception that leaves an operation leaves the handler too: the
    operations after it do not run and the top level reports it. *)
Lemma run_handler_raise (E : Env) (c k : M unit) (w w' : world) (e : exn) :
  c w = (Raise e, w') ->
  internal_failure E e (fst (run_handler E (c ;;; k) w)) /\
  calls (snd (run_handler E (c ;;; k) w)) = calls w'.
Proof.
  intros H. unfold run_handler, mbind. rewrite H. cbn.
  unfold internal_failure. cbn. auto.
Qed.

(** *** Dictionaries with string keys *)

Lemma Ok_inj {A} (a b : A) : Ok a = Ok b -> a = b.
Proof. congruence. Qed.

Lemma py_eqb_str_l (x : pyval) (s : string) : py_eqb x (PStr s) = true -> x = PStr s.
Proof.
  destruct x; cbn; try discriminate. intros H. apply String.eqb_eq in H. now subst.
Qed.

Lemma py_eqb_str_r (s : string) (x : pyval) : py_eqb (PStr s) x = true -> x = PStr s.
Proof.
  destruct x; cbn; try discriminate. intros H. apply String.eqb_eq in H. now subst.
Qed.

Lemma py_eqb_str (s t : string) : py_eqb (PStr s) (PStr t) = String.eqb s t.
Proof. reflexivity. Qed.

Lemma py_eqb_str_refl (s : string) : py_eqb (PStr s) (PStr s) = true.
Proof. cbn. apply String.eqb_refl. Qed.

Lemma py_eqb_str_neq (s t : string) : s <> t -> py_eqb (PStr s) (PStr t) = false.
Proof. intros H. cbn. now apply String.eqb_neq. Qed.

Lemma py_neqb_none_l (v : pyval) : v <> PNone -> py_neqb PNone v = true.
Proof. destruct v; intros H; try reflexivity. congruence. Qed.

Lemma dict_find_set_same (d : pydict) (k : string) (v : pyval) :
  dict_find (dict_set d (PStr k) v) (PStr k) = Some v.
Proof.
  induction d as [| [k0 v0] d IH]; cbn.
  - now rewrite String.eqb_refl.
  - destruct (py_eqb k0 (PStr k)) eqn:Hk; cbn; rewrite Hk; [reflexivity | exact IH].
Qed.

Lemma dict_find_set_other (d : pydict) (k k' : string) (v : pyval) :
  k <> k' ->
  dict_find (dict_set d (PStr k) v) (PStr k') = dict_find d (PStr k').
Proof.
  intros Hne. induction d as [| [k0 v0] d IH]; cbn.
  - apply String.eqb_neq in Hne. now rewrite Hne.
  - destruct (py_eqb k0 (PStr k)) eqn:Hk; cbn.
    + apply py_eqb_str_l in Hk. subst k0.
      now rewrite (py_eqb_str_neq _ _ Hne).
    + destruct (py_eqb k0 (PStr k')); [reflexivity | exact IH].
Qed.

Lemma sget_sset_same (d : pydict) (k : string) (v : pyval) : sget (sset d k v) k = v.
Proof. unfold sget, sset, dict_get, dict_get_default. now rewrite dict_find_set_same. Qed.

Lemma sget_sset_other (d : pydict) (k k' : string) (v : pyval) :
  k <> k' -> sget (sset d k v) k' = sget d k'.
Proof.
  intros H. unfold sget, sset, dict_get, dict_get_default.
  now rewrite dict_find_set_other.
Qed.

Lemma dict_find_filter_none (f : pyval * pyval -> bool) (d : pydict) (k : pyval) :
  dict_find d k = None -> dict_find (filter f d) k = None.
Proof.
  induction d as [| [k0 v0] d IH]; cbn; [reflexivity |].
  destruct (py_eqb k0 k) eqn:Hk; [discriminate |].
  intros H. destruct (f (k0, v0)); cbn; [rewrite Hk |]; auto.
Qed.

Lemma dict_find_app (d e : pydict) (k : pyval) :
  dict_find (d ++ e) k = match dict_find d k with
                         | Some v => Some v
                         | None => dict_find e k
                         end.
Proof.
  induction d as [| [k0 v0] d IH]; cbn; [reflexivity |].
  destruct (py_eqb k0 k); [reflexivity | exact IH].
Qed.

Lemma dict_set_fresh (d : pydict) (k v : pyval) :
  dict_find d k = None -> dict_set d k v = d ++ [(k, v)].
Proof.
  induction d as [| [k0 v0] d IH]; cbn; [reflexivity |].
  destruct (py_eqb k0 k); [discriminate |]. intros H. now rewrite IH.
Qed.

Lemma dict_update_distinct (items : list (string * pyval)) :
  forall acc : pydict,
    (forall k, In k (map fst items) -> dict_find acc (PStr k) = None) ->
    distinct (map fst items) = true ->
    dict_update acc (str_items items) = acc ++ str_items items.
Proof.
  induction items as [| [k v] items IH]; intros acc Hfresh Hd.
  - cbn. now rewrite app_nil_r.
  - cbn in Hd. apply andb_true_iff in Hd as [Hk Hd].
    unfold dict_update in *. cbn [str_items map fold_left fst snd].
    rewrite dict_set_fresh by (apply Hfresh; now left).
    fold (str_items items). rewrite IH; [now rewrite <- app_assoc | | exact Hd].
    intros k' Hin. rewrite dict_find_app, Hfresh by (now right). cbn.
    destruct (String.eqb k k') eqn:Heq; [| reflexivity].
    apply String.eqb_eq in Heq. subst k'.
    apply negb_true_iff in Hk.
    assert (existsb (String.eqb k) (map fst items) = true); [| congruence].
    apply existsb_exists. exists k. split; [exact Hin | apply String.eqb_refl].
Qed.

Lemma dict_find_str_items_not_in (items : list (string * pyval)) (k : string) :
  ~ In k (map fst items) -> dict_find (str_items items) (PStr k) = None.
Proof.
  induction items as [| [k0 v0] items IH]; cbn; [reflexivity |].
  intros H. destruct (String.eqb k0 k) eqn:Hk.
  - apply String.eqb_eq in Hk. tauto.
  - apply IH. tauto.
Qed.

(** A display whose keys are distinct literals is the list of its
    items. *)
Lemma kw_distinct (items : list (string * pyval)) :
  distinct (map fst items) = true -> kw items = str_items items.
Proof.
  intros H. unfold kw, dict_lit. fold (str_items items).
  now rewrite dict_update_distinct.
Qed.

Ltac kw_simpl :=
  repeat (rewrite kw_distinct by reflexivity);
  cbn [str_items map fst snd].



(** *** Reading the provider's answer *)

Lemma nonempty_field_found (resp : pydict) (k : string) (x : pyval) (rest : list pyval) :
  dict_find resp (PStr k) = Some (PList (x :: rest)) ->
  nonempty_field (PDict resp) k = Ok true.
Proof.
  intros H. unfold nonempty_field.
  replace (py_truthy (PDict resp)) with true
    by (destruct resp; [discriminate H | reflexivity]).
  unfold py_get, py_get_default, dict_get_default. rewrite H. cbn [rbind py_truthy py_len].
  reflexivity.
Qed.

Lemma first_of_field (resp : pydict) (k : string) (x : pyval) (rest : list pyval) :
  dict_find resp (PStr k) = Some (PList (x :: rest)) ->
  (ls <~ py_get (PDict resp) k ;; py_first ls) = Ok x.
Proof.
  intros H. unfold py_get, py_get_default, dict_get_default. rewrite H. reflexivity.
Qed.

Lemma nonempty_field_none (response : pyval) (k : string) :
  holds_none response k -> nonempty_field response k = Ok false.
Proof.
  intros (resp & -> & H). unfold nonempty_field.
  destruct (py_truthy (PDict resp)); [| reflexivity].
  unfold py_get, py_get_default, dict_get_default.
  destruct H as [-> | ->]; reflexivity.
Qed.


(* ------------------------------------------------------------------ *)
(** *** C1: the immutable-field guard *)

(** The listener handler: a fresh upsert whose immutable-field test
    succeeds ends with the permanent error, progress 10, and no remote
    call. *)
Lemma listener_guard (E : Env) (event context : pyval) (w0 : world)
      (ev : pydict) (region number : pyval) (d : Listener.declared_listener)
      (attributes : pydict) :
  py_item (account_context E context) "region" = Ok region ->
  py_item (account_context E context) "number" = Ok number ->
  event = PDict ev ->
  py_truthy (dict_get_default ev (PStr "pass_back_data") (PDict [])) = false ->
  py_eqb (sget ev "op") (PStr "upsert") = true ->
  Listener.read_cdef (sget ev "component_def") = Ok d ->
  Listener.make_attributes E d = Ok attributes ->
  Listener.non_editable_changed (py_or (sget ev "prev_state") (PDict [])) d = true ->
  let r := Listener.lambda_handler E event context w0 in
  r_error (fst r) = PStr Listener.non_editable_error_message
  /\ r_progress (fst r) = 10
  /\ r_success (fst r) = false
  /\ r_callback_sec (fst r) = None
  /\ calls (snd r) = calls w0.
Proof.
  intros Hreg Hnum -> Hpbd Hop Hcdef Hattrs Hchanged r. subst r.
  unfold sget, dict_get in *.
  unfold Listener.lambda_handler, run_handler, Listener.handler_body.
  unfold eh_capture_event, capture_event, mbind, lift, py_get, py_get_default.
  cbn [rbind]. rewrite Hreg, Hnum, Hcdef, Hattrs, Hop, Hpbd, Hchanged.
  unfold when. eh_simpl.
  unfold Listener.get_listener, Listener.delete_listener, Listener.create_listener,
    Listener.update_listener, Listener.remove_tags, Listener.set_tags.
  rewrite !ext_skip_returned by reflexivity.
  cbn. auto.
Qed.

(** The test succeeds when the props record both fields and one of them
    is set and differs from the declared value. *)
Lemma listener_non_editable_changed (prev_state props old_arn old_port : pyval)
      (d : Listener.declared_listener) :
  py_item prev_state "props" = Ok props ->
  py_item props "load_balancer_arn" = Ok old_arn ->
  py_item props "port" = Ok old_port ->
  (py_truthy old_arn = true /\ py_neqb old_arn (Listener.load_balancer_arn d) = true)
  \/ (py_truthy old_port = true /\ py_neqb old_port (Listener.port d) = true) ->
  Listener.non_editable_changed prev_state d = true.
Proof.
  intros Hprops Harn Hport H.
  unfold Listener.non_editable_changed, read_old_props.
  rewrite Hprops. cbn [rbind]. rewrite Harn, Hport.
  destruct H as [[-> ->] | [-> ->]]; [reflexivity | apply orb_true_r].
Qed.

(** The load balancer handler: the same. *)
Lemma load_balancer_guard (E : Env) (event context : pyval) (w0 : world)
      (ev : pydict) (region number : pyval) (d : LoadBalancer.declared_lb)
      (special_attributes attributes : pydict) :
  py_item (account_context E context) "region" = Ok region ->
  py_item (account_context E context) "number" = Ok number ->
  event = PDict ev ->
  py_truthy (dict_get_default ev (PStr "pass_back_data") (PDict [])) = false ->
  py_eqb (sget ev "op") (PStr "upsert") = true ->
  LoadBalancer.read_cdef E (PDict ev) (sget ev "component_def") eh_empty = Ok d ->
  LoadBalancer.make_special_attributes E (sget ev "component_def") = Ok special_attributes ->
  LoadBalancer.make_attributes E d = Ok attributes ->
  LoadBalancer.non_editable_changed (py_or (sget ev "prev_state") (PDict [])) d = true ->
  let r := LoadBalancer.lambda_handler E event context w0 in
  r_error (fst r) = PStr LoadBalancer.non_editable_error_message
  /\ r_progress (fst r) = 10
  /\ r_success (fst r) = false
  /\ r_callback_sec (fst r) = None
  /\ calls (snd r) = calls w0.
Proof.
  intros Hreg Hnum -> Hpbd Hop Hcdef Hspecial Hattrs Hchanged r. subst r.
  unfold sget, dict_get in Hop, Hcdef, Hspecial, Hchanged.
  unfold LoadBalancer.lambda_handler, run_handler, LoadBalancer.handler_body.
  unfold eh_capture_event, capture_event, mbind, lift, get_eh, py_get, py_get_default.
  cbn [rbind]. rewrite Hreg, Hnum, Hpbd.
  unfold modify_eh. cbn [eh calls fst snd].
  rewrite Hcdef, Hspecial, Hattrs, Hop, Hchanged.
  unfold when. eh_simpl.
  unfold LoadBalancer.get_load_balancer, LoadBalancer.delete_load_balancer,
    LoadBalancer.create_load_balancer, LoadBalancer.check_load_balancer_create_complete,
    LoadBalancer.remove_tags, LoadBalancer.set_tags, LoadBalancer.set_ip_address_type,
    LoadBalancer.set_security_groups, LoadBalancer.set_subnets,
    LoadBalancer.update_load_balancer_special_attributes,
    LoadBalancer.reset_load_balancer_special_attributes.
  rewrite !ext_skip_returned by reflexivity.
  cbn. auto.
Qed.

Lemma load_balancer_non_editable_changed
      (prev_state props old_name old_scheme old_type : pyval)
      (d : LoadBalancer.declared_lb) :
  py_item prev_state "props" = Ok props ->
  py_item props "name" = Ok old_name ->
  py_item props "scheme" = Ok old_scheme ->
  py_item props "load_balancer_type" = Ok old_type ->
  (py_truthy old_name = true /\ py_neqb old_name (LoadBalancer.name d) = true)
  \/ (py_truthy old_scheme = true /\ py_neqb old_scheme (LoadBalancer.scheme d) = true)
  \/ (py_truthy old_type = true
      /\ py_neqb old_type (LoadBalancer.load_balancer_type d) = true) ->
  LoadBalancer.non_editable_changed prev_state d = true.
Proof.
  intros Hprops Hname Hscheme Htype H.
  unfold LoadBalancer.non_editable_changed, read_old_props.
  rewrite Hprops. cbn [rbind]. rewrite Hname, Hscheme, Htype.
  destruct H as [[-> ->] | [[-> ->] | [-> ->]]];
    rewrite ?orb_true_r; reflexivity.
Qed.

(** The rule handler reads the key "old_listener_arn", which no
    operation writes, and compares the value with itself: on props
    that lack that key the test fails whatever listener is declared
    and whatever listener is recorded. *)
Lemma rule_guard_silent (prev_state : pyval) (d : Rule.declared_rule) (e : exn) :
  (p <~ py_item prev_state "props" ;; py_item p "old_listener_arn") = Raise e ->
  Rule.non_editable_changed prev_state d = false.
Proof.
  intros H. unfold Rule.non_editable_changed, read_old_props. rewrite H. reflexivity.
Qed.

(** C1, on the rule handler.  The props record the listener
    [arn:listener/old], the declaration names [arn:listener/new], the
    event carries no [pass_back_data]: the pass reports no permanent
    error.  It looks the rule up, reads its tags, modifies the rule and
    finishes with progress 100. *)
Theorem rule_listener_change_not_refused :
  let r := Rule.lambda_handler Scenarios.rule_env Scenarios.rule_event PNone
                               Scenarios.fresh in
  Scenarios.recorded Scenarios.rule_event "listener_arn" = Ok (PStr "arn:listener/old")
  /\ Scenarios.declared_value Scenarios.rule_event "listener_arn" = Ok (PStr "arn:listener/new")
  /\ r_success (fst r) = true
  /\ r_progress (fst r) = 100
  /\ r_error (fst r) = PNone
  /\ map fst (calls (snd r)) = ["describe_rules"; "describe_tags"; "modify_rule"].
Proof. vm_compute. repeat split. Qed.
(* ------------------------------------------------------------------ *)
(** *** C2: a load balancer that already matches its declaration *)

(** The statement of C2 fails in the load balancer handler.  The
    declaration names the load balancer [web] with two subnets and one
    security group and declares no special attribute and no tag.  The
    live load balancer has that name, those subnets and that security
    group, the default scheme, type and ip address type, no tags, and
    its special attributes are at their defaults; the props recorded
    by the earlier deployment say the same.  The read phase still
    leaves four operations on the queue, and the pass goes on to call
    [set_ip_address_type]. *)
Theorem matching_load_balancer_not_left_alone :
  let E := Scenarios.lb_env in
  let prev_state := Scenarios.lb_props_recorded in
  let event := Scenarios.lb_event prev_state in
  let live := Scenarios.live_load_balancer in
  let d := Scenarios.lb_declared in
  let attributes := Scenarios.lb_attributes in
  let defaults := LoadBalancer.default_special_attributes in
  let start := Examples.world_with [(PStr "get_load_balancer", PBool true)] [] in
  (* the declaration *)
  (c <~ py_get event "component_def" ;; LoadBalancer.read_cdef E event c eh_empty) = Ok d
  /\ LoadBalancer.make_attributes E d = Ok attributes
  /\ (c <~ py_get event "component_def" ;; LoadBalancer.make_special_attributes E c)
     = Ok []
  /\ sget attributes "Tags" = PNone
  (* the live load balancer is the declared one *)
  /\ py_get live "LoadBalancerName" = Ok (LoadBalancer.name d)
  /\ (found <~ LoadBalancer.load_balancer_props (LoadBalancer.name d) live ;;
      Ok (map (sget found)
              ["subnets"; "security_groups"; "scheme"; "load_balancer_type";
               "ip_address_type"]))
     = Ok [LoadBalancer.subnets d; LoadBalancer.security_groups d; LoadBalancer.scheme d;
           LoadBalancer.load_balancer_type d; LoadBalancer.ip_address_type d]
  /\ (current <~ LoadBalancer.current_special_attributes_of
                   Scenarios.default_attribute_answer live ;;
      Ok (map (sget current)
              ["deletion_protection.enabled"; "idle_timeout.timeout_seconds"]))
     = Ok (map (sget defaults)
               ["deletion_protection.enabled"; "idle_timeout.timeout_seconds"])
  (* the recorded props say the same *)
  /\ map (LoadBalancer.prev_prop prev_state) ["subnets"; "security_groups"; "ip_address_type"]
     = [Ok (LoadBalancer.subnets d); Ok (LoadBalancer.security_groups d);
        Ok (LoadBalancer.ip_address_type d)]
  (* the queue after the read operation, and the calls of the pass *)
  /\ dict_keys (ops (eh (snd (LoadBalancer.get_load_balancer
                                E (LoadBalancer.name d) attributes [] defaults
                                (PStr "us-east-1") prev_state start))))
     = [PStr "set_ip_address_type"; PStr "set_subnets"; PStr "set_security_groups";
        PStr "reset_load_balancer_special_attributes"]
  /\ map fst (calls (snd (LoadBalancer.lambda_handler E event PNone Scenarios.fresh)))
     = ["describe_load_balancers"; "describe_load_balancer_attributes";
        "describe_tags"; "set_ip_address_type"].
Proof. vm_compute. repeat split. Qed.

(* ------------------------------------------------------------------ *)
(** *** C3: the tag comparison *)

Lemma py_eqb_dict (d1 d2 : pydict) :
  py_eqb (PDict d1) (PDict d2)
  = Nat.eqb (length d1) (length d2)
    && forallb (fun kv => dict_has d2 (fst kv) (snd kv)) d1.
Proof.
  cbn [py_eqb]. f_equal.
  induction d1 as [| [k v] d1 IH]; [reflexivity |].
  cbn [forallb fst snd]. rewrite <- IH. f_equal.
  clear IH. induction d2 as [| [k' v'] d2 IH2]; [reflexivity |].
  cbn [dict_has]. now rewrite <- IH2.
Qed.

Lemma distinct_NoDup (l : list string) : distinct l = true -> NoDup l.
Proof.
  induction l as [| x l IH]; cbn; intros H; constructor.
  - apply andb_true_iff in H as [H _]. apply negb_true_iff in H.
    intros Hin.
    assert (existsb (String.eqb x) l = true); [| congruence].
    apply existsb_exists. exists x. split; [exact Hin | apply String.eqb_refl].
  - apply andb_true_iff in H as [_ H]. auto.
Qed.

Lemma tag_dict_cons (k v : string) (m : tag_map) :
  tag_dict ((k, v) :: m) = (PStr k, PStr v) :: tag_dict m.
Proof. reflexivity. Qed.

Lemma tag_dict_app (m m' : tag_map) : tag_dict (m ++ m') = tag_dict m ++ tag_dict m'.
Proof. unfold tag_dict, str_items. now rewrite !map_app. Qed.

Lemma tag_dict_keys (m : tag_map) : dict_keys (tag_dict m) = map PStr (map fst m).
Proof.
  unfold dict_keys, tag_dict, str_items. rewrite !map_map. reflexivity.
Qed.

Lemma tag_find_none (m : tag_map) (k : string) :
  ~ In k (map fst m) -> dict_find (tag_dict m) (PStr k) = None.
Proof.
  induction m as [| [k0 v0] m IH]; [reflexivity |].
  rewrite tag_dict_cons. cbn [dict_find map fst In]. rewrite py_eqb_str.
  intros H. destruct (String.eqb k0 k) eqn:Hk.
  - apply String.eqb_eq in Hk. tauto.
  - apply IH. tauto.
Qed.

Lemma tag_find_some (m : tag_map) (k : string) (x : pyval) :
  dict_find (tag_dict m) (PStr k) = Some x -> exists v, x = PStr v /\ In (k, v) m.
Proof.
  induction m as [| [k0 v0] m IH]; [discriminate |].
  rewrite tag_dict_cons. cbn [dict_find In]. rewrite py_eqb_str.
  destruct (String.eqb k0 k) eqn:Hk.
  - apply String.eqb_eq in Hk. subst k0. intros [= <-]. exists v0. auto.
  - intros H. destruct (IH H) as (v & -> & Hin). exists v. auto.
Qed.

Lemma tag_find_in (m : tag_map) (k v : string) :
  distinct (map fst m) = true -> In (k, v) m ->
  dict_find (tag_dict m) (PStr k) = Some (PStr v).
Proof.
  induction m as [| [k0 v0] m IH]; [intros _ [] |].
  rewrite tag_dict_cons. cbn [dict_find In map fst distinct]. rewrite py_eqb_str.
  intros Hd Hin. apply andb_true_iff in Hd as [Hk0 Hd]. apply negb_true_iff in Hk0.
  destruct Hin as [[= -> ->] | Hin].
  - now rewrite String.eqb_refl.
  - destruct (String.eqb k0 k) eqn:Hk; [| now apply IH].
    apply String.eqb_eq in Hk. subst k0.
    assert (existsb (String.eqb k) (map fst m) = true); [| congruence].
    apply existsb_exists. exists k. split; [| apply String.eqb_refl].
    apply (in_map fst) in Hin. exact Hin.
Qed.

Lemma tag_mem (m : tag_map) (k : string) :
  dict_mem (tag_dict m) (PStr k) = true <-> In k (map fst m).
Proof.
  unfold dict_mem. split.
  - destruct (dict_find _ _) eqn:H; [| discriminate]. intros _.
    apply tag_find_some in H as (v & _ & Hin). apply (in_map fst) in Hin. exact Hin.
  - intros Hin. destruct (dict_find _ _) eqn:H; [reflexivity |].
    exfalso. apply in_map_iff in Hin as ([k' v] & Hk & Hin). cbn in Hk. subst k'.
    clear -H Hin. induction m as [| [k0 v0] m IH]; [destruct Hin |].
    rewrite tag_dict_cons in H. cbn [dict_find] in H. rewrite py_eqb_str in H.
    destruct (String.eqb k0 k) eqn:Hk; [discriminate |].
    destruct Hin as [[= -> ->] | Hin]; [now rewrite String.eqb_refl in Hk | auto].
Qed.

Lemma dict_lit_tag_dict (m : tag_map) :
  distinct (map fst m) = true -> dict_lit (tag_dict m) = tag_dict m.
Proof.
  intros H. unfold dict_lit, tag_dict.
  rewrite dict_update_distinct; [reflexivity | intros; reflexivity |].
  now rewrite map_map.
Qed.

(** The two functions that turn a tag list into a dictionary agree on
    the tag list of a tag map. *)
Lemma tag_item_get (k v : string) :
  py_get (PDict (kw [("Key", PStr k); ("Value", PStr v)])) "Key" = Ok (PStr k)
  /\ py_get (PDict (kw [("Key", PStr k); ("Value", PStr v)])) "Value" = Ok (PStr v).
Proof. split; reflexivity. Qed.

Lemma distinct_app_head (pre : tag_map) (k v : string) (m : tag_map) :
  distinct (map fst (pre ++ (k, v) :: m)) = true -> ~ In k (map fst pre).
Proof.
  intros H Hin. apply distinct_NoDup in H. rewrite map_app in H. cbn in H.
  apply NoDup_remove_2 in H. apply H. apply in_or_app. now left.
Qed.

Lemma tags_to_dict_fold (m pre : tag_map) :
  distinct (map fst (pre ++ m)) = true ->
  rfold (fun acc item =>
           k <~ py_get item "Key" ;;
           v <~ py_get item "Value" ;;
           if hashable k then Ok (dict_set acc k v)
           else Raise (TypeError "unhashable"))
        (map (fun kv => PDict (kw [("Key", PStr (fst kv)); ("Value", PStr (snd kv))])) m)
        (tag_dict pre)
  = Ok (tag_dict (pre ++ m)).
Proof.
  revert pre. induction m as [| [k v] m IH]; intros pre Hd.
  - cbn. now rewrite app_nil_r.
  - cbn [map rfold fst snd].
    destruct (tag_item_get k v) as [-> ->]. cbn [rbind hashable].
    rewrite dict_set_fresh by (apply tag_find_none; eapply distinct_app_head; eauto).
    change [(PStr k, PStr v)] with (tag_dict [(k, v)]). rewrite <- tag_dict_app.
    replace (pre ++ (k, v) :: m) with ((pre ++ [(k, v)]) ++ m) in *
      by (now rewrite <- app_assoc).
    now apply IH.
Qed.

Lemma tags_to_dict_tag_list (m : tag_map) :
  distinct (map fst m) = true -> tags_to_dict (tag_list m) = Ok (tag_dict m).
Proof.
  intros Hd. unfold tags_to_dict, tag_list. cbn [py_iter rbind].
  exact (tags_to_dict_fold m [] Hd).
Qed.

Lemma compressed_dict_fold (E : Env) (m pre : tag_map) :
  distinct (map fst (pre ++ m)) = true ->
  rfold (fun acc item =>
           k <~ py_get item "Key" ;;
           v <~ py_get item "Value" ;;
           Ok (dict_set acc (PStr (py_str E k)) (PStr (py_str E v))))
        (map (fun kv => PDict (kw [("Key", PStr (fst kv)); ("Value", PStr (snd kv))])) m)
        (tag_dict pre)
  = Ok (tag_dict (pre ++ m)).
Proof.
  revert pre. induction m as [| [k v] m IH]; intros pre Hd.
  - cbn. now rewrite app_nil_r.
  - cbn [map rfold fst snd].
    destruct (tag_item_get k v) as [-> ->]. cbn [rbind py_str].
    rewrite dict_set_fresh by (apply tag_find_none; eapply distinct_app_head; eauto).
    change [(PStr k, PStr v)] with (tag_dict [(k, v)]). rewrite <- tag_dict_app.
    replace (pre ++ (k, v) :: m) with ((pre ++ [(k, v)]) ++ m) in *
      by (now rewrite <- app_assoc).
    now apply IH.
Qed.

Lemma compressed_dict_tag_list (E : Env) (m : tag_map) :
  distinct (map fst m) = true ->
  Rule.key_value_list_obj_to_compressed_dict E (tag_list m) = Ok (tag_dict m).
Proof.
  intros Hd. unfold Rule.key_value_list_obj_to_compressed_dict, tag_list.
  cbn [py_iter rbind]. exact (compressed_dict_fold E m [] Hd).
Qed.

(** The desired tags of [attributes] are the tag list of the declared
    tags. *)
Lemma expand_tag_dict (E : Env) (m : tag_map) :
  expand_dict_to_key_value_list_obj E (PDict (tag_dict m)) = Ok (tag_list m).
Proof.
  unfold expand_dict_to_key_value_list_obj, tag_list, tag_dict, str_items.
  cbn [py_items rbind]. rewrite !map_map. reflexivity.
Qed.

Lemma existsb_filter_keys (p : string -> bool) (f : string * string -> bool) (m : tag_map) :
  existsb p (map fst (filter f m)) = true -> existsb p (map fst m) = true.
Proof.
  rewrite !existsb_exists. intros (x & Hin & Hp). exists x. split; [| exact Hp].
  apply in_map_iff in Hin as (kv & <- & Hin). apply filter_In in Hin as [Hin _].
  now apply in_map.
Qed.

Lemma distinct_filter (f : string * string -> bool) (m : tag_map) :
  distinct (map fst m) = true -> distinct (map fst (filter f m)) = true.
Proof.
  induction m as [| [k v] m IH]; [reflexivity |].
  cbn [map fst distinct filter]. intros H. apply andb_true_iff in H as [Hk Hd].
  destruct (f (k, v)); [| auto].
  cbn [map fst distinct]. apply andb_true_iff. split; [| auto].
  apply negb_true_iff. apply negb_true_iff in Hk.
  destruct (existsb _ (map fst (filter f m))) eqn:He; [| reflexivity].
  apply existsb_filter_keys in He. congruence.
Qed.

Lemma filter_tag_dict (f : pyval * pyval -> bool) (m : tag_map) :
  filter f (tag_dict m)
  = tag_dict (filter (fun kv => f (PStr (fst kv), PStr (snd kv))) m).
Proof.
  induction m as [| [k v] m IH]; [reflexivity |].
  rewrite tag_dict_cons. cbn [filter fst snd].
  destruct (f (PStr k, PStr v)); [rewrite tag_dict_cons |]; now rewrite IH.
Qed.

Lemma in_tag_dict (m : tag_map) (x y : pyval) :
  In (x, y) (tag_dict m) <-> exists k v, x = PStr k /\ y = PStr v /\ In (k, v) m.
Proof.
  unfold tag_dict, str_items. rewrite map_map, in_map_iff. cbn [fst snd]. split.
  - intros ([k v] & [= <- <-] & Hin). exists k, v. auto.
  - intros (k & v & -> & -> & Hin). exists (k, v). auto.
Qed.

(** [v != current_tags.get(k)] says that the pair is not among the
    current tags. *)
Lemma differs_from_current (cm : tag_map) (k v : string) :
  distinct (map fst cm) = true ->
  py_neqb (PStr v) (dict_get (tag_dict cm) (PStr k)) = true <-> ~ In (k, v) cm.
Proof.
  intros Hd. unfold dict_get, dict_get_default, py_neqb.
  destruct (dict_find (tag_dict cm) (PStr k)) as [x |] eqn:Hfind.
  - destruct (tag_find_some _ _ _ Hfind) as (v' & -> & Hin).
    rewrite py_eqb_str. destruct (String.eqb v v') eqn:Hv; cbn.
    + apply String.eqb_eq in Hv. subst v'. split; [discriminate | tauto].
    + split; [| reflexivity]. intros _ Hin'.
      rewrite (tag_find_in _ _ _ Hd Hin') in Hfind.
      injection Hfind as ->. now rewrite String.eqb_refl in Hv.
  - split; [| reflexivity]. intros _ Hin.
    rewrite (tag_find_in _ _ _ Hd Hin) in Hfind. discriminate.
Qed.

Lemma stale_keys_tags (cm dm : tag_map) (x : pyval) :
  In x (stale_keys (tag_dict cm) (tag_dict dm))
  <-> exists k, x = PStr k /\ In k (map fst cm) /\ ~ In k (map fst dm).
Proof.
  unfold stale_keys. rewrite filter_In, tag_dict_keys, in_map_iff. split.
  - intros [(k & <- & Hin) Hmem]. exists k. repeat split; auto.
    intros Hd. apply tag_mem in Hd. rewrite Hd in Hmem. discriminate.
  - intros (k & -> & Hc & Hd). split; [eauto |].
    apply negb_true_iff. destruct (dict_mem _ _) eqn:H; [| reflexivity].
    apply tag_mem in H. tauto.
Qed.

Lemma changed_items_tags (cm dm : tag_map) (x y : pyval) :
  distinct (map fst cm) = true -> distinct (map fst dm) = true ->
  In (x, y) (changed_items (tag_dict cm) (tag_dict dm))
  <-> exists k v, x = PStr k /\ y = PStr v /\ In (k, v) dm /\ ~ In (k, v) cm.
Proof.
  intros Hc Hd. unfold changed_items, dict_items.
  rewrite filter_tag_dict, dict_lit_tag_dict by (now apply distinct_filter).
  rewrite in_tag_dict. cbn [fst snd].
  split; intros (k & v & -> & -> & H); exists k, v; (split; [reflexivity |]);
    (split; [reflexivity |]).
  - apply filter_In in H as [Hin Hne]. cbn [fst snd] in Hne.
    split; [exact Hin |]. now apply differs_from_current.
  - destruct H as [Hin Hne]. apply filter_In. split; [exact Hin |].
    cbn [fst snd]. now apply differs_from_current.
Qed.

Lemma dict_has_tags (cm : tag_map) (k v : string) :
  dict_has (tag_dict cm) (PStr k) (PStr v) = true -> In (k, v) cm.
Proof.
  induction cm as [| [k0 v0] cm IH]; [discriminate |].
  rewrite tag_dict_cons. cbn [dict_has In]. rewrite !py_eqb_str.
  destruct (String.eqb k k0) eqn:Hk.
  - intros Hv. apply String.eqb_eq in Hk, Hv. subst. now left.
  - intros H. right. auto.
Qed.

(** Equal tag dictionaries hold the same pairs. *)
Lemma equal_tags (cm dm : tag_map) :
  distinct (map fst cm) = true -> distinct (map fst dm) = true ->
  py_eqb (PDict (tag_dict dm)) (PDict (tag_dict cm)) = true ->
  forall k v, In (k, v) dm <-> In (k, v) cm.
Proof.
  intros Hc Hd Heq. rewrite py_eqb_dict in Heq.
  apply andb_true_iff in Heq as [Hlen Hall]. apply Nat.eqb_eq in Hlen.
  unfold tag_dict, str_items in Hlen. rewrite !length_map in Hlen.
  rewrite forallb_forall in Hall.
  assert (Hincl : forall k v, In (k, v) dm -> In (k, v) cm).
  { intros k v Hin. apply dict_has_tags.
    apply (Hall (PStr k, PStr v)). apply in_tag_dict. eauto. }
  intros k v. split; [apply Hincl |]. intros Hin.
  assert (Hkeys : incl (map fst cm) (map fst dm)).
  { apply NoDup_length_incl.
    - now apply distinct_NoDup.
    - rewrite !length_map. lia.
    - intros k' Hk'. apply in_map_iff in Hk' as ([k1 v1] & <- & Hk').
      apply Hincl in Hk'. now apply (in_map fst) in Hk'. }
  assert (Hk : In k (map fst dm)) by (apply Hkeys; now apply (in_map fst) in Hin).
  apply in_map_iff in Hk as ([k1 v1] & Hk1 & Hin1). cbn in Hk1. subst k1.
  pose proof (Hincl _ _ Hin1) as Hin1'.
  pose proof (tag_find_in _ _ _ Hc Hin) as F1.
  pose proof (tag_find_in _ _ _ Hc Hin1') as F2.
  rewrite F1 in F2. injection F2 as ->. exact Hin1.
Qed.

Lemma same_key_same_value (m : tag_map) (k v v' : string) :
  distinct (map fst m) = true -> In (k, v) m -> In (k, v') m -> v = v'.
Proof.
  intros Hd H H'.
  pose proof (tag_find_in _ _ _ Hd H) as F.
  rewrite (tag_find_in _ _ _ Hd H') in F. now injection F.
Qed.

(** C3.  [cm] are the current tags, [dm] the desired ones, not empty;
    both are maps (no key twice).  The comparison computes
    [remove_tags], the keys of [cm] that [dm] lacks, and [add_tags], the
    pairs of [dm] that [cm] does not hold (a new key, or another
    value); it enqueues [remove_tags] with the first when it is not
    empty and [set_tags] with the second when it is not empty, and
    touches nothing else.  A key is in [remove_tags] or in [add_tags]
    exactly when one of the two maps holds a pair for it that the other
    does not hold, and no key is in both. *)
Theorem tag_symmetric_difference (E : Env) (to_dict : pyval -> res pydict)
        (cm dm : tag_map) (w : world) :
  to_dict = tags_to_dict \/ to_dict = Rule.key_value_list_obj_to_compressed_dict E ->
  dm <> [] ->
  distinct (map fst cm) = true ->
  distinct (map fst dm) = true ->
  let remove_tags := stale_keys (tag_dict cm) (tag_dict dm) in
  let add_tags := changed_items (tag_dict cm) (tag_dict dm) in
  let w' := snd (enqueue_tag_ops (tag_list dm) to_dict (tag_dict cm) w) in
  ops (eh w')
  = (let queue := match remove_tags with
                  | [] => ops (eh w)
                  | _ => sset (ops (eh w)) "remove_tags" (PList remove_tags)
                  end in
     match add_tags with
     | [] => queue
     | _ => sset queue "set_tags" (PDict add_tags)
     end)
  /\ (forall x, In x remove_tags
                <-> exists k, x = PStr k /\ In k (map fst cm) /\ ~ In k (map fst dm))
  /\ (forall x y, In (x, y) add_tags
                  <-> exists k v, x = PStr k /\ y = PStr v
                                  /\ In (k, v) dm /\ ~ In (k, v) cm)
  /\ (forall k, In (PStr k) remove_tags \/ In (PStr k) (dict_keys add_tags)
                <-> (exists v, In (k, v) cm /\ ~ In (k, v) dm)
                    \/ (exists v, In (k, v) dm /\ ~ In (k, v) cm))
  /\ (forall x, ~ (In x remove_tags /\ In x (dict_keys add_tags))).
Proof.
  intros Hto Hne Hc Hd r a w'.
  assert (Hr : forall x, In x r
                         <-> exists k, x = PStr k /\ In k (map fst cm)
                                       /\ ~ In k (map fst dm))
    by (intros x; apply stale_keys_tags).
  assert (Ha : forall x y, In (x, y) a
                           <-> exists k v, x = PStr k /\ y = PStr v
                                           /\ In (k, v) dm /\ ~ In (k, v) cm)
    by (intros x y; now apply changed_items_tags).
  assert (Htruthy : py_truthy (tag_list dm) = true)
    by (destruct dm; [congruence | reflexivity]).
  assert (Hdict : to_dict (tag_list dm) = Ok (tag_dict dm)).
  { destruct Hto as [-> | ->];
      [now apply tags_to_dict_tag_list | now apply compressed_dict_tag_list]. }
  split; [| split; [exact Hr | split; [exact Ha | split]]].
  - subst w'. unfold enqueue_tag_ops. rewrite Htruthy.
    unfold mbind, lift. rewrite Hdict.
    change (stale_keys (tag_dict cm) (tag_dict dm)) with r.
    change (changed_items (tag_dict cm) (tag_dict dm)) with a.
    clearbody r a.
    destruct (py_neqb (PDict (tag_dict dm)) (PDict (tag_dict cm))) eqn:Hdiff.
    + unfold when, mbind. destruct r, a; cbn [py_truthy]; eh_simpl; reflexivity.
    + apply negb_false_iff in Hdiff.
      pose proof (equal_tags cm dm Hc Hd Hdiff) as Hsame.
      assert (r = []) as ->.
      { destruct r as [| x r]; [reflexivity |]. exfalso.
        destruct (proj1 (Hr x) (or_introl eq_refl)) as (k & _ & Hin & Hout).
        apply in_map_iff in Hin as ([k' v] & Hk & Hin). cbn in Hk. subst k'.
        apply Hout. apply Hsame in Hin. now apply (in_map fst) in Hin. }
      assert (a = []) as ->.
      { destruct a as [| [x y] a]; [reflexivity |]. exfalso.
        destruct (proj1 (Ha x y) (or_introl eq_refl)) as (k & v & _ & _ & Hin & Hout).
        apply Hout. now apply Hsame. }
      reflexivity.
  - intros k. split.
    + intros [Hin | Hin].
      * apply Hr in Hin as (k0 & [= <-] & Hin & Hout).
        apply in_map_iff in Hin as ([k' v] & Hk & Hin). cbn in Hk. subst k'.
        left. exists v. split; [exact Hin |].
        intros Hin'. apply Hout. now apply (in_map fst) in Hin'.
      * apply in_map_iff in Hin as ([x y] & Hx & Hin). cbn in Hx. subst x.
        apply Ha in Hin as (k0 & v & [= <-] & _ & Hin & Hout).
        right. exists v. auto.
    + intros [(v & Hin & Hout) | (v & Hin & Hout)].
      * destruct (in_dec string_dec k (map fst dm)) as [Hk | Hk].
        -- apply in_map_iff in Hk as ([k' v'] & Hk & Hin'). cbn in Hk. subst k'.
           right. apply in_map_iff. exists (PStr k, PStr v'). split; [reflexivity |].
           apply Ha. exists k, v'. repeat split; try assumption.
           intros Hin''. rewrite (same_key_same_value cm k v v' Hc Hin Hin'') in Hout.
           contradiction.
        -- left. apply Hr. exists k. repeat split; try assumption.
           now apply (in_map fst) in Hin.
      * right. apply in_map_iff. exists (PStr k, PStr v). split; [reflexivity |].
        apply Ha. exists k, v. auto.
  - intros x [Hin Hin'].
    apply Hr in Hin as (k & -> & _ & Hout).
    apply in_map_iff in Hin' as ([x y] & Hx & Hin'). cbn in Hx. subst x.
    apply Ha in Hin' as (k0 & v & [= <-] & _ & Hin' & _).
    apply Hout. now apply (in_map fst) in Hin'.
Qed.

Lemma tag_symmetric_difference_witness :
  let cm := [("env", "dev"); ("team", "core"); ("old", "x")] in
  let dm := [("env", "prod"); ("team", "core"); ("owner", "ops")] in
  let w := Examples.world_with [] [] in
  let w' := snd (enqueue_tag_ops (tag_list dm) tags_to_dict (tag_dict cm) w) in
  ops (eh w')
  = kw [("remove_tags", PList [PStr "old"]);
        ("set_tags", PDict (tag_dict [("env", "prod"); ("owner", "ops")]))].
Proof.
  intros cm dm w w'.
  destruct (tag_symmetric_difference (Examples.env []) tags_to_dict cm dm w)
    as [Hops _].
  - now left.
  - discriminate.
  - reflexivity.
  - reflexivity.
  - exact Hops.
Defined.

(* ------------------------------------------------------------------ *)
(** *** C4: create on absence *)

(** When [prev_state.get("props", {}).get("arn")] can be read, so can
    the other keys of the props. *)
Lemma props_get_total (prev_state arn : pyval) (k : string) :
  (p <~ py_get_default prev_state "props" (PDict []) ;; py_get p "arn") = Ok arn ->
  exists v, (p <~ py_get_default prev_state "props" (PDict []) ;; py_get p k) = Ok v.
Proof.
  unfold py_get, py_get_default.
  destruct prev_state; cbn [rbind]; try discriminate.
  destruct (dict_get_default _ _ _); cbn [rbind]; try discriminate.
  intros _. eexists. reflexivity.
Qed.



(* ------------------------------------------------------------------ *)
(** *** C5: a not-found answer to a delete or an update *)

(** The statement of C5 fails on [update_listener]: the provider answers
    [ListenerNotFoundException] and the operation declares a permanent
    error with progress 20. *)
Lemma update_listener_not_found_is_permanent :
  let E := Examples.env
             [("modify_listener",
               Raise (ClientError "ListenerNotFoundException"
                                  "Listener 'arn:listener/1' not found"))] in
  let w := Examples.world_with [(PStr "update_listener", PBool true)]
                               [(PStr "listener_arn", PStr "arn:listener/1")] in
  let attributes := kw [("Protocol", PStr "HTTPS"); ("Port", PInt 443)] in
  let w' := snd (Listener.update_listener E attributes (PStr "us-east-1") (PDict []) w) in
  is_perm_error (eh w') = true /\
  ret (eh w') = Some (mk_declared 200 20 (PStr "Listener 'arn:listener/1' not found") false 0).
Proof. vm_compute. split; reflexivity. Qed.

(** The run of an operation whose remote call raises: the identifier is
    read from the state, the call is answered by the exception, and the
    clause that matches it is run. *)
Ltac not_found_run Hst Hcl Hret :=
  unfold eh_ops_get, eh_state_item, py_item, try_except, mbind, boto, lift;
  try rewrite Hst; cbv zeta; rewrite Hcl;
  cbn; eh_simpl; try rewrite Hret;
  eexists; split; [reflexivity |]; eh_simpl; auto.

(** C5, amended.  An operation that deletes or updates a resource and
    receives the not-found error of that resource from the provider:

    - logs the condition and ends without declaring any return, so the
      pass goes on, when it is a delete operation ([delete_listener],
      [delete_rule], [delete_load_balancer]), [remove_tags] of the
      listener or of the load balancer handler,
      [update_load_balancer_special_attributes] or
      [reset_load_balancer_special_attributes];
    - logs the condition as an error and declares a permanent error
      with the provider's message when it is [update_listener] or
      [update_rule] (progress 20), [set_tags] of any of the three
      handlers (progress 90), [set_ip_address_type],
      [set_security_groups] or [set_subnets] (progress 70). *)
Theorem not_found_on_delete_and_update (E : Env) (w : world) (msg : string) :
  ret (eh w) = None ->
  let not_found cls := Raise (ClientError cls msg) in
  let error_entry title := mk_log title (PDict (kw [("error", PStr msg)])) true in
  (* the delete operations *)
  (forall arn,
      py_truthy (sget (ops (eh w)) "delete_listener") = true ->
      dict_find (state (eh w)) (PStr "listener_arn") = Some arn ->
      client E (calls w) "delete_listener" (kw [("ListenerArn", arn)])
        = not_found "ListenerNotFoundException" ->
      logs_and_goes_on (Listener.delete_listener E) w
        (mk_log "Old Listener Doesn't Exist" (PDict (kw [("listener_arn", arn)])) false))
  /\
  (forall arn,
      py_truthy (sget (ops (eh w)) "delete_rule") = true ->
      dict_find (state (eh w)) (PStr "rule_arn") = Some arn ->
      client E (calls w) "delete_rule" (kw [("RuleArn", arn)])
        = not_found "RuleNotFoundException" ->
      logs_and_goes_on (Rule.delete_rule E) w (error_entry "Listener Rule Not Found"))
  /\
  (forall arn,
      py_truthy (sget (ops (eh w)) "delete_load_balancer") = true ->
      dict_find (state (eh w)) (PStr "load_balancer_arn") = Some arn ->
      client E (calls w) "delete_load_balancer" (kw [("LoadBalancerArn", arn)])
        = not_found "LoadBalancerNotFoundException" ->
      logs_and_goes_on (LoadBalancer.delete_load_balancer E) w
        (mk_log "Old Load Balancer Doesn't Exist"
                (PDict (kw [("load_balancer_arn", arn)])) false))
  /\
  (* the update operations that go on *)
  (forall arn,
      py_truthy (sget (ops (eh w)) "remove_tags") = true ->
      dict_find (state (eh w)) (PStr "listener_arn") = Some arn ->
      client E (calls w) "remove_tags"
             (kw [("ResourceArns", PList [arn]);
                  ("TagKeys", sget (ops (eh w)) "remove_tags")])
        = not_found "ListenerNotFoundException" ->
      logs_and_goes_on (Listener.remove_tags E) w
        (mk_log "Listener Not Found" (PDict (kw [("arn", arn)])) false))
  /\
  (forall arn,
      py_truthy (sget (ops (eh w)) "remove_tags") = true ->
      dict_find (state (eh w)) (PStr "load_balancer_arn") = Some arn ->
      client E (calls w) "remove_tags"
             (kw [("ResourceArns", PList [arn]);
                  ("TagKeys", sget (ops (eh w)) "remove_tags")])
        = not_found "LoadBalancerNotFoundException" ->
      logs_and_goes_on (LoadBalancer.remove_tags E) w
        (mk_log "Load Balancer Not Found" (PDict (kw [("arn", arn)])) false))
  /\
  (forall arn update formatted,
      py_truthy (sget (ops (eh w)) "update_load_balancer_special_attributes") = true ->
      dict_find (state (eh w)) (PStr "load_balancer_arn") = Some arn ->
      dict_find (state (eh w)) (PStr "update_special_attributes") = Some update ->
      key_value_list update = Ok formatted ->
      client E (calls w) "modify_load_balancer_attributes"
             (kw [("LoadBalancerArn", arn); ("Attributes", formatted)])
        = not_found "LoadBalancerNotFoundException" ->
      logs_and_goes_on (LoadBalancer.update_load_balancer_special_attributes E) w
        (mk_log "Load Balancer Not Found" (PDict (kw [("arn", arn)])) false))
  /\
  (forall defaults arn current formatted,
      py_truthy (sget (ops (eh w)) "reset_load_balancer_special_attributes") = true ->
      dict_find (state (eh w)) (PStr "load_balancer_arn") = Some arn ->
      dict_find (state (eh w)) (PStr "current_special_attributes") = Some (PDict current) ->
      key_value_list (PDict (LoadBalancer.reset_special_attributes defaults current))
        = Ok formatted ->
      client E (calls w) "modify_load_balancer_attributes"
             (kw [("LoadBalancerArn", arn); ("Attributes", formatted)])
        = not_found "LoadBalancerNotFoundException" ->
      logs_and_goes_on (LoadBalancer.reset_load_balancer_special_attributes E defaults) w
        (mk_log "Load Balancer Not Found" (PDict (kw [("arn", arn)])) false))
  /\
  (* the update operations that fail *)
  (forall attributes region prev_state arn,
      py_truthy (sget (ops (eh w)) "update_listener") = true ->
      dict_find (state (eh w)) (PStr "listener_arn") = Some arn ->
      client E (calls w) "modify_listener"
             (sset (without_keys ["Tags"; "LoadBalancerArn"] attributes) "ListenerArn" arn)
        = not_found "ListenerNotFoundException" ->
      logs_and_fails (Listener.update_listener E attributes region prev_state) w
        (error_entry "Listener Does Not Exist") 20 msg)
  /\
  (forall attributes region prev_state arn,
      py_truthy (sget (ops (eh w)) "update_rule") = true ->
      dict_find (state (eh w)) (PStr "rule_arn") = Some arn ->
      client E (calls w) "modify_rule"
             (sset (without_keys ["Tags"; "ListenerArn"; "Priority"] attributes) "RuleArn" arn)
        = not_found "RuleNotFoundException" ->
      logs_and_fails (Rule.update_rule E attributes region prev_state) w
        (error_entry "Listener Rule Not Found") 20 msg)
  /\
  (forall arn tag_list,
      py_truthy (sget (ops (eh w)) "set_tags") = true ->
      dict_find (state (eh w)) (PStr "listener_arn") = Some arn ->
      key_value_list (sget (ops (eh w)) "set_tags") = Ok tag_list ->
      client E (calls w) "add_tags" (kw [("ResourceArns", PList [arn]); ("Tags", tag_list)])
        = not_found "ListenerNotFoundException" ->
      logs_and_fails (Listener.set_tags E) w (error_entry "Listener Not Found") 90 msg)
  /\
  (forall arn tag_list,
      py_truthy (sget (ops (eh w)) "set_tags") = true ->
      dict_find (state (eh w)) (PStr "rule_arn") = Some arn ->
      key_value_list (sget (ops (eh w)) "set_tags") = Ok tag_list ->
      client E (calls w) "add_tags" (kw [("ResourceArns", PList [arn]); ("Tags", tag_list)])
        = not_found "RuleNotFoundException" ->
      logs_and_fails (Rule.set_tags E) w (error_entry "Listener Rule Not Found") 90 msg)
  /\
  (forall arn tag_list,
      py_truthy (sget (ops (eh w)) "set_tags") = true ->
      dict_find (state (eh w)) (PStr "load_balancer_arn") = Some arn ->
      key_value_list (sget (ops (eh w)) "set_tags") = Ok tag_list ->
      client E (calls w) "add_tags" (kw [("ResourceArns", PList [arn]); ("Tags", tag_list)])
        = not_found "LoadBalancerNotFoundException" ->
      logs_and_fails (LoadBalancer.set_tags E) w (error_entry "Load Balancer Not Found") 90 msg)
  /\
  (forall ip_address_type arn region,
      py_truthy (sget (ops (eh w)) "set_ip_address_type") = true ->
      dict_find (state (eh w)) (PStr "load_balancer_arn") = Some arn ->
      dict_find (state (eh w)) (PStr "region") = Some region ->
      client E (calls w) "set_ip_address_type"
             (kw [("LoadBalancerArn", arn); ("IpAddressType", ip_address_type)])
        = not_found "LoadBalancerNotFoundException" ->
      logs_and_fails (LoadBalancer.set_ip_address_type E ip_address_type) w
        (error_entry "Load Balancer Not Found") 70 msg)
  /\
  (forall security_groups arn region,
      py_truthy (sget (ops (eh w)) "set_security_groups") = true ->
      dict_find (state (eh w)) (PStr "load_balancer_arn") = Some arn ->
      dict_find (state (eh w)) (PStr "region") = Some region ->
      client E (calls w) "set_security_groups"
             (kw [("LoadBalancerArn", arn); ("SecurityGroups", security_groups)])
        = not_found "LoadBalancerNotFoundException" ->
      logs_and_fails (LoadBalancer.set_security_groups E security_groups) w
        (error_entry "Load Balancer Not Found") 70 msg)
  /\
  (forall subnets ip_address_type load_balancer_type arn,
      py_truthy (sget (ops (eh w)) "set_subnets") = true ->
      dict_find (state (eh w)) (PStr "load_balancer_arn") = Some arn ->
      client E (calls w) "set_subnets"
             (let payload := kw [("LoadBalancerArn", arn); ("Subnets", subnets)] in
              if py_eqb load_balancer_type (PStr "network")
              then sset payload "IpAddressType" ip_address_type
              else payload)
        = not_found "LoadBalancerNotFoundException" ->
      logs_and_fails
        (LoadBalancer.set_subnets E subnets ip_address_type load_balancer_type) w
        (error_entry "Load Balancer Not Found") 70 msg).
Proof.
  intros Hret not_found error_entry. subst not_found error_entry.
  unfold logs_and_goes_on, logs_and_fails.
  repeat match goal with |- _ /\ _ => split end.
  - intros arn Hop Hst Hcl.
    unfold Listener.delete_listener. rewrite ext_run by assumption.
    unfold Listener.delete_listener_body. not_found_run Hst Hcl Hret.
  - intros arn Hop Hst Hcl.
    unfold Rule.delete_rule. rewrite ext_run by assumption.
    unfold Rule.delete_rule_body. not_found_run Hst Hcl Hret.
  - intros arn Hop Hst Hcl.
    unfold LoadBalancer.delete_load_balancer. rewrite ext_run by assumption.
    unfold LoadBalancer.delete_load_balancer_body. not_found_run Hst Hcl Hret.
  - intros arn Hop Hst Hcl.
    unfold Listener.remove_tags. rewrite ext_run by assumption.
    unfold Listener.remove_tags_body. not_found_run Hst Hcl Hret.
  - intros arn Hop Hst Hcl.
    unfold LoadBalancer.remove_tags. rewrite ext_run by assumption.
    unfold LoadBalancer.remove_tags_body. not_found_run Hst Hcl Hret.
  - intros arn update formatted Hop Hst Hupd Hfmt Hcl.
    unfold LoadBalancer.update_load_balancer_special_attributes.
    rewrite ext_run by assumption.
    unfold LoadBalancer.update_load_balancer_special_attributes_body,
      LoadBalancer.modify_special_attributes.
    unfold mbind, eh_state_item, py_item, lift. rewrite Hst, Hupd, Hfmt.
    not_found_run Hst Hcl Hret.
  - intros defaults arn current formatted Hop Hst Hcur Hfmt Hcl.
    unfold LoadBalancer.reset_load_balancer_special_attributes.
    rewrite ext_run by assumption.
    unfold LoadBalancer.reset_load_balancer_special_attributes_body,
      LoadBalancer.modify_special_attributes.
    unfold LoadBalancer.reset_special_attributes in Hfmt.
    unfold mbind, eh_state_item, py_item, lift. rewrite Hst, Hcur.
    cbn [py_iter]. rewrite Hfmt.
    not_found_run Hst Hcl Hret.
  - intros attributes region prev_state arn Hop Hst Hcl.
    unfold Listener.update_listener. rewrite ext_run by assumption.
    unfold Listener.update_listener_body. not_found_run Hst Hcl Hret.
  - intros attributes region prev_state arn Hop Hst Hcl.
    unfold Rule.update_rule. rewrite ext_run by assumption.
    unfold Rule.update_rule_body. not_found_run Hst Hcl Hret.
  - intros arn tag_list Hop Hst Hfmt Hcl.
    unfold Listener.set_tags. rewrite ext_run by assumption.
    unfold Listener.set_tags_body.
    unfold mbind, eh_ops_get, eh_state_item, py_item, lift. rewrite Hst, Hfmt.
    not_found_run Hst Hcl Hret.
  - intros arn tag_list Hop Hst Hfmt Hcl.
    unfold Rule.set_tags. rewrite ext_run by assumption.
    unfold Rule.set_tags_body.
    unfold mbind, eh_ops_get, eh_state_item, py_item, lift. rewrite Hst, Hfmt.
    not_found_run Hst Hcl Hret.
  - intros arn tag_list Hop Hst Hfmt Hcl.
    unfold LoadBalancer.set_tags. rewrite ext_run by assumption.
    unfold LoadBalancer.set_tags_body.
    unfold mbind, eh_ops_get, eh_state_item, py_item, lift. rewrite Hst, Hfmt.
    not_found_run Hst Hcl Hret.
  - intros ip_address_type arn region Hop Hst Hreg Hcl.
    unfold LoadBalancer.set_ip_address_type. rewrite ext_run by assumption.
    unfold LoadBalancer.set_ip_address_type_body.
    unfold mbind, eh_state_item, py_item. rewrite Hst, Hreg.
    not_found_run Hst Hcl Hret.
  - intros security_groups arn region Hop Hst Hreg Hcl.
    unfold LoadBalancer.set_security_groups. rewrite ext_run by assumption.
    unfold LoadBalancer.set_security_groups_body.
    unfold mbind, eh_state_item, py_item. rewrite Hst, Hreg.
    not_found_run Hst Hcl Hret.
  - intros subnets ip_address_type load_balancer_type arn Hop Hst Hcl.
    unfold LoadBalancer.set_subnets. rewrite ext_run by assumption.
    unfold LoadBalancer.set_subnets_body.
    cbv zeta in Hcl. not_found_run Hst Hcl Hret.
Qed.

Lemma not_found_on_delete_and_update_witness :
  let gone cls := Raise (ClientError cls "not found") in
  let listener_gone :=
    Examples.env [("delete_listener", gone "ListenerNotFoundException");
                  ("modify_listener", gone "ListenerNotFoundException");
                  ("remove_tags", gone "ListenerNotFoundException");
                  ("add_tags", gone "ListenerNotFoundException")] in
  let rule_gone :=
    Examples.env [("delete_rule", gone "RuleNotFoundException");
                  ("modify_rule", gone "RuleNotFoundException");
                  ("add_tags", gone "RuleNotFoundException")] in
  let load_balancer_gone :=
    Examples.env [("delete_load_balancer", gone "LoadBalancerNotFoundException");
                  ("remove_tags", gone "LoadBalancerNotFoundException");
                  ("add_tags", gone "LoadBalancerNotFoundException");
                  ("modify_load_balancer_attributes", gone "LoadBalancerNotFoundException");
                  ("set_ip_address_type", gone "LoadBalancerNotFoundException");
                  ("set_security_groups", gone "LoadBalancerNotFoundException");
                  ("set_subnets", gone "LoadBalancerNotFoundException")] in
  let w := Examples.world_with
             [(PStr "delete_listener", PBool true);
              (PStr "delete_rule", PBool true);
              (PStr "delete_load_balancer", PBool true);
              (PStr "remove_tags", PList [PStr "stage"]);
              (PStr "set_tags", PDict [(PStr "env", PStr "prod")]);
              (PStr "update_load_balancer_special_attributes", PBool true);
              (PStr "reset_load_balancer_special_attributes", PBool true);
              (PStr "update_listener", PBool true);
              (PStr "update_rule", PBool true);
              (PStr "set_ip_address_type", PBool true);
              (PStr "set_security_groups", PBool true);
              (PStr "set_subnets", PBool true)]
             [(PStr "listener_arn", PStr "arn:listener/1");
              (PStr "rule_arn", PStr "arn:rule/1");
              (PStr "load_balancer_arn", PStr "arn:loadbalancer/1");
              (PStr "region", PStr "us-east-1");
              (PStr "update_special_attributes",
               PDict [(PStr "idle_timeout.timeout_seconds", PStr "30")]);
              (PStr "current_special_attributes",
               PDict [(PStr "idle_timeout.timeout_seconds", PStr "30")])] in
  let attributes := kw [("Protocol", PStr "HTTPS"); ("Port", PInt 443)] in
  let defaults := [(PStr "idle_timeout.timeout_seconds", PStr "60")] in
  let region := PStr "us-east-1" in
  let error_entry title := mk_log title (PDict (kw [("error", PStr "not found")])) true in
  let arn_entry title arn := mk_log title (PDict (kw [("arn", PStr arn)])) false in
  logs_and_goes_on (Listener.delete_listener listener_gone) w
    (mk_log "Old Listener Doesn't Exist"
            (PDict (kw [("listener_arn", PStr "arn:listener/1")])) false)
  /\ logs_and_goes_on (Rule.delete_rule rule_gone) w (error_entry "Listener Rule Not Found")
  /\ logs_and_goes_on (LoadBalancer.delete_load_balancer load_balancer_gone) w
       (mk_log "Old Load Balancer Doesn't Exist"
               (PDict (kw [("load_balancer_arn", PStr "arn:loadbalancer/1")])) false)
  /\ logs_and_goes_on (Listener.remove_tags listener_gone) w
       (arn_entry "Listener Not Found" "arn:listener/1")
  /\ logs_and_goes_on (LoadBalancer.remove_tags load_balancer_gone) w
       (arn_entry "Load Balancer Not Found" "arn:loadbalancer/1")
  /\ logs_and_goes_on
       (LoadBalancer.update_load_balancer_special_attributes load_balancer_gone) w
       (arn_entry "Load Balancer Not Found" "arn:loadbalancer/1")
  /\ logs_and_goes_on
       (LoadBalancer.reset_load_balancer_special_attributes load_balancer_gone defaults) w
       (arn_entry "Load Balancer Not Found" "arn:loadbalancer/1")
  /\ logs_and_fails (Listener.update_listener listener_gone attributes region (PDict [])) w
       (error_entry "Listener Does Not Exist") 20 "not found"
  /\ logs_and_fails (Rule.update_rule rule_gone attributes region (PDict [])) w
       (error_entry "Listener Rule Not Found") 20 "not found"
  /\ logs_and_fails (Listener.set_tags listener_gone) w
       (error_entry "Listener Not Found") 90 "not found"
  /\ logs_and_fails (Rule.set_tags rule_gone) w
       (error_entry "Listener Rule Not Found") 90 "not found"
  /\ logs_and_fails (LoadBalancer.set_tags load_balancer_gone) w
       (error_entry "Load Balancer Not Found") 90 "not found"
  /\ logs_and_fails (LoadBalancer.set_ip_address_type load_balancer_gone (PStr "dualstack")) w
       (error_entry "Load Balancer Not Found") 70 "not found"
  /\ logs_and_fails
       (LoadBalancer.set_security_groups load_balancer_gone (PList [PStr "sg-1"])) w
       (error_entry "Load Balancer Not Found") 70 "not found"
  /\ logs_and_fails
       (LoadBalancer.set_subnets load_balancer_gone (PList [PStr "subnet-1"])
                                 (PStr "ipv4") (PStr "application")) w
       (error_entry "Load Balancer Not Found") 70 "not found".
Proof.
  intros gone listener_gone rule_gone load_balancer_gone w attributes defaults region
         error_entry arn_entry.
  pose proof (not_found_on_delete_and_update listener_gone w "not found" eq_refl) as L.
  pose proof (not_found_on_delete_and_update rule_gone w "not found" eq_refl) as R.
  pose proof (not_found_on_delete_and_update load_balancer_gone w "not found" eq_refl) as B.
  cbv zeta in L, R, B.
  destruct L as (L1 & _ & _ & L4 & _ & _ & _ & L8 & _ & L10 & _).
  destruct R as (_ & R2 & _ & _ & _ & _ & _ & _ & R9 & _ & R11 & _).
  destruct B as (_ & _ & B3 & _ & B5 & B6 & B7 & _ & _ & _ & _ & B12 & B13 & B14 & B15).
  repeat match goal with |- _ /\ _ => split end.
  - apply (L1 (PStr "arn:listener/1")); reflexivity.
  - apply (R2 (PStr "arn:rule/1")); reflexivity.
  - apply (B3 (PStr "arn:loadbalancer/1")); reflexivity.
  - apply (L4 (PStr "arn:listener/1")); reflexivity.
  - apply (B5 (PStr "arn:loadbalancer/1")); reflexivity.
  - eapply (B6 (PStr "arn:loadbalancer/1")); reflexivity.
  - eapply (B7 defaults (PStr "arn:loadbalancer/1")); reflexivity.
  - apply (L8 attributes region (PDict []) (PStr "arn:listener/1")); reflexivity.
  - apply (R9 attributes region (PDict []) (PStr "arn:rule/1")); reflexivity.
  - eapply (L10 (PStr "arn:listener/1")); reflexivity.
  - eapply (R11 (PStr "arn:rule/1")); reflexivity.
  - eapply (B12 (PStr "arn:loadbalancer/1")); reflexivity.
  - eapply (B13 (PStr "dualstack") (PStr "arn:loadbalancer/1")); reflexivity.
  - eapply (B14 (PList [PStr "sg-1"]) (PStr "arn:loadbalancer/1")); reflexivity.
  - apply (B15 (PList [PStr "subnet-1"]) (PStr "ipv4") (PStr "application")
               (PStr "arn:loadbalancer/1")); reflexivity.
Defined.
(* ------------------------------------------------------------------ *)
(** *** C6: the convergence poll *)

(** C6.  [check_load_balancer_create_complete], run on a queue that
    holds it, for every answer of the provider to the lookup by name.

    - State "provisioning": the poll logs it and calls
      [eh.retry_error(current_epoch_time_usec_num(), progress=30,
      callback_sec=8)].  The id is the current time, the "unique id"
      under which a retry does not "fail out after 6 tries": with fewer
      than six tries recorded under it, the return declared is a retry
      with progress 30 and a callback in 8 seconds, and no permanent
      error.
    - State "active" or "active_impaired": the poll ends with no return
      declared.
    - State "failed": the poll declares a permanent error with progress
      20 whose text is "Load Balancer Creation Failed " followed by the
      reason the provider states (by nothing when it states none).
    - The load balancer is not found, by the provider's exception or by
      an answer that holds no load balancer: the poll ends with no
      return declared. *)
Theorem convergence_poll (E : Env) (w : world) (name : pyval) :
  ret (eh w) = None ->
  py_truthy (sget (ops (eh w)) "check_load_balancer_create_complete") = true ->
  dict_find (state (eh w)) (PStr "name") = Some name ->
  let now := PInt (current_epoch_time_usec_num E) in
  (forall response code reason,
      client E (calls w) "describe_load_balancers" (kw [("Names", PList [name])])
        = Ok response ->
      reports response code reason ->
      exists w',
        LoadBalancer.check_load_balancer_create_complete E w = (Ok tt, w')
        /\ (code = PStr "provisioning" ->
            eh w' = retry_error now 30 8
                      (add_log "Provisioning Load Balancer" response false (eh w))
            /\ (retry_count (eh w) now < retry_limit ->
                ret (eh w') = Some (mk_declared 200 30 now true 8)
                /\ is_retry (eh w') = true
                /\ is_perm_error (eh w') = false))
        /\ (code = PStr "active" \/ code = PStr "active_impaired" -> ret (eh w') = None)
        /\ (code = PStr "failed" ->
            is_perm_error (eh w') = true
            /\ (forall text,
                   reason = PStr text -> text <> EmptyString ->
                   ret (eh w') =
                     Some (mk_declared 200 20
                             (PStr ("Load Balancer Creation Failed " ++ text)) false 0))
            /\ (reason = PNone \/ reason = PStr EmptyString ->
                ret (eh w') =
                  Some (mk_declared 200 20 (PStr "Load Balancer Creation Failed ") false 0))))
  /\
  (forall msg,
      client E (calls w) "describe_load_balancers" (kw [("Names", PList [name])])
        = Raise (ClientError "LoadBalancerNotFoundException" msg) ->
      exists w',
        LoadBalancer.check_load_balancer_create_complete E w = (Ok tt, w')
        /\ ret (eh w') = None)
  /\
  (forall response,
      client E (calls w) "describe_load_balancers" (kw [("Names", PList [name])])
        = Ok response ->
      holds_none response "LoadBalancers" ->
      exists w',
        LoadBalancer.check_load_balancer_create_complete E w = (Ok tt, w')
        /\ ret (eh w') = None).
Proof.
  intros Hret Hop Hst now. subst now. split; [|split].
  - intros response code reason Hcl (resp & lb & rest & st & -> & Hlbs & Hstate & Hcode & Hreason).
    unfold LoadBalancer.check_load_balancer_create_complete. rewrite ext_run by assumption.
    unfold LoadBalancer.check_load_balancer_create_complete_body.
    unfold mbind at 1. unfold eh_state_item, py_item. rewrite Hst.
    unfold try_except, mbind, lift, boto. rewrite Hcl.
    rewrite (nonempty_field_found _ _ _ _ Hlbs).
    rewrite (first_of_field _ _ _ _ Hlbs).
    rewrite Hstate. cbn [rbind]. rewrite Hcode, Hreason.
    destruct (existsb (py_eqb code) [PStr "active"; PStr "active_impaired"]) eqn:Hactive;
      [| destruct (py_eqb code (PStr "failed")) eqn:Hfailed].
    + eh_simpl. rewrite Hret. eexists. split; [reflexivity|]. eh_simpl.
      split; [| split].
      * intros ->. discriminate Hactive.
      * intros _. eh_simpl. solve [reflexivity | assumption].
      * intros ->. discriminate Hactive.
    + eh_simpl. eexists. split; [reflexivity|]. eh_simpl.
      split; [| split].
      * intros ->. discriminate Hfailed.
      * intros [-> | ->]; discriminate Hactive.
      * intros _. eh_simpl. unfold LoadBalancer.with_reason.
        split; [reflexivity | split].
        -- intros text -> Htext. cbn [py_truthy py_str].
           apply String.eqb_neq in Htext. rewrite Htext. reflexivity.
        -- intros [-> | ->]; reflexivity.
    + assert (Hreturned :
                forall h, has_returned
                            (retry_error (PInt (current_epoch_time_usec_num E)) 30 8 h) = true).
      { intros h. unfold retry_error. destruct (retry_limit <? _); reflexivity. }
      unfold eh_add_log, eh_retry_error, modify_eh. cbn [eh calls fst snd].
      rewrite Hreturned. eexists. split; [reflexivity|].
      split; [| split].
      * intros _. cbn [eh]. split; [reflexivity |].
        intros Hcount. unfold retry_error.
        replace (retry_count _ _) with
          (retry_count (eh w) (PInt (current_epoch_time_usec_num E))) by reflexivity.
        replace (retry_limit <? _) with false
          by (symmetry; apply Z.ltb_ge; lia).
        repeat split; reflexivity.
      * intros [-> | ->]; discriminate Hactive.
      * intros ->. discriminate Hfailed.
  - intros msg Hcl.
    unfold LoadBalancer.check_load_balancer_create_complete. rewrite ext_run by assumption.
    unfold LoadBalancer.check_load_balancer_create_complete_body.
    unfold mbind at 1. unfold eh_state_item, py_item. rewrite Hst.
    unfold try_except, mbind, lift, boto. rewrite Hcl. cbn.
    eh_simpl. rewrite Hret. eexists. split; [reflexivity|]. eh_simpl. solve [reflexivity | assumption].
  - intros response Hcl Hnone. apply nonempty_field_none in Hnone.
    unfold LoadBalancer.check_load_balancer_create_complete. rewrite ext_run by assumption.
    unfold LoadBalancer.check_load_balancer_create_complete_body.
    unfold mbind at 1. unfold eh_state_item, py_item. rewrite Hst.
    unfold try_except, mbind, lift, boto. rewrite Hcl, Hnone.
    eh_simpl. rewrite Hret. eexists. split; [reflexivity|]. eh_simpl. solve [reflexivity | assumption].
Qed.

Lemma convergence_poll_witness :
  let answer (code : string) :=
    PDict (kw [("LoadBalancers",
                PList [PDict (kw [("LoadBalancerArn", PStr "arn:loadbalancer/1");
                                  ("State", PDict (kw [("Code", PStr code);
                                                       ("Reason", PStr "no capacity")]))])])]) in
  let w := Examples.world_with [(PStr "check_load_balancer_create_complete", PBool true)]
                               [(PStr "name", PStr "web")] in
  let E1 := Examples.env [("describe_load_balancers", Ok (answer "provisioning"))] in
  let E2 := Examples.env [("describe_load_balancers", Ok (answer "failed"))] in
  let E3 := Examples.env [("describe_load_balancers",
                           Raise (ClientError "LoadBalancerNotFoundException" "not found"))] in
  let E4 := Examples.env [("describe_load_balancers",
                           Ok (PDict (kw [("LoadBalancers", PList [])])))] in
  let E5 := Examples.env [("describe_load_balancers", Ok (answer "active"))] in
  (exists w',
      LoadBalancer.check_load_balancer_create_complete E1 w = (Ok tt, w')
      /\ ret (eh w') = Some (mk_declared 200 30 (PInt 1700000000000000) true 8))
  /\ (exists w',
         LoadBalancer.check_load_balancer_create_complete E2 w = (Ok tt, w')
         /\ ret (eh w') =
              Some (mk_declared 200 20 (PStr "Load Balancer Creation Failed no capacity")
                                false 0))
  /\ (exists w',
         LoadBalancer.check_load_balancer_create_complete E3 w = (Ok tt, w')
         /\ ret (eh w') = None)
  /\ (exists w',
         LoadBalancer.check_load_balancer_create_complete E4 w = (Ok tt, w')
         /\ ret (eh w') = None)
  /\ (exists w',
         LoadBalancer.check_load_balancer_create_complete E5 w = (Ok tt, w')
         /\ ret (eh w') = None).
Proof.
  intros answer w E1 E2 E3 E4 E5.
  assert (Hreports : forall code,
             reports (answer code) (PStr code) (PStr "no capacity")).
  { intros code. eexists _, _, _, _. repeat split; reflexivity. }
  repeat match goal with |- _ /\ _ => split end.
  - destruct (convergence_poll E1 w (PStr "web") eq_refl eq_refl eq_refl) as (H & _ & _).
    destruct (H _ _ _ eq_refl (Hreports "provisioning")) as (w' & Hrun & Hprov & _).
    exists w'. split; [exact Hrun |].
    destruct (Hprov eq_refl) as [_ Hretry]. apply Hretry. reflexivity.
  - destruct (convergence_poll E2 w (PStr "web") eq_refl eq_refl eq_refl) as (H & _ & _).
    destruct (H _ _ _ eq_refl (Hreports "failed")) as (w' & Hrun & _ & _ & Hfailed).
    exists w'. split; [exact Hrun |].
    destruct (Hfailed eq_refl) as (_ & Htext & _).
    apply (Htext "no capacity"); [reflexivity | discriminate].
  - destruct (convergence_poll E3 w (PStr "web") eq_refl eq_refl eq_refl) as (_ & H & _).
    destruct (H "not found" eq_refl) as (w' & Hrun & Hnone).
    exists w'. split; assumption.
  - destruct (convergence_poll E4 w (PStr "web") eq_refl eq_refl eq_refl) as (_ & _ & H).
    destruct (H _ eq_refl) as (w' & Hrun & Hnone).
    + eexists. split; [reflexivity |]. right. reflexivity.
    + exists w'. split; assumption.
  - destruct (convergence_poll E5 w (PStr "web") eq_refl eq_refl eq_refl) as (H & _ & _).
    destruct (H _ _ _ eq_refl (Hreports "active")) as (w' & Hrun & _ & Hactive & _).
    exists w'. split; [exact Hrun |]. apply Hactive. left. reflexivity.
Defined.

(* ------------------------------------------------------------------ *)
(** *** C7: the special attributes *)





Lemma dict_lit_str_items (items : list (string * pyval)) :
  distinct (map fst items) = true -> dict_lit (str_items items) = str_items items.
Proof.
  intros H. unfold dict_lit. rewrite dict_update_distinct; auto.
Qed.

Lemma remove_none_binds (keys : list string) (v : string -> pyval) :
  binds (remove_none_attributes (str_items (map (fun k => (k, v k)) keys))) keys v.
Proof.
  intros k. induction keys as [| k0 keys IH]; [reflexivity |].
  cbn [map str_items remove_none_attributes filter fst snd existsb].
  fold (str_items (map (fun k => (k, v k)) keys)).
  fold (remove_none_attributes (str_items (map (fun k => (k, v k)) keys))).
  destruct (String.eqb k k0) eqn:Hk; cbn [orb].
  - apply String.eqb_eq in Hk. subst k0.
    destruct (is_none (v k)) eqn:Hn; cbn [negb].
    + rewrite IH. now destruct (existsb _ _).
    + cbn [dict_find]. now rewrite py_eqb_str_refl.
  - destruct (is_none (v k0)); cbn [negb]; [exact IH |].
    cbn [dict_find]. rewrite py_eqb_str, String.eqb_sym, Hk. exact IH.
Qed.






(* ------------------------------------------------------------------ *)
(** *** C9: the unbound [e] *)

(** C9.  When [update_rule_priority] receives a
    [RuleNotFoundException], or [delete_load_balancer] an
    [OperationNotPermittedException], the [except] branch reads a name
    [e] that no clause has bound: the operation ends with the
    exception [UnboundLocalError] (a [NameError]) instead of the
    permanent error it was about to report, no return is declared, and
    whatever follows the operation in the handler, the top level
    reports an internal failure with progress 0. *)
Theorem unbound_e_escapes (E : Env) (w : world) (msg : string) (k : M unit) :
  (forall priority rule_arn pv,
      ret (eh w) = None ->
      py_truthy (sget (ops (eh w)) "update_rule_priority") = true ->
      dict_find (state (eh w)) (PStr "rule_arn") = Some rule_arn ->
      int_if E priority = Ok pv ->
      client E (calls w) "set_rule_priorities"
             (kw [("RulePriorities",
                   PList [PDict (kw [("RuleArn", rule_arn); ("Priority", pv)])])])
        = Raise (ClientError "RuleNotFoundException" msg) ->
      exists w',
        Rule.update_rule_priority E priority w = (Raise (UnboundLocalError "e"), w')
        /\ ret (eh w') = None
        /\ internal_failure E (UnboundLocalError "e")
             (fst (run_handler E (Rule.update_rule_priority E priority ;;; k) w)))
  /\
  (forall load_balancer_arn,
      ret (eh w) = None ->
      py_truthy (sget (ops (eh w)) "delete_load_balancer") = true ->
      dict_find (state (eh w)) (PStr "load_balancer_arn") = Some load_balancer_arn ->
      client E (calls w) "delete_load_balancer"
             (kw [("LoadBalancerArn", load_balancer_arn)])
        = Raise (ClientError "OperationNotPermittedException" msg) ->
      exists w',
        LoadBalancer.delete_load_balancer E w = (Raise (UnboundLocalError "e"), w')
        /\ ret (eh w') = None
        /\ internal_failure E (UnboundLocalError "e")
             (fst (run_handler E (LoadBalancer.delete_load_balancer E ;;; k) w))).
Proof.
  split.
  - intros priority rule_arn pv Hret Hop Hst Hint Hcl.
    assert (Hrun : exists w',
               Rule.update_rule_priority E priority w = (Raise (UnboundLocalError "e"), w')
               /\ ret (eh w') = None).
    { unfold Rule.update_rule_priority. rewrite ext_run by assumption.
      unfold Rule.update_rule_priority_body.
      unfold mbind at 1. unfold eh_state_item, py_item. rewrite Hst.
      unfold try_except, mbind, lift, boto. rewrite Hint, Hcl. cbn.
      eexists. split; [reflexivity | exact Hret]. }
    destruct Hrun as (w' & Hrun & Hnone).
    exists w'. repeat split; try assumption;
      apply (run_handler_raise E _ k w w' _ Hrun).
  - intros arn Hret Hop Hst Hcl.
    assert (Hrun : exists w',
               LoadBalancer.delete_load_balancer E w = (Raise (UnboundLocalError "e"), w')
               /\ ret (eh w') = None).
    { unfold LoadBalancer.delete_load_balancer. rewrite ext_run by assumption.
      unfold LoadBalancer.delete_load_balancer_body.
      unfold mbind at 1. unfold eh_state_item, py_item. rewrite Hst.
      unfold try_except, mbind, boto. rewrite Hcl. cbn.
      eexists. split; [reflexivity | exact Hret]. }
    destruct Hrun as (w' & Hrun & Hnone).
    exists w'. repeat split; try assumption;
      apply (run_handler_raise E _ k w w' _ Hrun).
Qed.

Lemma unbound_e_escapes_witness :
  let E := Examples.env
             [("set_rule_priorities",
               Raise (ClientError "RuleNotFoundException" "One or more rules not found"));
              ("delete_load_balancer",
               Raise (ClientError "OperationNotPermittedException"
                                  "Load balancer cannot be deleted"))] in
  let w := Examples.world_with
             [(PStr "update_rule_priority", PBool true);
              (PStr "delete_load_balancer", PBool true)]
             [(PStr "rule_arn", PStr "arn:rule/1");
              (PStr "load_balancer_arn", PStr "arn:loadbalancer/1")] in
  (exists w',
      Rule.update_rule_priority E (PInt 5) w = (Raise (UnboundLocalError "e"), w')
      /\ ret (eh w') = None
      /\ internal_failure E (UnboundLocalError "e")
           (fst (run_handler E (Rule.update_rule_priority E (PInt 5) ;;; mret tt) w)))
  /\
  (exists w',
      LoadBalancer.delete_load_balancer E w = (Raise (UnboundLocalError "e"), w')
      /\ ret (eh w') = None
      /\ internal_failure E (UnboundLocalError "e")
           (fst (run_handler E (LoadBalancer.delete_load_balancer E ;;; mret tt) w))).
Proof.
  intros E w.
  destruct (unbound_e_escapes E w "One or more rules not found" (mret tt)) as [H1 _].
  destruct (unbound_e_escapes E w "Load balancer cannot be deleted" (mret tt)) as [_ H2].
  split.
  - apply (H1 (PInt 5) (PStr "arn:rule/1") (PInt 5)); reflexivity.
  - apply (H2 (PStr "arn:loadbalancer/1")); reflexivity.
Defined.


(* ------------------------------------------------------------------ *)
(** *** C10: the lowercase keys of the placement tests *)

Lemma lb_attributes_keys (E : Env) (d : LoadBalancer.declared_lb) (attributes : pydict) (k : string) :
  LoadBalancer.make_attributes E d = Ok attributes ->
  ~ In k ["Name"; "Subnets"; "SecurityGroups"; "Scheme"; "Tags"; "Type"; "IpAddressType"] ->
  dict_find attributes (PStr k) = None.
Proof.
  unfold LoadBalancer.make_attributes. intros H Hk.
  destruct (if py_truthy (LoadBalancer.tags d) then _ else _) as [tags_v |]; [| discriminate].
  cbn [rbind] in H. apply Ok_inj in H. subst attributes.
  apply dict_find_filter_none. rewrite kw_distinct by reflexivity.
  apply dict_find_str_items_not_in. exact Hk.
Qed.

Ltac not_in_keys := cbn; intuition discriminate.


(** C10, amended.  The attributes of the load balancer handler have no
    key "ip_address_type", "subnets" or "security_groups" (nor
    "load_balancer_type"): the three lookups of the placement tests
    yield [None], whatever is declared.  So the tests of
    [get_load_balancer] and [create_load_balancer] enqueue
    [set_ip_address_type] whenever the recorded ip address type is not
    null and [set_subnets] whenever the recorded subnets are not null;
    they enqueue [set_security_groups] whenever the recorded security
    groups are not null and the test is reached, that is, when the
    recorded subnets are not null or the recorded ip address type is
    null. *)
Theorem lowercase_placement_keys (E : Env) (d : LoadBalancer.declared_lb)
        (attributes : pydict) (prev_state : pyval) (w : world) :
  LoadBalancer.make_attributes E d = Ok attributes ->
  (sget attributes "ip_address_type" = PNone
   /\ sget attributes "subnets" = PNone
   /\ sget attributes "security_groups" = PNone)
  /\
  forall old_ip old_subnets old_groups,
    LoadBalancer.prev_prop prev_state "ip_address_type" = Ok old_ip ->
    LoadBalancer.prev_prop prev_state "subnets" = Ok old_subnets ->
    LoadBalancer.prev_prop prev_state "security_groups" = Ok old_groups ->
    let w' := snd (LoadBalancer.placement_ops attributes prev_state w) in
    (old_ip <> PNone -> sget (ops (eh w')) "set_ip_address_type" = PBool true)
    /\ (old_subnets <> PNone -> sget (ops (eh w')) "set_subnets" = PBool true)
    /\ (old_groups <> PNone -> old_subnets <> PNone \/ old_ip = PNone ->
        sget (ops (eh w')) "set_security_groups" = PBool true).
Proof.
  intros Hattrs.
  assert (Hnone : forall k,
             ~ In k ["Name"; "Subnets"; "SecurityGroups"; "Scheme"; "Tags"; "Type";
                     "IpAddressType"] ->
             sget attributes k = PNone).
  { intros k Hk. unfold sget, dict_get, dict_get_default.
    now rewrite (lb_attributes_keys E d attributes _ Hattrs Hk). }
  assert (Hip : sget attributes "ip_address_type" = PNone) by (apply Hnone; not_in_keys).
  assert (Hsub : sget attributes "subnets" = PNone) by (apply Hnone; not_in_keys).
  assert (Hsg : sget attributes "security_groups" = PNone) by (apply Hnone; not_in_keys).
  assert (Htype : dict_find attributes (PStr "load_balancer_type") = None).
  { apply (lb_attributes_keys E d attributes _ Hattrs). not_in_keys. }
  split; [auto |].
  intros old_ip old_subnets old_groups Hpip Hpsub Hpsg w'. subst w'.
  unfold LoadBalancer.placement_ops, mbind, lift, when.
  rewrite Hpip, Hpsub, Hpsg, Hip, Hsub, Hsg.
  unfold py_item. rewrite Htype.
  destruct (py_neqb PNone old_ip) eqn:Eip; destruct (py_neqb PNone old_subnets) eqn:Esub;
    destruct (py_neqb PNone old_groups) eqn:Esg; eh_simpl; unfold mret; eh_simpl.
  all: split; [| split].
  all: intros; try rewrite py_neqb_none_l in * by assumption; try discriminate.
  all: repeat first [ rewrite sget_sset_same | rewrite sget_sset_other by discriminate ]; try reflexivity.
  all: match goal with
       | H : _ \/ _ |- _ => destruct H as [H | H]
       end.
  all: try (subst; discriminate).
  all: exfalso; match goal with
                | Hn : ?v <> PNone, Hq : py_neqb PNone ?v = false |- _ =>
                    apply Hn; destruct v; try discriminate Hq; reflexivity
                end.
Qed.

Lemma lowercase_placement_keys_witness :
  let E := Scenarios.lb_env in
  let d := LoadBalancer.mk_declared_lb
             (PStr "web") (PList [PStr "subnet-1"; PStr "subnet-2"]) (PList [PStr "sg-1"])
             (PStr "internal") PNone (PStr "application") (PStr "ipv4") in
  let attributes :=
    remove_none_attributes
      (kw [("Name", PStr "web");
           ("Subnets", PList [PStr "subnet-1"; PStr "subnet-2"]);
           ("SecurityGroups", PList [PStr "sg-1"]);
           ("Scheme", PStr "internal");
           ("Tags", PNone);
           ("Type", PStr "application");
           ("IpAddressType", PStr "ipv4")]) in
  let prev_state :=
    PDict (kw [("props",
                 PDict (kw [("ip_address_type", PStr "ipv4");
                            ("subnets", PList [PStr "subnet-1"; PStr "subnet-2"]);
                            ("security_groups", PList [PStr "sg-1"])]))]) in
  let w' := snd (LoadBalancer.placement_ops attributes prev_state Scenarios.fresh) in
  sget attributes "ip_address_type" = PNone
  /\ sget (ops (eh w')) "set_ip_address_type" = PBool true
  /\ sget (ops (eh w')) "set_subnets" = PBool true
  /\ sget (ops (eh w')) "set_security_groups" = PBool true.
Proof.
  intros E d attributes prev_state w'.
  destruct (lowercase_placement_keys E d attributes prev_state Scenarios.fresh eq_refl)
    as [[Hip _] Hops].
  destruct (Hops (PStr "ipv4") (PList [PStr "subnet-1"; PStr "subnet-2"])
                 (PList [PStr "sg-1"]) eq_refl eq_refl eq_refl) as (A & B & C).
  split; [exact Hip |].
  split; [apply A; discriminate |].
  split; [apply B; discriminate |].
  apply C; [discriminate | left; discriminate].
Defined.

(** The statement of C10 fails when the recorded props hold security
    groups and an ip address type but no subnets: the subnets test
    reads [attributes["load_balancer_type"]], the [KeyError] ends the
    pass, and [set_security_groups] is not enqueued. *)
Lemma security_groups_test_not_reached :
  let r := LoadBalancer.lambda_handler Scenarios.lb_env
             (Scenarios.lb_event Scenarios.lb_props_without_subnets) PNone
             Scenarios.fresh in
  LoadBalancer.prev_prop Scenarios.lb_props_without_subnets "security_groups"
    = Ok (PList [PStr "sg-1"])
  /\ sget (ops (eh (snd r))) "set_security_groups" = PNone
  /\ sget (ops (eh (snd r))) "set_ip_address_type" = PBool true
  /\ r_error (fst r) = PStr "'load_balancer_type'"
  /\ r_progress (fst r) = 0.
Proof. vm_compute. repeat split. Qed.

(* ------------------------------------------------------------------ *)
(** *** More on dictionaries with string keys *)





Lemma existsb_keys_filter {A} (p : string -> bool) (f : string * A -> bool)
      (items : list (string * A)) :
  existsb p (map fst (filter f items)) = true -> existsb p (map fst items) = true.
Proof.
  rewrite !existsb_exists. intros (x & Hin & Hp). exists x. split; [| exact Hp].
  apply in_map_iff in Hin as (kv & <- & Hin). apply filter_In in Hin as [Hin _].
  now apply in_map.
Qed.

Lemma distinct_filter_items {A} (f : string * A -> bool) (items : list (string * A)) :
  distinct (map fst items) = true -> distinct (map fst (filter f items)) = true.
Proof.
  induction items as [| [k v] items IH]; [reflexivity |].
  cbn [map fst distinct filter]. intros H. apply andb_true_iff in H as [Hk Hd].
  destruct (f (k, v)); [| auto].
  cbn [map fst distinct]. apply andb_true_iff. split; [| auto].
  apply negb_true_iff. apply negb_true_iff in Hk.
  destruct (existsb _ (map fst (filter f items))) eqn:He; [| reflexivity].
  apply existsb_keys_filter in He. congruence.
Qed.

Lemma filter_str_items (f : pyval * pyval -> bool) (items : list (string * pyval)) :
  filter f (str_items items)
  = str_items (filter (fun kv => f (PStr (fst kv), snd kv)) items).
Proof.
  induction items as [| [k v] items IH]; [reflexivity |].
  cbn [str_items map filter fst snd]. fold (str_items items).
  destruct (f (PStr k, v)); cbn [map fst snd]; now rewrite IH.
Qed.

(** [without_keys] on a dictionary with string keys. *)
Lemma without_keys_str_items (names : list string) (items : list (string * pyval)) :
  distinct (map fst items) = true ->
  without_keys names (str_items items)
  = str_items (filter (fun kv => negb (existsb (String.eqb (fst kv)) names)) items).
Proof.
  intros Hd. unfold without_keys. rewrite filter_str_items. cbn [fst].
  rewrite dict_lit_str_items by (now apply distinct_filter_items).
  reflexivity.
Qed.

Lemma dict_find_filter_keys (g : string -> bool) (items : list (string * pyval))
      (k : string) :
  dict_find (str_items (filter (fun kv => g (fst kv)) items)) (PStr k)
  = if g k then dict_find (str_items items) (PStr k) else None.
Proof.
  induction items as [| [k0 v0] items IH]; [now destruct (g k) |].
  cbn [filter fst]. destruct (g k0) eqn:Hg0.
  - cbn [str_items map fst snd dict_find]. fold (str_items items).
    fold (str_items (filter (fun kv => g (fst kv)) items)).
    rewrite py_eqb_str. destruct (String.eqb k0 k) eqn:Hk; [| exact IH].
    apply String.eqb_eq in Hk. subst k0. now rewrite Hg0.
  - rewrite IH. destruct (g k) eqn:Hg; [| reflexivity].
    cbn [str_items map fst snd dict_find]. fold (str_items items).
    rewrite py_eqb_str. destruct (String.eqb k0 k) eqn:Hk; [| reflexivity].
    apply String.eqb_eq in Hk. subst k0. congruence.
Qed.

Lemma without_keys_find (names : list string) (items : list (string * pyval))
      (k : string) :
  distinct (map fst items) = true ->
  dict_find (without_keys names (str_items items)) (PStr k)
  = if existsb (String.eqb k) names then None
    else dict_find (str_items items) (PStr k).
Proof.
  intros Hd. rewrite without_keys_str_items by exact Hd.
  rewrite (dict_find_filter_keys (fun k => negb (existsb (String.eqb k) names))).
  now destruct (existsb _ names).
Qed.


(* ================================================================== *)
(** ** The conversions of the rule handler *)
(* ================================================================== *)

Lemma rmap_map {A B C} (f : A -> res B) (g : C -> A) (h : C -> B) (cs : list C) :
  (forall c, In c cs -> f (g c) = Ok (h c)) ->
  rmap f (map g cs) = Ok (map h cs).
Proof.
  induction cs as [| c cs IH]; intros H; [reflexivity |].
  cbn [map rmap]. rewrite (H c) by now left. cbn [rbind].
  rewrite IH by (intros c' Hc'; apply H; now right). reflexivity.
Qed.

Lemma rfold_app {A B} (f : B -> A -> res B) (l1 l2 : list A) (acc : B) :
  rfold f (l1 ++ l2) acc = (acc' <~ rfold f l1 acc ;; rfold f l2 acc').
Proof.
  revert acc. induction l1 as [| x l1 IH]; intros acc; [reflexivity |].
  cbn [app rfold]. destruct (f acc x) as [acc' | e]; [apply IH | reflexivity].
Qed.

Lemma rfold_append_map {C} (f : pyval -> res (option pyval)) (g h : C -> pyval)
      (cs : list C) (acc : list pyval) :
  (forall c, In c cs -> f (g c) = Ok (Some (h c))) ->
  rfold (fun acc item => o <~ f item ;; Ok (Rule.append_some acc o)) (map g cs) acc
  = Ok (acc ++ map h cs).
Proof.
  revert acc. induction cs as [| c cs IH]; intros acc H.
  - cbn. now rewrite app_nil_r.
  - cbn [map rfold]. rewrite (H c) by now left. cbn [rbind Rule.append_some].
    rewrite IH by (intros c' Hc'; apply H; now right).
    now rewrite <- app_assoc.
Qed.

Lemma concat_map_singleton {A B} (h : A -> B) (l : list A) :
  concat (map (fun x => [h x]) l) = map h l.
Proof. induction l as [| x l IH]; [reflexivity |]. cbn. now rewrite IH. Qed.

(** The pairs of a query-string condition, from the declared shape to
    the provider's and back. *)
Lemma expand_pairs (E : Env) (pairs : tag_map) :
  Rule.expand_list_dict_to_key_value_list_obj
    E (PList (map (fun kv => PDict [(PStr (fst kv), PStr (snd kv))]) pairs))
  = Ok (tag_list pairs).
Proof.
  unfold Rule.expand_list_dict_to_key_value_list_obj, tag_list. cbn [py_iter rbind].
  rewrite (rmap_map _ _
             (fun kv => [PDict (kw [("Key", PStr (fst kv)); ("Value", PStr (snd kv))])])).
  - cbn [rbind]. now rewrite concat_map_singleton.
  - intros [k v] _. cbn [py_iter dict_keys map fst snd rbind rmap].
    unfold dict_get, dict_get_default. cbn [dict_find]. rewrite py_eqb_str_refl.
    reflexivity.
Qed.

Lemma compress_pairs (E : Env) (pairs : tag_map) :
  Rule.key_value_list_obj_to_compressed_list_dict E (tag_list pairs)
  = Ok (PList (map (fun kv => PDict [(PStr (fst kv), PStr (snd kv))]) pairs)).
Proof.
  unfold Rule.key_value_list_obj_to_compressed_list_dict, tag_list.
  cbn [py_iter rbind].
  rewrite (rmap_map _ _ (fun kv => PDict [(PStr (fst kv), PStr (snd kv))]));
    [reflexivity |].
  intros [k v] _. reflexivity.
Qed.

Lemma format_declared (E : Env) (c : condition) :
  Rule.format_condition E (declared_condition c) = Ok (Some (formatted_condition c)).
Proof.
  destruct c; try reflexivity.
  unfold Rule.format_condition, declared_condition, formatted_condition.
  cbn [py_get py_get_default]. kw_simpl.
  unfold dict_get_default; cbn [dict_find py_eqb String.eqb Ascii.eqb Bool.eqb rbind].
  cbn -[Rule.expand_list_dict_to_key_value_list_obj tag_list kw].
  rewrite expand_pairs. reflexivity.
Qed.

Lemma unformat_formatted (E : Env) (c : condition) :
  Rule.unformat_condition E (formatted_condition c) = Ok (Some (declared_condition c)).
Proof.
  destruct c; try reflexivity.
  unfold Rule.unformat_condition, formatted_condition, declared_condition,
    Rule.section_get.
  cbn -[Rule.key_value_list_obj_to_compressed_list_dict tag_list].
  rewrite compress_pairs. reflexivity.
Qed.

Lemma str_find_distinct (items : list (string * pyval)) (k : string) (v : pyval) :
  distinct (map fst items) = true -> In (k, v) items ->
  dict_find (str_items items) (PStr k) = Some v.
Proof.
  induction items as [| [k0 v0] items IH]; [intros _ [] |].
  cbn [str_items map fst snd dict_find In distinct]. fold (str_items items).
  rewrite py_eqb_str.
  intros Hd Hin. apply andb_true_iff in Hd as [Hk0 Hd]. apply negb_true_iff in Hk0.
  destruct Hin as [[= -> ->] | Hin].
  - now rewrite String.eqb_refl.
  - destruct (String.eqb k0 k) eqn:Hk; [| now apply IH].
    apply String.eqb_eq in Hk. subst k0.
    assert (existsb (String.eqb k) (map fst items) = true); [| congruence].
    apply existsb_exists. exists k. split; [| apply String.eqb_refl].
    now apply (in_map fst) in Hin.
Qed.

(** The dictionaries of a query-string condition, pair by pair. *)
Lemma expand_rows (E : Env) (rows : list (list (string * pyval))) :
  Forall (fun row => distinct (map fst row) = true) rows ->
  Rule.expand_list_dict_to_key_value_list_obj
    E (PList (map (fun row => PDict (str_items row)) rows))
  = Ok (tag_list (map (fun kv => (fst kv, py_str E (snd kv))) (concat rows))).
Proof.
  intros Hd.
  unfold Rule.expand_list_dict_to_key_value_list_obj, tag_list.
  cbn [py_iter rbind].
  rewrite (rmap_map _ _
             (fun row =>
                map (fun kv => PDict (kw [("Key", PStr (fst kv));
                                          ("Value", PStr (py_str E (snd kv)))]))
                    row)).
  - cbn [rbind]. rewrite <- concat_map, !map_map. reflexivity.
  - intros row Hrow. rewrite Forall_forall in Hd. specialize (Hd row Hrow).
    cbn [py_iter rbind]. unfold dict_keys, str_items. rewrite map_map. cbn [fst].
    apply rmap_map. intros [k v] Hin. cbn [fst snd].
    unfold dict_get, dict_get_default.
    fold (str_items row). rewrite (str_find_distinct row k v Hd Hin).
    reflexivity.
Qed.

Lemma compress_items (E : Env) (items : list pydict) :
  Rule.key_value_list_obj_to_compressed_list_dict E (PList (map PDict items))
  = Ok (PList (map (fun kv => PDict [(PStr (fst kv), PStr (snd kv))])
                   (map (fun item => (py_str E (sget item "Key"),
                                      py_str E (sget item "Value"))) items))).
Proof.
  unfold Rule.key_value_list_obj_to_compressed_list_dict. cbn [py_iter rbind].
  rewrite map_map.
  rewrite (rmap_map _ _ (fun item => PDict [(PStr (py_str E (sget item "Key")),
                                             PStr (py_str E (sget item "Value")))]));
    [reflexivity |].
  intros item _. reflexivity.
Qed.

Ltac read_field H :=
  unfold py_get, py_get_default, dict_get_default; rewrite H;
  cbn [rbind py_eqb String.eqb Ascii.eqb Bool.eqb].

Lemma format_reads (E : Env) (item : pyval) (c : condition) :
  reads_as E item c -> Rule.format_condition E item = Ok (Some (formatted_condition c)).
Proof.
  intros H. destruct H as [d Hf | d Hf | d Hf | d Hf | d rows Hf Hv Hd | d Hf];
    unfold Rule.format_condition; read_field Hf; try reflexivity.
  rewrite Hv. cbn [rbind]. rewrite (expand_rows E rows Hd). reflexivity.
Qed.

Lemma unformat_answers (E : Env) (item : pyval) (c : condition) :
  answers_as E item c -> Rule.unformat_condition E item = Ok (Some (declared_condition c)).
Proof.
  intros H.
  destruct H as [d s Hf Hs | d s Hf Hs | d s Hf Hs | d s Hf Hs | d s items Hf Hs Hv
                 | d s Hf Hs];
    unfold Rule.unformat_condition; read_field Hf;
    unfold Rule.section_get, py_get_default; unfold section in Hs; rewrite Hs;
    cbn [rbind py_get py_get_default]; try reflexivity.
  unfold dict_get_default. rewrite Hv. rewrite compress_items. reflexivity.
Qed.

Lemma reads_declared (E : Env) (c : condition) : reads_as E (declared_condition c) c.
Proof.
  destruct c as [name values | values | values | values | pairs | values];
    unfold declared_condition.
  - match goal with |- reads_as _ (PDict ?d) _ =>
      exact (reads_http_header E d eq_refl) end.
  - match goal with |- reads_as _ (PDict ?d) _ =>
      exact (reads_http_request_method E d eq_refl) end.
  - match goal with |- reads_as _ (PDict ?d) _ =>
      exact (reads_host_header E d eq_refl) end.
  - match goal with |- reads_as _ (PDict ?d) _ =>
      exact (reads_path_pattern E d eq_refl) end.
  - pose proof (reads_query_string E
                  (kw [("field", PStr "query-string");
                       ("values",
                         PList (map (fun kv => PDict [(PStr (fst kv), PStr (snd kv))]) pairs))])
                  (map (fun kv => [(fst kv, PStr (snd kv))]) pairs) eq_refl) as H.
    rewrite map_map in H. specialize (H eq_refl).
    rewrite concat_map_singleton, map_map in H. cbn [fst snd py_str] in H.
    replace (map (fun kv : string * string => (fst kv, snd kv)) pairs) with pairs in H
      by (symmetry; erewrite map_ext; [apply map_id | intros [k v]; reflexivity]).
    apply H. clear. induction pairs; constructor; auto.
  - match goal with |- reads_as _ (PDict ?d) _ =>
      exact (reads_source_ip E d eq_refl) end.
Qed.

Lemma answers_formatted (E : Env) (c : condition) : answers_as E (formatted_condition c) c.
Proof.
  destruct c as [name values | values | values | values | pairs | values];
    unfold formatted_condition.
  - match goal with |- answers_as _ (PDict ?d) _ =>
      match d with kw [_; (_, PDict ?s)] =>
        exact (answers_http_header E d s eq_refl eq_refl) end end.
  - match goal with |- answers_as _ (PDict ?d) _ =>
      match d with kw [_; (_, PDict ?s)] =>
        exact (answers_http_request_method E d s eq_refl eq_refl) end end.
  - match goal with |- answers_as _ (PDict ?d) _ =>
      match d with kw [_; (_, PDict ?s)] =>
        exact (answers_host_header E d s eq_refl eq_refl) end end.
  - match goal with |- answers_as _ (PDict ?d) _ =>
      match d with kw [_; (_, PDict ?s)] =>
        exact (answers_path_pattern E d s eq_refl eq_refl) end end.
  - pose proof (answers_query_string E
                  (kw [("Field", PStr "query-string");
                       ("QueryStringConfig", PDict (kw [("Values", tag_list pairs)]))])
                  (kw [("Values", tag_list pairs)])
                  (map (fun kv => kw [("Key", PStr (fst kv)); ("Value", PStr (snd kv))]) pairs)
                  eq_refl eq_refl) as H.
    unfold tag_list in H. rewrite !map_map in H. specialize (H eq_refl).
    replace (map _ pairs) with pairs in H
      by (symmetry; erewrite map_ext; [apply map_id | intros [k v]; reflexivity]).
    exact H.
  - match goal with |- answers_as _ (PDict ?d) _ =>
      match d with kw [_; (_, PDict ?s)] =>
        exact (answers_source_ip E d s eq_refl eq_refl) end end.
Qed.

Lemma format_all (E : Env) (items : list pyval) (cs : list condition) :
  Forall2 (reads_as E) items cs ->
  Rule.conditions_to_formatted_conditions E (PList items)
  = Ok (PList (map formatted_condition cs)).
Proof.
  intros H. unfold Rule.conditions_to_formatted_conditions. cbn [py_iter rbind].
  enough (Hfold : forall acc,
             rfold (fun acc item => o <~ Rule.format_condition E item ;;
                                    Ok (Rule.append_some acc o)) items acc
             = Ok (acc ++ map formatted_condition cs))
    by (now rewrite Hfold).
  induction H as [| item c items cs Hc _ IH]; intros acc.
  - cbn. now rewrite app_nil_r.
  - cbn [rfold map]. rewrite (format_reads E item c Hc). cbn [rbind Rule.append_some].
    rewrite IH. now rewrite <- app_assoc.
Qed.

Lemma unformat_all (E : Env) (items : list pyval) (cs : list condition) :
  Forall2 (answers_as E) items cs ->
  Rule.formatted_conditions_to_conditions E (PList items)
  = Ok (PList (map declared_condition cs)).
Proof.
  intros H. unfold Rule.formatted_conditions_to_conditions. cbn [py_iter rbind].
  enough (Hfold : forall acc,
             rfold (fun acc item => o <~ Rule.unformat_condition E item ;;
                                    Ok (Rule.append_some acc o)) items acc
             = Ok (acc ++ map declared_condition cs))
    by (now rewrite Hfold).
  induction H as [| item c items cs Hc _ IH]; intros acc.
  - cbn. now rewrite app_nil_r.
  - cbn [rfold map]. rewrite (unformat_answers E item c Hc). cbn [rbind Rule.append_some].
    rewrite IH. now rewrite <- app_assoc.
Qed.

Lemma Forall2_map_l {A B} (R : A -> B -> Prop) (f : B -> A) (l : list B) :
  (forall b, R (f b) b) -> Forall2 R (map f l) l.
Proof. intros H. induction l; constructor; auto. Qed.

(** X1.  The two conversions of the rule handler read a condition of
    one of the six fields through [.get] and write it in the other
    shape, with exactly the keys of that shape.
    [conditions_to_formatted_conditions] turns declared conditions that
    read as [cs] into the provider's shape of [cs];
    [formatted_conditions_to_conditions] turns conditions of the
    provider that read as [cs] into the declared shape of [cs].  So one
    conversion after the other gives back the conditions in that
    written shape, not the ones it was given: a missing key comes back
    bound to [None], a key that is not read (the provider's top-level
    ["Values"], say) does not come back, a query-string dictionary with
    several pairs comes back as one dictionary per pair.  On the
    written shapes themselves the two conversions are inverse to each
    other. *)
Theorem conditions_round_trip (E : Env) (cs : list condition) :
  (forall items,
      Forall2 (reads_as E) items cs ->
      Rule.conditions_to_formatted_conditions E (PList items)
      = Ok (PList (map formatted_condition cs))
      /\ (f <~ Rule.conditions_to_formatted_conditions E (PList items) ;;
          Rule.formatted_conditions_to_conditions E f)
         = Ok (PList (map declared_condition cs)))
  /\ (forall items,
         Forall2 (answers_as E) items cs ->
         Rule.formatted_conditions_to_conditions E (PList items)
         = Ok (PList (map declared_condition cs))
         /\ (d <~ Rule.formatted_conditions_to_conditions E (PList items) ;;
             Rule.conditions_to_formatted_conditions E d)
            = Ok (PList (map formatted_condition cs)))
  /\ Forall2 (reads_as E) (map declared_condition cs) cs
  /\ Forall2 (answers_as E) (map formatted_condition cs) cs
  /\ (f <~ Rule.conditions_to_formatted_conditions E (PList (map declared_condition cs)) ;;
      Rule.formatted_conditions_to_conditions E f)
     = Ok (PList (map declared_condition cs))
  /\ (d <~ Rule.formatted_conditions_to_conditions E (PList (map formatted_condition cs)) ;;
      Rule.conditions_to_formatted_conditions E d)
     = Ok (PList (map formatted_condition cs)).
Proof.
  assert (Hreads : Forall2 (reads_as E) (map declared_condition cs) cs)
    by (apply Forall2_map_l, reads_declared).
  assert (Hanswers : Forall2 (answers_as E) (map formatted_condition cs) cs)
    by (apply Forall2_map_l, answers_formatted).
  pose proof (format_all E _ _ Hreads) as Hfmt.
  pose proof (unformat_all E _ _ Hanswers) as Hunf.
  split; [| split; [| split; [| split; [| split]]]]; try assumption.
  - intros items H. rewrite (format_all E items cs H). split; [reflexivity | exact Hunf].
  - intros items H. rewrite (unformat_all E items cs H). split; [reflexivity | exact Hfmt].
  - rewrite Hfmt. exact Hunf.
  - rewrite Hunf. exact Hfmt.
Qed.

Lemma conditions_round_trip_witness :
  let E := Examples.env [] in
  let declared :=
    [PDict (kw [("field", PStr "http-header"); ("values", PList [PStr "gzip"])]);
     PDict (kw [("field", PStr "host-header"); ("values", PList [PStr "example.com"]);
                ("note", PStr "main site")]);
     PDict (kw [("field", PStr "query-string");
                ("values", PList [PDict (str_items [("page", PInt 1);
                                                    ("lang", PStr "en")])])])] in
  let answered :=
    [PDict (kw [("Field", PStr "path-pattern");
                ("Values", PList [PStr "/api/*"]);
                ("PathPatternConfig", PDict (kw [("Values", PList [PStr "/api/*"])]))])] in
  (f <~ Rule.conditions_to_formatted_conditions E (PList declared) ;;
   Rule.formatted_conditions_to_conditions E f)
  = Ok (PList [PDict (kw [("field", PStr "http-header"); ("values", PList [PStr "gzip"]);
                          ("http_header_name", PNone)]);
               PDict (kw [("field", PStr "host-header");
                          ("values", PList [PStr "example.com"])]);
               PDict (kw [("field", PStr "query-string");
                          ("values", PList [PDict [(PStr "page", PStr "1")];
                                            PDict [(PStr "lang", PStr "en")]])])])
  /\ (d <~ Rule.formatted_conditions_to_conditions E (PList answered) ;;
      Rule.conditions_to_formatted_conditions E d)
     = Ok (PList [PDict (kw [("Field", PStr "path-pattern");
                             ("PathPatternConfig",
                               PDict (kw [("Values", PList [PStr "/api/*"])]))])]).
Proof.
  intros E declared answered. split.
  - destruct (conditions_round_trip
                E [HttpHeader PNone (PList [PStr "gzip"]);
                   HostHeader (PList [PStr "example.com"]);
                   QueryString [("page", "1"); ("lang", "en")]]) as [H _].
    refine (proj2 (H declared _)).
    subst declared. constructor; [| constructor; [| constructor; [| constructor]]].
    + match goal with |- reads_as _ (PDict ?d) _ =>
        exact (reads_http_header E d eq_refl) end.
    + match goal with |- reads_as _ (PDict ?d) _ =>
        exact (reads_host_header E d eq_refl) end.
    + match goal with |- reads_as _ (PDict ?d) _ =>
        refine (reads_query_string E d [[("page", PInt 1); ("lang", PStr "en")]]
                                   eq_refl eq_refl _) end.
      constructor; [reflexivity | constructor].
  - destruct (conditions_round_trip E [PathPattern (PList [PStr "/api/*"])])
      as (_ & H & _).
    refine (proj2 (H answered _)).
    subst answered. constructor; [| constructor].
    match goal with |- answers_as _ (PDict ?d) _ =>
      exact (answers_path_pattern E d (kw [("Values", PList [PStr "/api/*"])])
                                  eq_refl eq_refl) end.
Defined.

Lemma unknown_field_tests (field : pyval) :
  known_field field = false ->
  py_eqb field (PStr "http-header") = false
  /\ py_eqb field (PStr "http-request-method") = false
  /\ py_eqb field (PStr "host-header") = false
  /\ py_eqb field (PStr "path-pattern") = false
  /\ py_eqb field (PStr "query-string") = false
  /\ py_eqb field (PStr "source-ip") = false.
Proof.
  unfold known_field, known_fields. cbn [existsb].
  intros H. repeat (apply orb_false_iff in H as [? H]). auto 10.
Qed.

Lemma fold_skips {A} (f : A -> res (option pyval)) (pre post : list A) (item : A) :
  f item = Ok None ->
  rfold (fun acc x => o <~ f x ;; Ok (Rule.append_some acc o)) (pre ++ item :: post) []
  = rfold (fun acc x => o <~ f x ;; Ok (Rule.append_some acc o)) (pre ++ post) [].
Proof.
  intros H. rewrite !rfold_app.
  destruct (rfold _ pre []) as [acc |]; [| reflexivity].
  cbn [rbind rfold]. now rewrite H.
Qed.

(** X2.  A condition whose field is none of the six known ones is left
    out by both conversions, without an error: the result is the one
    for the list without it. *)
Theorem unknown_field_dropped (E : Env) (pre post : list pyval) (item field : pyval) :
  known_field field = false ->
  (py_get item "field" = Ok field ->
   Rule.conditions_to_formatted_conditions E (PList (pre ++ item :: post))
   = Rule.conditions_to_formatted_conditions E (PList (pre ++ post)))
  /\ (py_get item "Field" = Ok field ->
      Rule.formatted_conditions_to_conditions E (PList (pre ++ item :: post))
      = Rule.formatted_conditions_to_conditions E (PList (pre ++ post))).
Proof.
  intros Hunknown.
  destruct (unknown_field_tests field Hunknown) as (H1 & H2 & H3 & H4 & H5 & H6).
  split; intros Hfield.
  - unfold Rule.conditions_to_formatted_conditions. cbn [py_iter rbind].
    rewrite fold_skips; [reflexivity |].
    unfold Rule.format_condition. rewrite Hfield. cbn [rbind].
    now rewrite H1, H2, H3, H4, H5, H6.
  - unfold Rule.formatted_conditions_to_conditions. cbn [py_iter rbind].
    rewrite fold_skips; [reflexivity |].
    unfold Rule.unformat_condition. rewrite Hfield. cbn [rbind].
    now rewrite H1, H2, H3, H4, H5, H6.
Qed.

Lemma unknown_field_dropped_witness :
  let typo := PDict (kw [("field", PStr "path_pattern");
                         ("values", PList [PStr "/api/*"])]) in
  let host := declared_condition (HostHeader (PList [PStr "example.com"])) in
  Rule.conditions_to_formatted_conditions (Examples.env []) (PList [host; typo])
  = Ok (PList [formatted_condition (HostHeader (PList [PStr "example.com"]))]).
Proof.
  intros typo host.
  destruct (unknown_field_dropped (Examples.env []) [host] [] typo (PStr "path_pattern")
                                  eq_refl) as [H _].
  etransitivity; [exact (H eq_refl) | reflexivity].
Defined.

Lemma expand_str_items (E : Env) (items : list (string * pyval)) :
  expand_dict_to_key_value_list_obj E (PDict (str_items items))
  = Ok (tag_list (map (fun kv => (fst kv, py_str E (snd kv))) items)).
Proof.
  unfold expand_dict_to_key_value_list_obj, tag_list, str_items.
  cbn [py_items rbind]. now rewrite !map_map.
Qed.

(** X3.  Declared tags go to the provider as a list of
    [{"Key", "Value"}] items and come back as a dictionary.  Through
    [expand_dict_to_key_value_list_obj] and then either of the two
    functions that rebuild the dictionary, a dictionary with string keys
    comes back with the same keys in the same order, and each value
    [v] replaced by [str(v)]; it comes back unchanged when its values
    are strings. *)
Theorem tags_round_trip (E : Env) (items : list (string * pyval)) :
  distinct (map fst items) = true ->
  let stringified :=
    str_items (map (fun kv => (fst kv, PStr (py_str E (snd kv)))) items) in
  (l <~ expand_dict_to_key_value_list_obj E (PDict (str_items items)) ;;
   Rule.key_value_list_obj_to_compressed_dict E l) = Ok stringified
  /\ (l <~ expand_dict_to_key_value_list_obj E (PDict (str_items items)) ;;
      tags_to_dict l) = Ok stringified
  /\ ((forall kv, In kv items -> exists s, snd kv = PStr s) ->
      stringified = str_items items).
Proof.
  intros Hd stringified.
  assert (Hd' : distinct (map fst (map (fun kv => (fst kv, py_str E (snd kv))) items))
                = true) by (now rewrite map_map).
  assert (Hs : stringified
               = tag_dict (map (fun kv => (fst kv, py_str E (snd kv))) items)).
  { subst stringified. unfold tag_dict. now rewrite map_map. }
  rewrite expand_str_items. cbn [rbind].
  rewrite compressed_dict_tag_list, tags_to_dict_tag_list by exact Hd'.
  rewrite Hs. repeat split.
  intros Hstr. rewrite <- Hs. subst stringified. f_equal.
  clear -Hstr. induction items as [| [k v] items IH]; [reflexivity |].
  cbn [map fst snd]. destruct (Hstr (k, v) (or_introl eq_refl)) as [s Hs].
  cbn [snd] in Hs. subst v. cbn [py_str]. f_equal.
  apply IH. intros kv Hin. apply Hstr. now right.
Qed.

Lemma tags_round_trip_witness :
  let E := Examples.env [] in
  let tags := [("env", PStr "prod"); ("replicas", PInt 3)] in
  (l <~ expand_dict_to_key_value_list_obj E (PDict (str_items tags)) ;;
   Rule.key_value_list_obj_to_compressed_dict E l)
  = Ok (str_items [("env", PStr "prod"); ("replicas", PStr "3")]).
Proof.
  intros E tags.
  destruct (tags_round_trip E tags eq_refl) as [H _]. exact H.
Defined.

(** X4.  The values of a query-string condition are a list of
    dictionaries.  Through [expand_list_dict_to_key_value_list_obj] and
    back through [key_value_list_obj_to_compressed_list_dict] the list
    comes back flattened: one single-pair dictionary for every pair of
    every dictionary, in order, with the value [v] replaced by
    [str(v)]. *)
Theorem query_string_values_flattened (E : Env) (rows : list (list (string * pyval))) :
  Forall (fun row => distinct (map fst row) = true) rows ->
  (l <~ Rule.expand_list_dict_to_key_value_list_obj
          E (PList (map (fun row => PDict (str_items row)) rows)) ;;
   Rule.key_value_list_obj_to_compressed_list_dict E l)
  = Ok (PList (map (fun kv => PDict [(PStr (fst kv), PStr (py_str E (snd kv)))])
                   (concat rows))).
Proof.
  intros Hd.
  assert (Hexpand :
            Rule.expand_list_dict_to_key_value_list_obj
              E (PList (map (fun row => PDict (str_items row)) rows))
            = Ok (tag_list (map (fun kv => (fst kv, py_str E (snd kv))) (concat rows)))).
  { unfold Rule.expand_list_dict_to_key_value_list_obj, tag_list.
    cbn [py_iter rbind].
    rewrite (rmap_map _ _
               (fun row =>
                  map (fun kv => PDict (kw [("Key", PStr (fst kv));
                                            ("Value", PStr (py_str E (snd kv)))]))
                      row)).
    - cbn [rbind]. rewrite <- concat_map, !map_map. reflexivity.
    - intros row Hrow. rewrite Forall_forall in Hd. specialize (Hd row Hrow).
      cbn [py_iter rbind]. unfold dict_keys, str_items. rewrite map_map. cbn [fst].
      apply rmap_map. intros [k v] Hin. cbn [fst snd].
      unfold dict_get, dict_get_default.
      fold (str_items row). rewrite (str_find_distinct row k v Hd Hin).
      reflexivity. }
  rewrite Hexpand. cbn [rbind]. rewrite compress_pairs, map_map. reflexivity.
Qed.

Lemma query_string_values_flattened_witness :
  let E := Examples.env [] in
  (l <~ Rule.expand_list_dict_to_key_value_list_obj
          E (PList [PDict (str_items [("page", PInt 1); ("lang", PStr "en")])]) ;;
   Rule.key_value_list_obj_to_compressed_list_dict E l)
  = Ok (PList [PDict [(PStr "page", PStr "1")]; PDict [(PStr "lang", PStr "en")]]).
Proof.
  intros E.
  apply (query_string_values_flattened E [[("page", PInt 1); ("lang", PStr "en")]]).
  repeat constructor.
Defined.

(* ================================================================== *)
(** ** Tags that are no longer declared *)
(* ================================================================== *)

Lemma rfilter_none {A} (f : A -> res bool) (l : list A) :
  Forall (fun x => f x = Ok false) l -> rfilter f l = Ok [].
Proof.
  induction 1 as [| x l Hx _ IH]; [reflexivity |].
  cbn [rfilter]. now rewrite Hx, IH.
Qed.

Lemma rfilter_app {A} (f : A -> res bool) (l1 l2 : list A) (r1 r2 : list A) :
  rfilter f l1 = Ok r1 -> rfilter f l2 = Ok r2 -> rfilter f (l1 ++ l2) = Ok (r1 ++ r2).
Proof.
  revert r1. induction l1 as [| x l1 IH]; intros r1 H1 H2.
  - cbn in H1. apply Ok_inj in H1. now subst r1.
  - cbn [app rfilter] in *. destruct (f x) as [b |]; [| discriminate].
    cbn [rbind] in *. destruct (rfilter f l1) as [ys |]; [| discriminate].
    cbn [rbind] in *. apply Ok_inj in H1. subst r1.
    rewrite (IH ys eq_refl H2). cbn [rbind]. now destruct b.
Qed.

(** X8.  When no tags are declared ([attributes] has no ["Tags"]),
    the tag comparison looks for the description of the resource among
    the answers of [describe_tags], skipping those of other resources,
    and enqueues [remove_tags] with every key the resource carries;
    when it carries none, nothing is enqueued.  [set_tags] is never
    enqueued. *)
Theorem undeclared_tags_removed (E : Env) (to_dict : pyval -> res pydict)
        (arn : string) (attributes : pydict) (others : list pyval) (cm : tag_map)
        (response : pyval) (w : world) :
  to_dict = tags_to_dict \/ to_dict = Rule.key_value_list_obj_to_compressed_dict E ->
  dict_find attributes (PStr "Tags") = None ->
  client E (calls w) "describe_tags" (kw [("ResourceArns", PList [PStr arn])])
    = Ok response ->
  py_get response "TagDescriptions"
    = Ok (PList (others ++ [PDict (kw [("ResourceArn", PStr arn);
                                       ("Tags", tag_list cm)])])) ->
  Forall (fun other => exists a, py_get other "ResourceArn" = Ok a
                                 /\ py_eqb a (PStr arn) = false) others ->
  distinct (map fst cm) = true ->
  let w' := snd (diff_tags E to_dict (PStr arn) attributes w) in
  ops (eh w')
  = match cm with
    | [] => ops (eh w)
    | _ => sset (ops (eh w)) "remove_tags" (PList (map PStr (map fst cm)))
    end.
Proof.
  intros Hto Htags Hcall Hdesc Hothers Hd w'. subst w'.
  unfold diff_tags, mbind, lift, boto. rewrite Hcall.
  unfold eh_add_log, modify_eh. cbn [eh calls fst snd].
  rewrite Hdesc. cbn [rbind py_iter].
  rewrite (rfilter_app _ _ _ []
             [PDict (kw [("ResourceArn", PStr arn); ("Tags", tag_list cm)])]).
  2: { apply rfilter_none. eapply Forall_impl; [| exact Hothers].
       intros other (a & Hget & Ha). rewrite Hget. cbn [rbind]. now rewrite Ha. }
  2: { cbn [rfilter].
       replace (py_get (PDict (kw [("ResourceArn", PStr arn); ("Tags", tag_list cm)]))
                       "ResourceArn")
         with (Ok (PStr arn)) by reflexivity.
       cbn [rbind]. now rewrite py_eqb_str_refl. }
  cbn [app].
  replace (py_get (PDict (kw [("ResourceArn", PStr arn); ("Tags", tag_list cm)])) "Tags")
    with (Ok (tag_list cm)) by reflexivity.
  cbn [rbind].
  unfold enqueue_tag_ops, sget, dict_get, dict_get_default. rewrite Htags.
  cbn [py_truthy].
  destruct cm as [| [k v] cm]; [reflexivity |].
  replace (py_truthy (tag_list ((k, v) :: cm))) with true by reflexivity.
  assert (Hdict : to_dict (tag_list ((k, v) :: cm)) = Ok (tag_dict ((k, v) :: cm))).
  { destruct Hto as [-> | ->];
      [now apply tags_to_dict_tag_list | now apply compressed_dict_tag_list]. }
  rewrite Hdict. rewrite tag_dict_keys.
  reflexivity.
Qed.

Lemma undeclared_tags_removed_witness :
  let other := PDict (kw [("ResourceArn", PStr "arn:listener/2");
                          ("Tags", tag_list [("owner", "ops")])]) in
  let mine := PDict (kw [("ResourceArn", PStr "arn:listener/1");
                         ("Tags", tag_list [("env", "dev"); ("team", "core")])]) in
  let E := Examples.env
             [("describe_tags", Ok (PDict (kw [("TagDescriptions", PList [other; mine])])))] in
  ops (eh (snd (diff_tags E tags_to_dict (PStr "arn:listener/1") [] Scenarios.fresh)))
  = kw [("remove_tags", PList [PStr "env"; PStr "team"])].
Proof.
  intros other mine E.
  apply (undeclared_tags_removed
           E tags_to_dict "arn:listener/1" [] [other]
           [("env", "dev"); ("team", "core")]
           (PDict (kw [("TagDescriptions", PList [other; mine])])) Scenarios.fresh).
  - now left.
  - reflexivity.
  - reflexivity.
  - reflexivity.
  - constructor; [| constructor]. exists (PStr "arn:listener/2"). split; reflexivity.
  - reflexivity.
Defined.

(* ================================================================== *)
(** ** Special attributes declared with an empty value *)
(* ================================================================== *)

Lemma str_find_in (items : list (string * pyval)) (k : string) (v : pyval) :
  dict_find (str_items items) (PStr k) = Some v -> In (k, v) items.
Proof.
  induction items as [| [k0 v0] items IH]; [discriminate |].
  cbn [str_items map fst snd dict_find In]. fold (str_items items).
  rewrite py_eqb_str. destruct (String.eqb k0 k) eqn:Hk.
  - apply String.eqb_eq in Hk. subst k0. intros [= ->]. now left.
  - intros H. right. auto.
Qed.

Lemma remove_none_find (items : list (string * pyval)) (k : string) (v : pyval) :
  distinct (map fst items) = true ->
  In (k, v) items -> is_none v = false ->
  dict_find (remove_none_attributes (str_items items)) (PStr k) = Some v.
Proof.
  intros Hd Hin Hv. unfold remove_none_attributes. rewrite filter_str_items.
  apply str_find_distinct; [now apply distinct_filter_items |].
  apply filter_In. split; [exact Hin |]. cbn [snd]. now rewrite Hv.
Qed.

Lemma rmap_all {A B} (f : A -> res B) (h : A -> B) (l : list A) :
  (forall x, In x l -> f x = Ok (h x)) -> rmap f l = Ok (map h l).
Proof.
  intros H. rewrite <- (map_id l) at 1. now apply rmap_map.
Qed.

(** What [make_special_attributes] computes on a dictionary. *)
Lemma make_special_attributes_items (E : Env) (c : pydict) :
  LoadBalancer.make_special_attributes E (PDict c)
  = Ok (remove_none_attributes
          (str_items
             (map (fun row : string * string * bool =>
                     let '(cdef_key, key, lowered) := row in
                     (key, if lowered then LoadBalancer.lower_if E (sget c cdef_key)
                           else str_if E (sget c cdef_key)))
                  LoadBalancer.special_attribute_table))).
Proof.
  unfold LoadBalancer.make_special_attributes.
  set (conv := fun row : string * string * bool =>
                 let '(cdef_key, key, lowered) := row in
                 (key, if lowered then LoadBalancer.lower_if E (sget c cdef_key)
                       else str_if E (sget c cdef_key))).
  rewrite (rmap_all _ (fun row => (PStr (fst (conv row)), snd (conv row))))
    by (intros [[ck k] l] _; reflexivity).
  cbn [rbind].
  change (map (fun row => (PStr (fst (conv row)), snd (conv row)))
              LoadBalancer.special_attribute_table)
    with (str_items (map conv LoadBalancer.special_attribute_table)).
  rewrite dict_lit_str_items by (rewrite map_map; reflexivity).
  reflexivity.
Qed.

Lemma merged_special_attributes_items (special_attributes defaults : pydict)
      (m : tag_map) :
  distinct (map fst m) = true ->
  LoadBalancer.merged_special_attributes special_attributes defaults (tag_dict m)
  = remove_none_attributes
      (str_items (map (fun k => (k, py_or (dict_get special_attributes (PStr k))
                                          (dict_get defaults (PStr k))))
                      (map fst m))).
Proof.
  intros Hd. unfold LoadBalancer.merged_special_attributes, dict_items. f_equal.
  rewrite <- (dict_lit_str_items
                (map (fun k => (k, py_or (dict_get special_attributes (PStr k))
                                         (dict_get defaults (PStr k))))
                     (map fst m)))
    by (rewrite map_map, map_map; cbn [fst]; exact Hd).
  f_equal. unfold tag_dict, str_items. now rewrite !map_map.
Qed.

Lemma remove_none_holds (d : pydict) (k x : pyval) :
  dict_find (remove_none_attributes d) k = Some x -> is_none x = false.
Proof.
  unfold remove_none_attributes.
  induction d as [| [k0 v0] d IH]; [discriminate |]. cbn [filter snd].
  destruct (is_none v0) eqn:Hv; cbn [negb]; [exact IH |].
  cbn [dict_find]. destruct (py_eqb k0 k); [| exact IH].
  now intros [= <-].
Qed.

Lemma falsy_kept (E : Env) (lowered : bool) (v : pyval) :
  py_truthy v = false ->
  (if lowered then LoadBalancer.lower_if E v else str_if E v) = v.
Proof.
  intros H. unfold LoadBalancer.lower_if, str_if. rewrite H. now destruct lowered.
Qed.

(** X11.  A special attribute declared with a value that is empty
    without being [None] ([False], [0], the empty string) stays in
    [special_attributes] as it is, so the update path is taken; but the
    merged target is built with [or], which passes over it: for that
    key the payload of the update holds the documented default, or
    nothing when there is none.  The declared value is not sent. *)
Theorem empty_declared_value_gives_default (E : Env) (c : pydict)
        (cdef_key key : string) (lowered : bool) (v : pyval) (m : tag_map) :
  In (cdef_key, key, lowered) LoadBalancer.special_attribute_table ->
  sget c cdef_key = v ->
  py_truthy v = false ->
  v <> PNone ->
  distinct (map fst m) = true ->
  In key (map fst m) ->
  exists special,
    LoadBalancer.make_special_attributes E (PDict c) = Ok special
    /\ dict_find special (PStr key) = Some v
    /\ py_truthy (PDict special) = true
    /\ dict_find (LoadBalancer.merged_special_attributes
                    special LoadBalancer.default_special_attributes (tag_dict m))
                 (PStr key)
       = dict_find LoadBalancer.default_special_attributes (PStr key).
Proof.
  intros Hrow Hv Hfalsy Hnone Hd Hkey.
  eexists. split; [apply make_special_attributes_items |].
  match goal with |- dict_find ?s _ = _ /\ _ => set (special := s) end.
  assert (Hfind : dict_find special (PStr key) = Some v).
  { subst special. apply remove_none_find.
    - rewrite map_map. reflexivity.
    - apply in_map_iff. exists (cdef_key, key, lowered). split; [| exact Hrow].
      cbv beta iota. rewrite Hv, falsy_kept by assumption. reflexivity.
    - destruct v; try reflexivity. congruence. }
  split; [exact Hfind |]. split.
  - destruct special; [discriminate | reflexivity].
  - clearbody special.
    rewrite merged_special_attributes_items by exact Hd.
    rewrite remove_none_binds.
    assert (Hex : existsb (String.eqb key) (map fst m) = true).
    { apply existsb_exists. exists key. split; [exact Hkey | apply String.eqb_refl]. }
    rewrite Hex.
    assert (Hor : py_or (dict_get special (PStr key))
                        (dict_get LoadBalancer.default_special_attributes (PStr key))
                  = dict_get LoadBalancer.default_special_attributes (PStr key)).
    { unfold py_or, dict_get at 1 2, dict_get_default at 1 2.
      now rewrite Hfind, Hfalsy. }
    rewrite Hor. unfold dict_get, dict_get_default.
    destruct (dict_find LoadBalancer.default_special_attributes (PStr key)) as [x |] eqn:Hx;
      [| reflexivity].
    unfold LoadBalancer.default_special_attributes in Hx.
    now rewrite (remove_none_holds _ _ _ Hx).
Qed.

Lemma empty_declared_value_gives_default_witness :
  let E := Examples.env [] in
  let c := kw [("routing_http2_enabled", PBool false)] in
  let m := [("routing.http2.enabled", "true"); ("idle_timeout.timeout_seconds", "60")] in
  exists special,
    LoadBalancer.make_special_attributes E (PDict c) = Ok special
    /\ dict_find special (PStr "routing.http2.enabled") = Some (PBool false)
    /\ dict_find (LoadBalancer.merged_special_attributes
                    special LoadBalancer.default_special_attributes (tag_dict m))
                 (PStr "routing.http2.enabled")
       = Some (PStr "true").
Proof.
  intros E c m.
  destruct (empty_declared_value_gives_default
              E c "routing_http2_enabled" "routing.http2.enabled" true (PBool false) m)
    as (special & Hmake & Hfind & _ & Hpayload).
  - cbn. tauto.
  - reflexivity.
  - reflexivity.
  - discriminate.
  - reflexivity.
  - cbn. tauto.
  - exists special. split; [exact Hmake |]. split; [exact Hfind |]. exact Hpayload.
Defined.

(* ================================================================== *)
(** ** The start of an invocation *)
(* ================================================================== *)

Ltac start_handler :=
  unfold eh_capture_event, capture_event, mbind, lift, get_eh, py_get, py_get_default;
  cbn [rbind].

(** X6.  A delete invocation reads [prev_state["props"]["arn"]] with
    subscripts.  When the previous state has no props, or props without
    an [arn], the [KeyError] ends the invocation: it is reported as an
    error with progress 0 and no request for a retry, no remote call is
    made, and nothing is deleted.  The same in the three handlers. *)
Theorem delete_without_recorded_arn (E : Env) (event context : pyval) (w0 : world)
        (ev : pydict) (region number : pyval) (e : exn) :
  py_item (account_context E context) "region" = Ok region ->
  py_item (account_context E context) "number" = Ok number ->
  event = PDict ev ->
  py_truthy (dict_get_default ev (PStr "pass_back_data") (PDict [])) = false ->
  py_eqb (sget ev "op") (PStr "upsert") = false ->
  py_eqb (sget ev "op") (PStr "delete") = true ->
  (p <~ py_item (py_or (sget ev "prev_state") (PDict [])) "props" ;; py_item p "arn")
    = Raise e ->
  (forall d attributes,
      Listener.read_cdef (sget ev "component_def") = Ok d ->
      Listener.make_attributes E d = Ok attributes ->
      let r := Listener.lambda_handler E event context w0 in
      internal_failure E e (fst r) /\ calls (snd r) = calls w0)
  /\ (forall d attributes,
         Rule.read_cdef (sget ev "component_def") = Ok d ->
         Rule.make_attributes E d = Ok attributes ->
         let r := Rule.lambda_handler E event context w0 in
         internal_failure E e (fst r) /\ calls (snd r) = calls w0)
  /\ (forall d special_attributes attributes,
         LoadBalancer.read_cdef E (PDict ev) (sget ev "component_def") eh_empty = Ok d ->
         LoadBalancer.make_special_attributes E (sget ev "component_def")
           = Ok special_attributes ->
         LoadBalancer.make_attributes E d = Ok attributes ->
         let r := LoadBalancer.lambda_handler E event context w0 in
         internal_failure E e (fst r) /\ calls (snd r) = calls w0).
Proof.
  intros Hreg Hnum -> Hpbd Hup Hdel Harn.
  unfold sget, dict_get in Hup, Hdel, Harn.
  split; [| split].
  - intros d attributes Hcdef Hattrs r. subst r. unfold sget, dict_get in Hcdef.
    unfold Listener.lambda_handler, run_handler, Listener.handler_body.
    start_handler. rewrite Hreg, Hnum, Hcdef, Hattrs, Hup, Hdel, Hpbd.
    eh_simpl. rewrite Harn. unfold internal_failure. cbn. auto.
  - intros d attributes Hcdef Hattrs r. subst r. unfold sget, dict_get in Hcdef.
    unfold Rule.lambda_handler, run_handler, Rule.handler_body.
    start_handler. rewrite Hreg, Hnum, Hcdef, Hattrs, Hup, Hdel, Hpbd.
    eh_simpl. rewrite Harn. unfold internal_failure. cbn. auto.
  - intros d special_attributes attributes Hcdef Hspecial Hattrs r. subst r.
    unfold sget, dict_get in Hcdef, Hspecial.
    unfold LoadBalancer.lambda_handler, run_handler, LoadBalancer.handler_body.
    start_handler. rewrite Hreg, Hnum, Hpbd.
    unfold modify_eh. cbn [eh calls fst snd].
    rewrite Hcdef, Hspecial, Hattrs, Hup, Hdel.
    eh_simpl. rewrite Harn. unfold internal_failure. cbn. auto.
Qed.

Lemma delete_without_recorded_arn_witness :
  let ev := kw [("op", PStr "delete");
                ("component_def", PDict (kw [("load_balancer_arn", PStr "arn:lb/1")]))] in
  let r := Listener.lambda_handler (Examples.env []) (PDict ev) PNone Scenarios.fresh in
  r_progress (fst r) = 0 /\ r_success (fst r) = false
  /\ r_error (fst r) = PStr "'props'" /\ calls (snd r) = [].
Proof.
  intros ev r.
  destruct (delete_without_recorded_arn
              (Examples.env []) (PDict ev) PNone Scenarios.fresh ev
              (PStr "us-east-1") (PStr "123456789012") (KeyError (PStr "props"))
              eq_refl eq_refl eq_refl eq_refl eq_refl eq_refl eq_refl)
    as [Hlistener _].
  destruct (Hlistener _ _ eq_refl eq_refl) as [(Hp & Hs & He & _) Hcalls].
  repeat split; assumption.
Defined.

(** X7.  An invocation whose [op] is neither ["upsert"] nor ["delete"]
    and that carries no [pass_back_data] makes no remote call, in any
    of the three handlers.  The handler reads the declaration before it
    looks at [op]: when that raises nothing, nothing is enqueued, every
    operation is skipped and the invocation reports success with
    progress 100; when it raises (a rule declared without conditions,
    say), the exception is reported as an error with progress 0. *)
Theorem unknown_op_does_nothing (E : Env) (event context : pyval) (w0 : world)
        (ev : pydict) (region number : pyval) :
  py_item (account_context E context) "region" = Ok region ->
  py_item (account_context E context) "number" = Ok number ->
  event = PDict ev ->
  py_truthy (dict_get_default ev (PStr "pass_back_data") (PDict [])) = false ->
  py_eqb (sget ev "op") (PStr "upsert") = false ->
  py_eqb (sget ev "op") (PStr "delete") = false ->
  let outcome (declaration : res pydict) (r : response * world) :=
    calls (snd r) = calls w0
    /\ match declaration with
       | Ok _ => ops (eh (snd r)) = []
                 /\ r_success (fst r) = true /\ r_progress (fst r) = 100
                 /\ r_error (fst r) = PNone
       | Raise e => internal_failure E e (fst r)
       end in
  outcome (listener_declaration E ev) (Listener.lambda_handler E event context w0)
  /\ outcome (rule_declaration E ev) (Rule.lambda_handler E event context w0)
  /\ outcome (load_balancer_declaration E ev)
             (LoadBalancer.lambda_handler E event context w0).
Proof.
  intros Hreg Hnum -> Hpbd Hup Hdel outcome. subst outcome. cbv beta.
  unfold sget, dict_get in Hup, Hdel.
  split; [| split].
  - unfold listener_declaration, sget, dict_get.
    unfold Listener.lambda_handler, run_handler, Listener.handler_body.
    start_handler. rewrite Hreg, Hnum.
    destruct (Listener.read_cdef (dict_get_default ev (PStr "component_def") PNone))
      as [d | e]; cbn [rbind];
      [| unfold internal_failure; cbn; auto].
    destruct (Listener.make_attributes E d) as [attributes | e];
      [| unfold internal_failure; cbn; auto].
    rewrite Hup, Hdel, Hpbd.
    unfold mret, modify_eh. cbn [eh calls fst snd].
    unfold Listener.get_listener, Listener.delete_listener, Listener.create_listener,
      Listener.update_listener, Listener.remove_tags, Listener.set_tags.
    rewrite !ext_skip_absent by reflexivity.
    cbn. auto.
  - unfold rule_declaration, sget, dict_get.
    unfold Rule.lambda_handler, run_handler, Rule.handler_body.
    start_handler. rewrite Hreg, Hnum.
    destruct (Rule.read_cdef (dict_get_default ev (PStr "component_def") PNone))
      as [d | e]; cbn [rbind];
      [| unfold internal_failure; cbn; auto].
    destruct (Rule.make_attributes E d) as [attributes | e];
      [| unfold internal_failure; cbn; auto].
    rewrite Hup, Hdel, Hpbd.
    unfold mret, modify_eh. cbn [eh calls fst snd].
    unfold Rule.get_rule, Rule.delete_rule, Rule.create_rule, Rule.update_rule,
      Rule.update_rule_priority, Rule.remove_tags, Rule.set_tags.
    rewrite !ext_skip_absent by reflexivity.
    cbn. auto.
  - unfold load_balancer_declaration, sget, dict_get.
    unfold LoadBalancer.lambda_handler, run_handler, LoadBalancer.handler_body.
    start_handler. rewrite Hreg, Hnum, Hpbd.
    unfold modify_eh. cbn [eh calls fst snd].
    destruct (LoadBalancer.read_cdef E (PDict ev)
                (dict_get_default ev (PStr "component_def") PNone) eh_empty)
      as [d | e]; cbn [rbind];
      [| unfold internal_failure; cbn; auto].
    destruct (LoadBalancer.make_special_attributes
                E (dict_get_default ev (PStr "component_def") PNone))
      as [special_attributes | e]; cbn [rbind];
      [| unfold internal_failure; cbn; auto].
    destruct (LoadBalancer.make_attributes E d) as [attributes | e];
      [| unfold internal_failure; cbn; auto].
    rewrite Hup, Hdel.
    unfold mret. cbn [eh calls fst snd].
    unfold LoadBalancer.get_load_balancer, LoadBalancer.delete_load_balancer,
      LoadBalancer.create_load_balancer, LoadBalancer.check_load_balancer_create_complete,
      LoadBalancer.remove_tags, LoadBalancer.set_tags, LoadBalancer.set_ip_address_type,
      LoadBalancer.set_security_groups, LoadBalancer.set_subnets,
      LoadBalancer.update_load_balancer_special_attributes,
      LoadBalancer.reset_load_balancer_special_attributes.
    rewrite !ext_skip_absent by reflexivity.
    cbn. auto.
Qed.

Lemma unknown_op_does_nothing_witness :
  let E := Examples.env [] in
  let declared := kw [("op", PStr "update");
                      ("component_def",
                        PDict (kw [("listener_arn", PStr "arn:listener/1");
                                   ("conditions", PList [])]))] in
  let undeclared := kw [("op", PStr "update");
                        ("component_def",
                          PDict (kw [("listener_arn", PStr "arn:listener/1")]))] in
  let r := Rule.lambda_handler E (PDict declared) PNone Scenarios.fresh in
  let r' := Rule.lambda_handler E (PDict undeclared) PNone Scenarios.fresh in
  (calls (snd r) = [] /\ r_success (fst r) = true /\ r_progress (fst r) = 100)
  /\ (calls (snd r') = [] /\ r_success (fst r') = false /\ r_progress (fst r') = 0).
Proof.
  intros E declared undeclared r r'. split.
  - destruct (unknown_op_does_nothing
                E (PDict declared) PNone Scenarios.fresh declared
                (PStr "us-east-1") (PStr "123456789012")
                eq_refl eq_refl eq_refl eq_refl eq_refl eq_refl)
      as (_ & [Hcalls (_ & Hs & Hp & _)] & _).
    repeat split; assumption.
  - destruct (unknown_op_does_nothing
                E (PDict undeclared) PNone Scenarios.fresh undeclared
                (PStr "us-east-1") (PStr "123456789012")
                eq_refl eq_refl eq_refl eq_refl eq_refl eq_refl)
      as (_ & [Hcalls (Hp & Hs & _)] & _).
    repeat split; assumption.
Defined.

(** X5.  The listener's guard reads the recorded load balancer and the
    recorded port one after the other inside one [try] with a bare
    [except].  When the props record no [load_balancer_arn], the read
    of the port is not reached: the guard sees no recorded port, does
    not fire whatever port is recorded and declared, and the invocation
    goes on to the read phase with [get_listener] queued and no return
    declared. *)
Theorem port_change_unnoticed (E : Env) (event context : pyval) (w0 : world)
        (ev : pydict) (region number props : pyval)
        (d : Listener.declared_listener) (attributes : pydict) (e : exn) :
  py_item (account_context E context) "region" = Ok region ->
  py_item (account_context E context) "number" = Ok number ->
  event = PDict ev ->
  py_truthy (dict_get_default ev (PStr "pass_back_data") (PDict [])) = false ->
  py_eqb (sget ev "op") (PStr "upsert") = true ->
  Listener.read_cdef (sget ev "component_def") = Ok d ->
  Listener.make_attributes E d = Ok attributes ->
  py_item (py_or (sget ev "prev_state") (PDict [])) "props" = Ok props ->
  py_item props "load_balancer_arn" = Raise e ->
  let prev_state := py_or (sget ev "prev_state") (PDict []) in
  Listener.non_editable_changed prev_state d = false
  /\ Listener.handler_body E event context w0
     = (Listener.get_listener E attributes region prev_state ;;;
        Listener.delete_listener E ;;;
        Listener.create_listener E attributes region prev_state ;;;
        Listener.update_listener E attributes region prev_state ;;;
        Listener.remove_tags E ;;;
        Listener.set_tags E)
         (mk_world (add_op "get_listener" (PBool true) eh_empty) (calls w0)).
Proof.
  intros Hreg Hnum -> Hpbd Hop Hcdef Hattrs Hprops Harn prev_state.
  assert (Hguard : Listener.non_editable_changed prev_state d = false).
  { unfold Listener.non_editable_changed, read_old_props.
    subst prev_state. rewrite Hprops. cbn [rbind]. rewrite Harn. reflexivity. }
  split; [exact Hguard |].
  subst prev_state. unfold sget, dict_get in *.
  unfold Listener.handler_body at 1.
  start_handler. rewrite Hreg, Hnum, Hcdef, Hattrs, Hop, Hpbd, Hguard.
  reflexivity.
Qed.

Lemma port_change_unnoticed_witness :
  let ev := kw [("op", PStr "upsert");
                ("component_def", PDict (kw [("load_balancer_arn", PStr "arn:lb/1");
                                             ("port", PInt 8443)]));
                ("prev_state",
                  PDict (kw [("props", PDict (kw [("arn", PStr "arn:listener/1");
                                                  ("port", PInt 443)]))]))] in
  exists d,
    Listener.read_cdef (sget ev "component_def") = Ok d
    /\ Scenarios.recorded (PDict ev) "port" = Ok (PInt 443)
    /\ Listener.port d = PInt 8443
    /\ Listener.non_editable_changed (sget ev "prev_state") d = false.
Proof.
  intros ev. eexists. split; [reflexivity |]. split; [reflexivity |].
  split; [reflexivity |].
  refine (proj1 (port_change_unnoticed
                   (Examples.env []) (PDict ev) PNone Scenarios.fresh ev
                   (PStr "us-east-1") (PStr "123456789012")
                   (PDict (kw [("arn", PStr "arn:listener/1"); ("port", PInt 443)]))
                   _ _ (KeyError (PStr "load_balancer_arn"))
                   eq_refl eq_refl eq_refl eq_refl eq_refl eq_refl eq_refl eq_refl
                   eq_refl)).
Defined.

(* ================================================================== *)
(** ** How many remote calls an operation makes *)
(* ================================================================== *)

Section CallsAdded.

Context {A B : Type}.

Lemma ca_weaken (n m : nat) (c : M A) :
  (n <= m)%nat -> calls_added n c -> calls_added m c.
Proof.
  intros Hle H w. destruct (H w) as (l & Hl & Hn). exists l. split; [exact Hl | lia].
Qed.

Lemma ca_ret (a : A) : calls_added 0 (mret a).
Proof. intros w. exists []. cbn. now rewrite app_nil_r. Qed.

Lemma ca_lift (r : res A) : calls_added 0 (lift r).
Proof. intros w. exists []. cbn. now rewrite app_nil_r. Qed.

Lemma ca_raise (e : exn) : calls_added 0 (@raise A e).
Proof. intros w. exists []. cbn. now rewrite app_nil_r. Qed.

Lemma ca_bind (n m : nat) (c : M A) (f : A -> M B) :
  calls_added n c -> (forall a, calls_added m (f a)) -> calls_added (n + m) (mbind c f).
Proof.
  intros Hc Hf w. unfold mbind. destruct (Hc w) as (l & Hl & Hn).
  destruct (c w) as [[a | e] w1]; cbn [snd] in *.
  - destruct (Hf a w1) as (l' & Hl' & Hm). exists (l ++ l').
    rewrite Hl', Hl, <- app_assoc, length_app. split; [reflexivity | lia].
  - exists l. split; [exact Hl | lia].
Qed.

Lemma ca_try (n m : nat) (body : M A) (handler : exn -> option (M A)) :
  calls_added n body ->
  (forall e h, handler e = Some h -> calls_added m h) ->
  calls_added (n + m) (try_except body handler).
Proof.
  intros Hb Hh w. unfold try_except. destruct (Hb w) as (l & Hl & Hn).
  destruct (body w) as [[a | e] w1]; cbn [snd] in *.
  - exists l. split; [exact Hl | lia].
  - destruct (handler e) as [h |] eqn:He.
    + destruct (Hh e h He w1) as (l' & Hl' & Hm). exists (l ++ l').
      rewrite Hl', Hl, <- app_assoc, length_app. split; [reflexivity | lia].
    + exists l. split; [exact Hl | lia].
Qed.

Lemma ca_if (n m : nat) (b : bool) (c1 c2 : M A) :
  calls_added n c1 -> calls_added m c2 ->
  calls_added (Nat.max n m) (if b then c1 else c2).
Proof.
  intros H1 H2. destruct b; [eapply ca_weaken; [| exact H1] | eapply ca_weaken; [| exact H2]];
    lia.
Qed.

End CallsAdded.

Lemma ca_modify_eh (f : ExtensionHandler -> ExtensionHandler) : calls_added 0 (modify_eh f).
Proof. intros w. exists []. cbn. now rewrite app_nil_r. Qed.

Lemma ca_get_eh : calls_added 0 get_eh.
Proof. intros w. exists []. cbn. now rewrite app_nil_r. Qed.

Lemma ca_state_item (k : string) : calls_added 0 (eh_state_item k).
Proof. intros w. exists []. cbn. now rewrite app_nil_r. Qed.

Lemma ca_ops_get (k : string) : calls_added 0 (eh_ops_get k).
Proof. intros w. exists []. cbn. now rewrite app_nil_r. Qed.

Lemma ca_boto (E : Env) (method : string) (kwargs : pydict) :
  calls_added 1 (boto E method kwargs).
Proof. intros w. exists [(method, kwargs)]. cbn. split; [reflexivity | lia]. Qed.

Lemma ca_when (n : nat) (b : bool) (c : M unit) :
  calls_added n c -> calls_added n (when b c).
Proof.
  intros H. unfold when. destruct b; [exact H |].
  eapply ca_weaken; [| apply ca_ret]. lia.
Qed.

Lemma ca_ext (n : nat) (op : string) (f : M unit) :
  calls_added n f -> calls_added n (ext op f).
Proof.
  intros H w. unfold ext.
  destruct (has_returned (eh w)); [exists []; cbn; rewrite app_nil_r; split; [reflexivity | lia] |].
  destruct (py_truthy _); [| exists []; cbn; rewrite app_nil_r; split; [reflexivity | lia]].
  destruct (H w) as (l & Hl & Hn). exists l. split; [| exact Hn].
  destruct (f w) as [[[] | e] w1]; cbn [snd] in *; [| exact Hl].
  now destruct (has_returned (eh w1)).
Qed.

(** The [except] clauses make no remote call. *)
Lemma ca_clause (cls : string) (h : exn -> M unit) (e : exn) (c : M unit) :
  (forall e, calls_added 0 (h e)) -> clause cls h e = Some c -> calls_added 0 c.
Proof.
  unfold clause. intros H. destruct (exn_is cls e); [| discriminate].
  intros [= <-]. apply H.
Qed.

Lemma ca_seq0 {A B} (c : M A) (k : M B) :
  calls_added 0 c -> calls_added 0 k -> calls_added 0 (c ;;; k).
Proof. intros Hc Hk. apply (ca_bind 0 0); auto. Qed.

Lemma ca_perm_clauses (E : Env) (table : list (string * string)) (prog : Z) (e : exn)
      (c : M unit) :
  perm_clauses E table prog e = Some c -> calls_added 0 c.
Proof.
  unfold perm_clauses. destruct (find _ table); [| discriminate].
  intros [= <-]. apply ca_seq0; apply ca_modify_eh.
Qed.

Lemma ca_common_clause (E : Env) (msg : string) (prog : Z) (e : exn) (c : M unit) :
  common_clause E msg prog e = Some c -> calls_added 0 c.
Proof.
  unfold common_clause. destruct (is_client_error e); [| discriminate].
  intros [= <-]. apply ca_modify_eh.
Qed.

Lemma ca_clauses (cs : list (exn -> option (M unit))) (e : exn) (c : M unit) :
  Forall (fun cl => forall e h, cl e = Some h -> calls_added 0 h) cs ->
  clauses cs e = Some c -> calls_added 0 c.
Proof.
  induction 1 as [| cl cs Hcl _ IH]; [discriminate |].
  cbn [clauses]. destruct (cl e) as [h |] eqn:He.
  - intros [= <-]. eapply Hcl. exact He.
  - exact IH.
Qed.

(** Solves [calls_added ?n c] for a [c] built from the monad's
    operations, choosing [?n]. *)
Ltac ca_step :=
  match goal with
  | |- calls_added ?n _ => tryif is_evar n then fail else (eapply ca_weaken; [shelve |])
  | |- calls_added _ (mbind _ _) => eapply ca_bind; [| intros ?]
  | |- calls_added _ (try_except _ _) => eapply ca_try; [| intros ? ? ?]
  | |- calls_added _ (when _ _) => eapply ca_when
  | |- calls_added _ (ext _ _) => eapply ca_ext
  | |- calls_added _ (boto _ _ _) => eapply ca_boto
  | |- calls_added _ (if _ then _ else _) => eapply ca_if
  | |- calls_added _ (mret _) => eapply ca_ret
  | |- calls_added _ (lift _) => eapply ca_lift
  | |- calls_added _ (raise _) => eapply ca_raise
  | |- calls_added _ (modify_eh _) => eapply ca_modify_eh
  | |- calls_added _ (eh_add_log _ _ _) => eapply ca_modify_eh
  | |- calls_added _ (eh_add_op _ _) => eapply ca_modify_eh
  | |- calls_added _ (eh_add_state _) => eapply ca_modify_eh
  | |- calls_added _ (eh_add_props _) => eapply ca_modify_eh
  | |- calls_added _ (eh_add_links _) => eapply ca_modify_eh
  | |- calls_added _ (eh_perm_error _ _) => eapply ca_modify_eh
  | |- calls_added _ (eh_retry_error _ _ _) => eapply ca_modify_eh
  | |- calls_added _ (eh_state_item _) => eapply ca_state_item
  | |- calls_added _ (eh_ops_get _) => eapply ca_ops_get
  | |- calls_added _ get_eh => eapply ca_get_eh
  | H : clauses _ _ = Some _ |- calls_added _ _ =>
      eapply ca_clauses; [| exact H]
  | H : clause _ _ _ = Some _ |- calls_added _ _ =>
      eapply ca_clause; [| exact H]; intros ?; cbv beta
  | H : perm_clauses _ _ _ _ = Some _ |- calls_added _ _ =>
      eapply ca_perm_clauses; exact H
  | H : common_clause _ _ _ _ = Some _ |- calls_added _ _ =>
      eapply ca_common_clause; exact H
  | H : (if ?b then Some _ else None) = Some _ |- calls_added _ _ =>
      destruct b; [injection H as <- | discriminate H]
  | H : _ = Some ?h |- calls_added _ ?h => progress cbv beta in H
  | |- Forall _ (_ :: _) => constructor; [intros ? ? ? |]
  | |- Forall _ [] => constructor
  end.

Ltac ca_solve := unshelve (repeat ca_step); cbn; lia.

Ltac ca_unfold :=
  repeat progress unfold Listener.get_listener, Listener.get_listener_body,
    Listener.create_listener, Listener.create_listener_body,
    Listener.update_listener, Listener.update_listener_body,
    Listener.delete_listener, Listener.delete_listener_body,
    Listener.remove_tags, Listener.remove_tags_body,
    Listener.set_tags, Listener.set_tags_body,
    Listener.record_listener, Listener.does_not_exist, Listener.tags_not_found,
    Rule.get_rule, Rule.get_rule_body, Rule.create_rule, Rule.create_rule_body,
    Rule.update_rule, Rule.update_rule_body,
    Rule.update_rule_priority, Rule.update_rule_priority_body,
    Rule.delete_rule, Rule.delete_rule_body,
    Rule.remove_tags, Rule.remove_tags_body, Rule.set_tags, Rule.set_tags_body,
    Rule.record_rule, Rule.does_not_exist, Rule.tags_not_found,
    LoadBalancer.get_load_balancer, LoadBalancer.get_load_balancer_body,
    LoadBalancer.found_load_balancer, LoadBalancer.placement_ops,
    LoadBalancer.get_special_attributes, LoadBalancer.create_special_attributes,
    LoadBalancer.lb_not_found,
    LoadBalancer.create_load_balancer, LoadBalancer.create_load_balancer_body,
    LoadBalancer.check_load_balancer_create_complete,
    LoadBalancer.check_load_balancer_create_complete_body,
    LoadBalancer.remove_tags, LoadBalancer.remove_tags_body,
    LoadBalancer.set_tags, LoadBalancer.set_tags_body,
    LoadBalancer.set_ip_address_type, LoadBalancer.set_ip_address_type_body,
    LoadBalancer.set_security_groups, LoadBalancer.set_security_groups_body,
    LoadBalancer.set_subnets, LoadBalancer.set_subnets_body,
    LoadBalancer.update_load_balancer_special_attributes,
    LoadBalancer.update_load_balancer_special_attributes_body,
    LoadBalancer.reset_load_balancer_special_attributes,
    LoadBalancer.reset_load_balancer_special_attributes_body,
    LoadBalancer.modify_special_attributes,
    LoadBalancer.delete_load_balancer, LoadBalancer.delete_load_balancer_body,
    diff_tags, enqueue_tag_ops, eh_capture_event.

Ltac ca_op := ca_unfold; ca_solve.

(** X13.  Every update and delete operation makes at most one remote
    call in an invocation, whatever the provider answers and whatever
    the handler object holds: a retry of the operation comes back to
    that one call. *)
Theorem one_call_per_operation (E : Env) (attributes defaults : pydict)
        (region prev_state x y z : pyval) :
  (calls_added 1 (Listener.update_listener E attributes region prev_state)
   /\ calls_added 1 (Listener.delete_listener E)
   /\ calls_added 1 (Listener.remove_tags E)
   /\ calls_added 1 (Listener.set_tags E))
  /\ (calls_added 1 (Rule.update_rule E attributes region prev_state)
      /\ calls_added 1 (Rule.update_rule_priority E x)
      /\ calls_added 1 (Rule.delete_rule E)
      /\ calls_added 1 (Rule.remove_tags E)
      /\ calls_added 1 (Rule.set_tags E))
  /\ (calls_added 1 (LoadBalancer.check_load_balancer_create_complete E)
      /\ calls_added 1 (LoadBalancer.remove_tags E)
      /\ calls_added 1 (LoadBalancer.set_tags E)
      /\ calls_added 1 (LoadBalancer.set_ip_address_type E x)
      /\ calls_added 1 (LoadBalancer.set_security_groups E x)
      /\ calls_added 1 (LoadBalancer.set_subnets E x y z)
      /\ calls_added 1 (LoadBalancer.update_load_balancer_special_attributes E)
      /\ calls_added 1 (LoadBalancer.reset_load_balancer_special_attributes E defaults)
      /\ calls_added 1 (LoadBalancer.delete_load_balancer E)).
Proof.
  repeat split; ca_op.
Qed.

Lemma run_handler_calls (E : Env) (body : M unit) (w : world) :
  calls (snd (run_handler E body w)) = calls (snd (body w)).
Proof. unfold run_handler. now destruct (body w) as [[[] | e] w']. Qed.

Lemma handler_calls (E : Env) (n : nat) (body : M unit) (w : world) :
  calls_added n body ->
  exists l, calls (snd (run_handler E body w)) = calls w ++ l /\ (length l <= n)%nat.
Proof. intros H. rewrite run_handler_calls. apply H. Qed.

(** X14.  The remote calls of one invocation are bounded: the read
    operation and the create operation of the listener and of the rule
    make at most two calls each, those of the load balancer at most
    three; a whole invocation makes at most 8 calls in the listener
    handler, 9 in the rule handler and 15 in the load balancer handler,
    whatever the event, the handler object and the provider's
    answers. *)
Theorem calls_per_invocation (E : Env) (event context : pyval) (w : world) :
  (forall attributes region prev_state,
      calls_added 2 (Listener.get_listener E attributes region prev_state)
      /\ calls_added 2 (Listener.create_listener E attributes region prev_state)
      /\ calls_added 2 (Rule.get_rule E attributes region prev_state)
      /\ calls_added 2 (Rule.create_rule E attributes region prev_state))
  /\ (forall name attributes special_attributes defaults region prev_state,
         calls_added 3 (LoadBalancer.get_load_balancer
                          E name attributes special_attributes defaults region prev_state)
         /\ calls_added 3 (LoadBalancer.create_load_balancer
                             E attributes special_attributes defaults region prev_state))
  /\ (exists l, calls (snd (Listener.lambda_handler E event context w)) = calls w ++ l
                /\ (length l <= 8)%nat)
  /\ (exists l, calls (snd (Rule.lambda_handler E event context w)) = calls w ++ l
                /\ (length l <= 9)%nat)
  /\ (exists l, calls (snd (LoadBalancer.lambda_handler E event context w)) = calls w ++ l
                /\ (length l <= 15)%nat).
Proof.
  split; [| split; [| split; [| split]]].
  - intros attributes region prev_state. repeat split; ca_op.
  - intros name attributes special_attributes defaults region prev_state.
    repeat split; ca_op.
  - apply handler_calls. unfold Listener.handler_body. ca_op.
  - apply handler_calls. unfold Rule.handler_body. ca_op.
  - apply handler_calls. unfold LoadBalancer.handler_body. ca_op.
Qed.

(* ================================================================== *)
(** ** What the update operations send *)
(* ================================================================== *)

Lemma calls_added_none {A} (c : M A) (w : world) :
  calls_added 0 c -> calls (snd (c w)) = calls w.
Proof.
  intros H. destruct (H w) as (l & Hl & Hn).
  destruct l; [now rewrite app_nil_r in Hl | cbn in Hn; lia].
Qed.

(** A [try] that starts with a remote call and makes no other. *)
Lemma one_call {A} (E : Env) (method : string) (kwargs : pydict)
      (rest : pyval -> M A) (handler : exn -> option (M A)) (w : world) :
  (forall r, calls_added 0 (rest r)) ->
  (forall e h, handler e = Some h -> calls_added 0 h) ->
  calls (snd (try_except (mbind (boto E method kwargs) rest) handler w))
  = calls w ++ [(method, kwargs)].
Proof.
  intros Hrest Hhandler. unfold try_except, mbind, boto.
  set (w0 := mk_world (eh w) (calls w ++ [(method, kwargs)])).
  destruct (client E (calls w) method kwargs) as [r | e].
  - pose proof (calls_added_none _ w0 (Hrest r)) as Hr.
    destruct (rest r w0) as [[a | e] w1]; cbn [snd] in *; [exact Hr |].
    destruct (handler e) as [h |] eqn:He; [| exact Hr].
    now rewrite (calls_added_none _ _ (Hhandler e h He)).
  - destruct (handler e) as [h |] eqn:He; [| reflexivity].
    now rewrite (calls_added_none _ _ (Hhandler e h He)).
Qed.

Lemma bind_state_item {A} (k : string) (f : pyval -> M A) (w : world) (v : pyval) :
  py_item (PDict (state (eh w))) k = Ok v ->
  mbind (eh_state_item k) f w = f v w.
Proof. intros H. unfold mbind, eh_state_item. now rewrite H. Qed.

Lemma update_arguments_set (names : list string) (items : list (string * pyval))
      (id_key : string) (id : pyval) :
  distinct (map fst items) = true ->
  update_arguments (sset (without_keys names (str_items items)) id_key id)
                   (str_items items) id_key id names.
Proof.
  intros Hd k. unfold sset.
  destruct (String.eqb k id_key) eqn:Hk.
  - apply String.eqb_eq in Hk. subst k. apply dict_find_set_same.
  - apply String.eqb_neq in Hk.
    rewrite dict_find_set_other by congruence.
    now apply without_keys_find.
Qed.

(** X9.  [update_listener] sends the declared attributes to
    [modify_listener] without the tags and the load balancer, with the
    recorded listener as [ListenerArn]; the declared port is among what
    it sends.  [update_rule] sends them to [modify_rule] without the
    tags, the listener and the priority, with the recorded rule as
    [RuleArn].  Each makes this one call and no other. *)
Theorem update_arguments_sent (E : Env) (items : list (string * pyval))
        (region prev_state arn : pyval) (w : world) :
  distinct (map fst items) = true ->
  let attributes := str_items items in
  (py_item (PDict (state (eh w))) "listener_arn" = Ok arn ->
   exists payload,
     calls (snd (Listener.update_listener_body E attributes region prev_state w))
     = calls w ++ [("modify_listener", payload)]
     /\ update_arguments payload attributes "ListenerArn" arn ["Tags"; "LoadBalancerArn"])
  /\ (py_item (PDict (state (eh w))) "rule_arn" = Ok arn ->
      exists payload,
        calls (snd (Rule.update_rule_body E attributes region prev_state w))
        = calls w ++ [("modify_rule", payload)]
        /\ update_arguments payload attributes "RuleArn" arn
                            ["Tags"; "ListenerArn"; "Priority"]).
Proof.
  intros Hd attributes. split; intros Hstate; eexists; split.
  - unfold Listener.update_listener_body.
    rewrite (bind_state_item _ _ _ _ Hstate). cbv zeta.
    apply one_call.
    + intros r. ca_op.
    + intros e h H. ca_op.
  - now apply update_arguments_set.
  - unfold Rule.update_rule_body.
    rewrite (bind_state_item _ _ _ _ Hstate). cbv zeta.
    apply one_call.
    + intros r. ca_op.
    + intros e h H. ca_op.
  - now apply update_arguments_set.
Qed.

Lemma update_arguments_sent_witness :
  let items := [("LoadBalancerArn", PStr "arn:lb/1"); ("Protocol", PStr "HTTPS");
                ("Port", PInt 8443); ("Tags", PList [])] in
  let w := Examples.world_with [] [(PStr "listener_arn", PStr "arn:listener/1")] in
  exists payload,
    calls (snd (Listener.update_listener_body (Examples.env []) (str_items items)
                                              (PStr "us-east-1") (PDict []) w))
    = [("modify_listener", payload)]
    /\ dict_find payload (PStr "ListenerArn") = Some (PStr "arn:listener/1")
    /\ dict_find payload (PStr "Port") = Some (PInt 8443)
    /\ dict_find payload (PStr "LoadBalancerArn") = None
    /\ dict_find payload (PStr "Tags") = None.
Proof.
  intros items w.
  destruct (update_arguments_sent (Examples.env []) items (PStr "us-east-1") (PDict [])
                                  (PStr "arn:listener/1") w eq_refl) as [H _].
  destruct (H eq_refl) as (payload & Hcalls & Hargs).
  exists payload. split; [exact Hcalls |].
  split; [exact (Hargs "ListenerArn") |].
  split; [exact (Hargs "Port") |].
  split; [exact (Hargs "LoadBalancerArn") | exact (Hargs "Tags")].
Defined.

(** X10.  When the provider accepts the new priority,
    [update_rule_priority] sends [int(priority)] for the recorded rule
    and records the declared priority in the props under the key
    ["Priority"]; the prop ["priority"], the one the other operations
    write and read, keeps the value it had. *)
Theorem priority_recorded_under_another_key (E : Env) (priority arn answer : pyval)
        (z : Z) (w : world) :
  py_item (PDict (state (eh w))) "rule_arn" = Ok arn ->
  py_truthy priority = true ->
  py_int E priority = Ok z ->
  client E (calls w) "set_rule_priorities"
         (kw [("RulePriorities",
               PList [PDict (kw [("RuleArn", arn); ("Priority", PInt z)])])])
    = Ok answer ->
  let r := Rule.update_rule_priority_body E priority w in
  fst r = Ok tt
  /\ calls (snd r)
     = calls w ++ [("set_rule_priorities",
                    kw [("RulePriorities",
                         PList [PDict (kw [("RuleArn", arn); ("Priority", PInt z)])])])]
  /\ sget (props (eh (snd r))) "Priority" = priority
  /\ sget (props (eh (snd r))) "priority" = sget (props (eh w)) "priority".
Proof.
  intros Hstate Htruthy Hint Hcall r. subst r.
  unfold Rule.update_rule_priority_body.
  rewrite (bind_state_item _ _ _ _ Hstate).
  unfold try_except, mbind, lift, boto, int_if. rewrite Htruthy, Hint. cbn [rbind].
  rewrite Hcall. eh_simpl.
  repeat split.
  - apply sget_sset_same.
  - apply sget_sset_other. discriminate.
Qed.

Lemma priority_recorded_under_another_key_witness :
  let E := Examples.env [("set_rule_priorities", Ok (PDict []))] in
  let w := mk_world (mk_eh [] (kw [("priority", PStr "10")]) []
                           (kw [("rule_arn", PStr "arn:rule/1")]) [] [] None) [] in
  let r := Rule.update_rule_priority_body E (PInt 20) w in
  sget (props (eh (snd r))) "Priority" = PInt 20
  /\ sget (props (eh (snd r))) "priority" = PStr "10".
Proof.
  intros E w r.
  destruct (priority_recorded_under_another_key
              E (PInt 20) (PStr "arn:rule/1") (PDict []) 20 w
              eq_refl eq_refl eq_refl eq_refl) as (_ & _ & Hnew & Hold).
  split; [exact Hnew | exact Hold].
Defined.

(* ================================================================== *)
(** ** Answers of the provider that hold nothing *)
(* ================================================================== *)

(** X15.  A lookup that answers without an error but holds no
    resource (the list is missing or empty) is read differently by the
    handlers.  [get_listener] and [get_rule] log that the resource does
    not exist and enqueue its creation.  [get_load_balancer] logs "Did
    not find load balancer" and does nothing else: nothing is enqueued,
    no return is declared, and the state, the props and the links stay
    as they are, so no load balancer is created. *)
Theorem empty_answer (E : Env) (attributes special_attributes defaults : pydict)
        (name region prev_state response : pyval) (w : world) :
  (forall arn,
      (p <~ py_get_default prev_state "props" (PDict []) ;; py_get p "arn") = Ok arn ->
      py_truthy arn = true ->
      (client E (calls w) "describe_listeners" (kw [("ListenerArns", PList [arn])])
         = Ok response ->
       holds_none response "Listeners" ->
       let r := Listener.get_listener_body E attributes region prev_state w in
       fst r = Ok tt
       /\ eh (snd r)
          = add_op "create_listener" (PBool true)
              (add_log "Listener Does Not Exist"
                       (PDict (kw [("listener_arn", arn)])) false (eh w)))
      /\ (client E (calls w) "describe_rules" (kw [("RuleArns", PList [arn])])
            = Ok response ->
          holds_none response "Rules" ->
          let r := Rule.get_rule_body E attributes region prev_state w in
          fst r = Ok tt
          /\ eh (snd r)
             = add_op "create_rule" (PBool true)
                 (add_log "Listener Rule Does Not Exist"
                          (PDict (kw [("listener_arn", arn)])) false (eh w))))
  /\ (LoadBalancer.name_changed name prev_state = Ok false ->
      client E (calls w) "describe_load_balancers" (kw [("Names", PList [name])])
        = Ok response ->
      holds_none response "LoadBalancers" ->
      let r := LoadBalancer.get_load_balancer_body
                 E name attributes special_attributes defaults region prev_state w in
      fst r = Ok tt
      /\ map log_title (logs (eh (snd r)))
         = map log_title (logs (eh w)) ++ ["Did not find load balancer"]
      /\ ops (eh (snd r)) = ops (eh w)
      /\ ret (eh (snd r)) = ret (eh w)
      /\ state (eh (snd r)) = state (eh w)
      /\ props (eh (snd r)) = props (eh w)
      /\ links (eh (snd r)) = links (eh w)).
Proof.
  split.
  - intros arn Harn Htruthy. split; intros Hcall Hempty r; subst r;
      apply nonempty_field_none in Hempty.
    + unfold Listener.get_listener_body, mbind, lift. rewrite Harn, Htruthy.
      unfold try_except, mbind, boto, lift. rewrite Hcall, Hempty.
      unfold Listener.does_not_exist, mbind. eh_simpl. auto.
    + destruct (props_get_total prev_state arn "listener_arn" Harn) as [l Hl].
      unfold Rule.get_rule_body, mbind, lift. rewrite Harn, Hl, Htruthy.
      unfold try_except, mbind, boto, lift. rewrite Hcall, Hempty.
      unfold Rule.does_not_exist, mbind. eh_simpl. auto.
  - intros Hname Hcall Hempty r. subst r. apply nonempty_field_none in Hempty.
    unfold LoadBalancer.get_load_balancer_body, mbind, lift. rewrite Hname.
    unfold try_except, mbind, boto, lift. rewrite Hcall, Hempty.
    eh_simpl. rewrite map_app. auto 10.
Qed.

Lemma empty_answer_witness :
  let E := Examples.env
             [("describe_load_balancers", Ok (PDict (kw [("LoadBalancers", PList [])])));
              ("describe_listeners", Ok (PDict (kw [("Listeners", PList [])])))] in
  let recorded := PDict (kw [("props", PDict (kw [("arn", PStr "arn:listener/1")]))]) in
  let w := Examples.world_with [(PStr "get_load_balancer", PBool true);
                                (PStr "get_listener", PBool true)] [] in
  let r := LoadBalancer.get_load_balancer_body E (PStr "web") [] [] [] (PStr "us-east-1")
                                               (PDict []) w in
  let r' := Listener.get_listener_body E [] (PStr "us-east-1") recorded w in
  (fst r = Ok tt /\ ops (eh (snd r)) = ops (eh w) /\ ret (eh (snd r)) = None
   /\ map log_title (logs (eh (snd r))) = ["Did not find load balancer"])
  /\ (fst r' = Ok tt
      /\ sget (ops (eh (snd r'))) "create_listener" = PBool true
      /\ map log_title (logs (eh (snd r'))) = ["Listener Does Not Exist"]).
Proof.
  intros E recorded w r r'. split.
  - destruct (empty_answer E [] [] [] (PStr "web") (PStr "us-east-1") (PDict [])
                           (PDict (kw [("LoadBalancers", PList [])])) w) as [_ H].
    assert (Hnone : holds_none (PDict (kw [("LoadBalancers", PList [])])) "LoadBalancers")
      by (eexists; split; [reflexivity | right; reflexivity]).
    destruct (H eq_refl eq_refl Hnone) as (Hok & Hlogs & Hops & Hret & _).
    repeat split; assumption.
  - destruct (empty_answer E [] [] [] (PStr "web") (PStr "us-east-1") recorded
                           (PDict (kw [("Listeners", PList [])])) w) as [H _].
    destruct (H (PStr "arn:listener/1") eq_refl eq_refl) as [Hlistener _].
    assert (Hnone : holds_none (PDict (kw [("Listeners", PList [])])) "Listeners")
      by (eexists; split; [reflexivity | right; reflexivity]).
    destruct (Hlistener eq_refl Hnone) as [Hok Heh].
    fold r' in Hok, Heh. rewrite Heh. split; [exact Hok | split; reflexivity].
Defined.

(** X16.  The first action of a rule and of a listener, and the first
    certificate of a listener, are read with [x.get(key, [{}])[0]]: an
    answer without the key gives [None] for the fields read from it,
    an answer that holds an empty list under the key raises
    [IndexError]. *)
Theorem first_of_list (x : pydict) (k : string) :
  (dict_find x (PStr "Actions") = None ->
   Rule.first_action (PDict x) k = Ok PNone)
  /\ (dict_find x (PStr "Actions") = Some (PList []) ->
      Rule.first_action (PDict x) k = Raise IndexError)
  /\ (dict_find x (PStr "DefaultActions") = None ->
      dict_find x (PStr "Certificates") = None ->
      exists recorded,
        Listener.listener_props (PDict x) = Ok recorded
        /\ sget recorded "action_type" = PNone
        /\ sget recorded "target_group_arn" = PNone
        /\ sget recorded "certificate_arn" = PNone)
  /\ (dict_find x (PStr "DefaultActions") = Some (PList []) ->
      Listener.listener_props (PDict x) = Raise IndexError)
  /\ (dict_find x (PStr "DefaultActions") = None ->
      dict_find x (PStr "Certificates") = Some (PList []) ->
      Listener.listener_props (PDict x) = Raise IndexError).
Proof.
  unfold Rule.first_action, Listener.listener_props, py_get, py_get_default,
    dict_get_default.
  repeat split.
  - now intros ->.
  - now intros ->.
  - intros -> ->. cbn [rbind py_first]. eexists. split; [reflexivity |].
    repeat split; reflexivity.
  - now intros ->.
  - now intros -> ->.
Qed.

(** X17.  When the resource is gone at the time its tags are removed,
    [remove_tags] of the listener handler and of the load balancer
    handler add one entry to the log ("Listener Not Found", "Load
    Balancer Not Found", with the identifier) and change nothing else
    of the handler object: no return is declared and the pass goes on.
    [remove_tags] of the rule handler looks for
    [ListenerNotFoundException], so for a rule that is gone
    ([RuleNotFoundException]) the error goes to [handle_common_errors]
    with progress 90, and what happens next is what that decides. *)
Theorem remove_tags_on_missing_resource (E : Env) (arn : pyval) (msg : string)
        (w : world) :
  let kwargs := kw [("ResourceArns", PList [arn]);
                    ("TagKeys", sget (ops (eh w)) "remove_tags")] in
  (py_item (PDict (state (eh w))) "listener_arn" = Ok arn ->
   client E (calls w) "remove_tags" kwargs
     = Raise (ClientError "ListenerNotFoundException" msg) ->
   let r := Listener.remove_tags_body E w in
   fst r = Ok tt
   /\ eh (snd r) = add_log "Listener Not Found" (PDict (kw [("arn", arn)])) false (eh w))
  /\ (py_item (PDict (state (eh w))) "load_balancer_arn" = Ok arn ->
      client E (calls w) "remove_tags" kwargs
        = Raise (ClientError "LoadBalancerNotFoundException" msg) ->
      let r := LoadBalancer.remove_tags_body E w in
      fst r = Ok tt
      /\ eh (snd r)
         = add_log "Load Balancer Not Found" (PDict (kw [("arn", arn)])) false (eh w))
  /\ (py_item (PDict (state (eh w))) "rule_arn" = Ok arn ->
      client E (calls w) "remove_tags" kwargs
        = Raise (ClientError "RuleNotFoundException" msg) ->
      let r := Rule.remove_tags_body E w in
      fst r = Ok tt
      /\ eh (snd r)
         = handle_common_errors E (ClientError "RuleNotFoundException" msg)
                                "Error Removing Listener Rule Tags" 90 (eh w)).
Proof.
  intros kwargs. subst kwargs. split; [| split]; intros Hstate Hcall r; subst r.
  - unfold Listener.remove_tags_body, try_except, mbind, boto, eh_ops_get, eh_state_item.
    rewrite Hstate, Hcall.
    unfold clauses, clause, common_clause, exn_is, is_client_error.
    cbn [String.eqb Ascii.eqb Bool.eqb]. unfold eh_add_log, modify_eh.
    cbn [eh calls fst snd]. auto.
  - unfold LoadBalancer.remove_tags_body, try_except, mbind, boto, eh_ops_get, eh_state_item.
    rewrite Hstate, Hcall.
    unfold clauses, LoadBalancer.lb_not_found, clause, common_clause, exn_is,
      is_client_error.
    cbn [String.eqb Ascii.eqb Bool.eqb]. unfold eh_add_log, modify_eh.
    cbn [eh calls fst snd]. auto.
  - unfold Rule.remove_tags_body, try_except, mbind, boto, eh_ops_get, eh_state_item.
    rewrite Hstate, Hcall.
    unfold clauses, clause, common_clause, exn_is, is_client_error.
    cbn [String.eqb Ascii.eqb Bool.eqb]. eh_simpl. auto.
Qed.

Lemma remove_tags_on_missing_resource_witness :
  let gone cls := Raise (ClientError cls "not found") in
  let w := Examples.world_with [(PStr "remove_tags", PList [PStr "env"])]
                               [(PStr "listener_arn", PStr "arn:1");
                                (PStr "load_balancer_arn", PStr "arn:1");
                                (PStr "rule_arn", PStr "arn:1")] in
  let entry title := mk_log title (PDict (kw [("arn", PStr "arn:1")])) false in
  let after E body := eh (snd (body E w)) in
  (logs (after (Examples.env [("remove_tags", gone "ListenerNotFoundException")])
               Listener.remove_tags_body) = [entry "Listener Not Found"]
   /\ ret (after (Examples.env [("remove_tags", gone "ListenerNotFoundException")])
                 Listener.remove_tags_body) = None)
  /\ (logs (after (Examples.env [("remove_tags", gone "LoadBalancerNotFoundException")])
                  LoadBalancer.remove_tags_body) = [entry "Load Balancer Not Found"]
      /\ ret (after (Examples.env [("remove_tags", gone "LoadBalancerNotFoundException")])
                    LoadBalancer.remove_tags_body) = None)
  /\ is_retry (after (Examples.env [("remove_tags", gone "RuleNotFoundException")])
                     Rule.remove_tags_body) = true.
Proof.
  intros gone w entry after. subst after. cbv beta.
  split; [| split].
  - destruct (remove_tags_on_missing_resource
                (Examples.env [("remove_tags", gone "ListenerNotFoundException")])
                (PStr "arn:1") "not found" w) as (H & _ & _).
    destruct (H eq_refl eq_refl) as [_ Heh]. rewrite Heh. split; reflexivity.
  - destruct (remove_tags_on_missing_resource
                (Examples.env [("remove_tags", gone "LoadBalancerNotFoundException")])
                (PStr "arn:1") "not found" w) as (_ & H & _).
    destruct (H eq_refl eq_refl) as [_ Heh]. rewrite Heh. split; reflexivity.
  - destruct (remove_tags_on_missing_resource
                (Examples.env [("remove_tags", gone "RuleNotFoundException")])
                (PStr "arn:1") "not found" w) as (_ & _ & H).
    destruct (H eq_refl eq_refl) as [_ Heh]. rewrite Heh. reflexivity.
Defined.
(* ------------------------------------------------------------------ *)
(** *** C8: the fields the comparison looks at *)














